(** * Commission accounting of the influencer backend

    A shallow embedding of the commission pipeline of the backend:
    the tier resolver ([calculateCommission] of the webhook controller and
    [calculateCommissionForSale] of the commission service), the three
    webhook handlers, the payment generator and the bulk replacement of
    the tier table; around them the token check and the routes of the
    webhooks, the payment request of the commission controller and the
    request built by the messaging service.

    A number that the code reads (a JSON number, a parsed total, a field
    of a tier or the value of a sale) is given by its exact value, a
    rational ([Q]); [NaN] is a separate constructor where the source can
    produce it.  A number that the code computes (a commission, a total) is
    an IEEE 754 double ([double]): the arithmetic rounds to the nearest
    double, ties to even, and overflows to an infinity; the sign of zero is
    not modelled.  Strings are sequences of one-byte characters.  MongoDB
    collections are lists of documents in insertion order, [ObjectId]s are
    natural numbers and dates are milliseconds.  The built-ins of
    JavaScript and of mongoose that the code calls, and the user
    collection, are parameters ([Runtime], [UserDirectory]).

    The definitions come first, in the order of the source files; the
    properties follow, and the examples close the file. *)

From Stdlib Require Import List Bool Arith ZArith QArith Lia String Ascii DecimalString.
Import ListNotations.
Local Open Scope string_scope.
Local Open Scope list_scope.
Local Open Scope Q_scope.
Set Warnings "-register-all".

(** ** Numbers: IEEE 754 binary64 *)

Inductive double :=
| DNaN
| DInf (negative : bool)
| DFin (q : Q).

(** [n / d] rounded to the nearest integer, ties to even. *)
Definition roundHalfEven (n : Z) (d : positive) : Z :=
  let q := (n / Zpos d)%Z in
  let r := (n mod Zpos d)%Z in
  match (2 * r ?= Zpos d)%Z with
  | Lt => q
  | Gt => (q + 1)%Z
  | Eq => if Z.even q then q else (q + 1)%Z
  end.

(** The fraction [n / d * 2 ^ k]. *)
Definition scale2 (n d : positive) (k : Z) : positive * positive :=
  match k with
  | Z0 => (n, d)
  | Zpos k' => (Pos.shiftl n (Npos k'), d)
  | Zneg k' => (n, Pos.shiftl d (Npos k'))
  end.

(** The [e] with [2 ^ e <= n / d < 2 ^ (e + 1)]. *)
Definition binadeOf (n d : positive) : Z :=
  let e := (Z.log2 (Zpos n) - Z.log2 (Zpos d))%Z in
  let (n', d') := scale2 n d (- e) in
  if (d' <=? n')%positive then e else (e - 1)%Z.

(** The double nearest to [n / d]: 53 bits of precision, the exponent of the
    last bit not below -1074, an infinity from [2 ^ 1024 - 2 ^ 970] on. *)
Definition roundPositive (n d : positive) : double :=
  let e := binadeOf n d in
  let p := Z.max (e - 52) (-1074) in
  let (n', d') := scale2 n d (- p) in
  let m := roundHalfEven (Zpos n') d' in
  if (1023 <=? e)%Z && (2 ^ (1024 - p) <=? m)%Z then DInf false
  else DFin (Qred (if (0 <=? p)%Z then inject_Z (m * 2 ^ p)
                  else Qmake m (Z.to_pos (2 ^ (- p))))).

Definition dneg (x : double) : double :=
  match x with
  | DNaN => DNaN
  | DInf s => DInf (negb s)
  | DFin q => DFin (- q)
  end.

Definition round (q : Q) : double :=
  match Qnum q with
  | Z0 => DFin 0
  | Zpos n => roundPositive n (Qden q)
  | Zneg n => dneg (roundPositive n (Qden q))
  end.

(** A rational that is not a double stands for the nearest double, as the
    literal of it does; one beyond the range stands for an infinity. *)
Definition nearest (x : double) : double :=
  match x with
  | DFin q => round q
  | _ => x
  end.

Definition isNegative (q : Q) : bool := (Qnum q <? 0)%Z.

Definition isZeroQ (q : Q) : bool := (Qnum q =? 0)%Z.

(** [a + b] *)
Definition dadd (a b : double) : double :=
  match nearest a, nearest b with
  | DNaN, _ | _, DNaN => DNaN
  | DInf s, DInf s' => if Bool.eqb s s' then DInf s else DNaN
  | DInf s, DFin _ | DFin _, DInf s => DInf s
  | DFin x, DFin y => round (x + y)
  end.

(** [a * b] *)
Definition dmul (a b : double) : double :=
  match nearest a, nearest b with
  | DNaN, _ | _, DNaN => DNaN
  | DInf s, DInf s' => DInf (xorb s s')
  | DInf s, DFin y | DFin y, DInf s =>
      if isZeroQ y then DNaN else DInf (xorb s (isNegative y))
  | DFin x, DFin y => round (x * y)
  end.

(** [a / b] *)
Definition ddiv (a b : double) : double :=
  match nearest a, nearest b with
  | DNaN, _ | _, DNaN => DNaN
  | DInf _, DInf _ => DNaN
  | DInf s, DFin y => DInf (xorb s (isNegative y))
  | DFin _, DInf _ => DFin 0
  | DFin x, DFin y =>
      if isZeroQ y then (if isZeroQ x then DNaN else DInf (isNegative x))
      else round (x / y)
  end.

Definition isDNaN (x : double) : bool :=
  match x with
  | DNaN => true
  | _ => false
  end.

(** [x >= 0] *)
Definition dnonnegb (x : double) : bool :=
  match nearest x with
  | DNaN => false
  | DInf negative => negb negative
  | DFin q => Qle_bool 0 q
  end.

Definition dnonneg (x : double) : Prop := dnonnegb x = true.

(** A double that is not negative, by its value. *)
Definition NonNeg (x : double) : Prop :=
  match x with
  | DNaN => False
  | DInf negative => negative = false
  | DFin q => 0 <= q
  end.

(** ** Commission tiers (models/CommissionTier) *)

(** [appliesTo] and [roleAtPayment]: ['influencer' | 'manager']. *)
Inductive Role := INFLUENCER | MANAGER.

Definition Role_eqb (a b : Role) : bool :=
  match a, b with
  | INFLUENCER, INFLUENCER | MANAGER, MANAGER => true
  | _, _ => false
  end.

Record ICommissionTier := mkTier {
  tierName : string;
  minSalesValue : Q;
  maxSalesValue : option Q;
  commissionPercentage : Q;
  appliesTo : Role;
  isActive : bool
}.

(** The filter of
    [CommissionTier.find({ appliesTo: role, isActive: true,
                           minSalesValue: { $lte: saleValue } })]. *)
Definition tierQuery (role : Role) (saleValue : Q) (t : ICommissionTier) : bool :=
  Role_eqb (appliesTo t) role && isActive t && Qle_bool (minSalesValue t) saleValue.

(** [.sort({ minSalesValue: -1 })]: descending on [minSalesValue]; documents
    with equal keys keep their collection order. *)
Fixpoint insertDesc (t : ICommissionTier) (l : list ICommissionTier) : list ICommissionTier :=
  match l with
  | [] => [t]
  | x :: r =>
      if Qle_bool (minSalesValue x) (minSalesValue t) then t :: x :: r
      else x :: insertDesc t r
  end.

Definition sortByMinDesc (l : list ICommissionTier) : list ICommissionTier :=
  fold_right insertDesc [] l.

(** controllers/webhookController.ts, [calculateCommission]. *)
Definition calculateCommission (tiers : list ICommissionTier) (saleValue : Q) (role : Role)
  : double :=
  match sortByMinDesc (filter (tierQuery role saleValue) tiers) with
  | [] => DFin 0
  | applicableTier :: _ =>
      dmul (DFin saleValue) (ddiv (DFin (commissionPercentage applicableTier)) (DFin 100))
  end.

(** services/commissionService.ts, [calculateCommissionForSale]. *)
Definition calculateCommissionForSale (tiers : list ICommissionTier) (saleValue : Q) (role : Role)
  : double :=
  match sortByMinDesc (filter (tierQuery role saleValue) tiers) with
  | [] => DFin 0
  | applicableTier :: _ =>
      dmul (DFin saleValue) (ddiv (DFin (commissionPercentage applicableTier)) (DFin 100))
  end.

(** A tier is applicable to a sale when the query selects it. *)
Definition applicable (role : Role) (saleValue : Q) (t : ICommissionTier) : Prop :=
  appliesTo t = role /\ isActive t = true /\ minSalesValue t <= saleValue.

(** The sort only reads [minSalesValue]. *)
Definition withMax (f : ICommissionTier -> option Q) (t : ICommissionTier) : ICommissionTier :=
  mkTier (tierName t) (minSalesValue t) (f t) (commissionPercentage t) (appliesTo t) (isActive t).


(** ** JavaScript values

    A request body is what [express.json()] parses: JSON, whose numbers are
    finite.  [VUndefined] is the value of a property that is not there. *)

Inductive value :=
| VUndefined
| VNull
| VBool (b : bool)
| VNumber (q : Q)
| VString (s : string)
| VArray (items : list value)
| VObject (fields : list (string * value)).

(** A JavaScript number that may be [NaN] (the result of [parseFloat]). *)
Inductive num := NaN | Num (q : Q).

(** A local variable that holds a request value or [NaN]. *)
Inductive jsval := JNaN | JVal (v : value).

Definition ofNum (n : num) : jsval :=
  match n with NaN => JNaN | Num q => JVal (VNumber q) end.

(** ToBoolean. *)
Definition truthy (v : value) : bool :=
  match v with
  | VUndefined | VNull => false
  | VBool b => b
  | VNumber q => negb (Qeq_bool q 0)
  | VString s => negb (String.eqb s EmptyString)
  | VArray _ | VObject _ => true
  end.

(** [a || b] *)
Definition jsOr (a b : value) : value := if truthy a then a else b.

Fixpoint assoc (k : string) (fields : list (string * value)) : value :=
  match fields with
  | [] => VUndefined
  | (k', v) :: r => if String.eqb k k' then v else assoc k r
  end.

(** Reading one of the property names the handlers use ([order], [id],
    [total_price], [code], ...) from a value that is neither [null] nor
    [undefined]: primitives and arrays have no such property. *)
Definition field (v : value) (k : string) : value :=
  match v with
  | VObject fields => assoc k fields
  | _ => VUndefined
  end.

(** What a handler can throw, and the errors of the persistence layer. *)
Inductive Error :=
| TypeError            (* property access on null or undefined *)
| BadFormat            (* 'Formato incorreto do webhook ...' *)
| IncompleteData       (* 'Dados da venda incompletos ...' *)
| InfluencerNotFound   (* 'Nenhum influenciador encontrado com o cupom ...' *)
| InvalidInput         (* the messages of the tier validation *)
| CastError            (* mongoose cannot cast a value to the schema type *)
| ValidationError      (* a schema validator rejects the document *)
| DuplicateKey         (* E11000 on a unique index *)
| PersistenceError.    (* any other failure of the store *)

(** A computation that may throw.  [Throw c e] records [res.statusCode] at
    the time of the throw ([200] unless [res.status] was called before). *)
Inductive Result (A : Type) :=
| Ok (a : A)
| Throw (statusCode : nat) (e : Error).
Arguments Ok {A} a.
Arguments Throw {A} statusCode e.

Definition bind {A B} (c : Result A) (k : A -> Result B) : Result B :=
  match c with
  | Ok a => k a
  | Throw s e => Throw s e
  end.

Notation "x <- c ;; k" := (bind c (fun x => k))
  (at level 61, c at next level, right associativity).

(** [v.k] where [v] may be [null] or [undefined]. *)
Definition getProp (v : value) (k : string) : Result value :=
  match v with
  | VUndefined | VNull => Throw 200 TypeError
  | _ => Ok (field v k)
  end.

(** [v.length] *)
Definition jsLength (v : value) : value :=
  match v with
  | VArray items => VNumber (inject_Z (Z.of_nat (List.length items)))
  | VString s => VNumber (inject_Z (Z.of_nat (String.length s)))
  | _ => field v "length"
  end.

(** [v === 0] *)
Definition isZero (v : value) : bool :=
  match v with
  | VNumber q => Qeq_bool q 0
  | _ => false
  end.

(** [v[0]] for a truthy [v]. *)
Definition index0 (v : value) : value :=
  match v with
  | VArray items => hd VUndefined items
  | VString s => match s with
                 | String c _ => VString (String c EmptyString)
                 | EmptyString => VUndefined
                 end
  | _ => field v "0"
  end.

(** *** Strings *)

Definition isDigit (c : ascii) : bool :=
  let n := nat_of_ascii c in ((48 <=? n) && (n <=? 57))%nat.

(** The characters kept by [replace(/[^\d.-]/g, '')]. *)
Definition isNumericChar (c : ascii) : bool :=
  isDigit c || Ascii.eqb c "."%char || Ascii.eqb c "-"%char.

Fixpoint filterString (f : ascii -> bool) (s : string) : string :=
  match s with
  | EmptyString => EmptyString
  | String c r => if f c then String c (filterString f r) else filterString f r
  end.

Definition stripNonNumeric (s : string) : string := filterString isNumericChar s.

(** White space of [String.prototype.trim] among the one-byte characters. *)
Definition isSpace (c : ascii) : bool :=
  let n := nat_of_ascii c in
  ((9 <=? n) && (n <=? 13) || (n =? 32) || (n =? 160))%nat.

Fixpoint trimStart (s : string) : string :=
  match s with
  | String c r => if isSpace c then trimStart r else s
  | EmptyString => EmptyString
  end.

Fixpoint trimEnd (s : string) : string :=
  match s with
  | EmptyString => EmptyString
  | String c r =>
      match trimEnd r with
      | EmptyString => if isSpace c then EmptyString else String c EmptyString
      | r' => String c r'
      end
  end.

Definition trim (s : string) : string := trimEnd (trimStart s).

(** *** Built-ins of the platform

    The conversions of the language and of mongoose that the handlers call
    are left abstract: every statement below holds whatever they compute. *)
Class Runtime := {
  (** [Number.prototype.toString] *)
  numberToString : Q -> string;
  (** [toString] of an array or an object *)
  objectToString : value -> string;
  (** [parseFloat] on a string *)
  parseFloatString : string -> num;
  (** [Number(s)] *)
  stringToNumber : string -> num;
  (** mongoose's cast of a value that is not a string to [String];
      [None] is a [CastError] *)
  castToString : value -> option string;
  (** mongoose's cast to [Number]; [None] is a [CastError] *)
  castToNumber : value -> option Q;
  (** [new Date(v)] in milliseconds; [None] is an invalid date *)
  newDate : value -> option Z;
  (** mongoose's reading of a filter value that is not a string on a
      [String] path, as a predicate on the stored strings (a cast value or
      a query operator); [None] is a [CastError] *)
  stringFilter : value -> option (string -> bool);
  (** [value.toLocaleString('pt-BR', { style: 'currency', currency: 'BRL' })] *)
  formatCurrency : Q -> string
}.

Section Builtins.
Context `{Runtime}.

(** [v.toString()] for a truthy [v]. *)
Definition toString (v : value) : string :=
  match v with
  | VString s => s
  | VNumber q => numberToString q
  | VBool true => "true"
  | VBool false => "false"
  | VNull => "null"
  | VUndefined => "undefined"
  | VArray _ | VObject _ => objectToString v
  end.

(** [parseFloat(v)]: the argument is converted to a string first; a number
    is the value of its own rendering. *)
Definition parseFloat (v : value) : num :=
  match v with
  | VNumber q => Num q
  | _ => parseFloatString (toString v)
  end.

(** ToNumber. *)
Definition toNumber (v : value) : num :=
  match v with
  | VUndefined => NaN
  | VNull => Num 0
  | VBool b => Num (if b then 1 else 0)
  | VNumber q => Num q
  | VString s => stringToNumber s
  | VArray _ | VObject _ => stringToNumber (objectToString v)
  end.

(** [isNaN(x)] *)
Definition isNaN (x : jsval) : bool :=
  match x with
  | JNaN => true
  | JVal v => match toNumber v with NaN => true | Num _ => false end
  end.

(** A value stored in a [String] path of a schema. *)
Definition castString (v : value) : option string :=
  match v with
  | VString s => Some s
  | _ => castToString v
  end.

(** A value stored in a [Number] path of a schema. *)
Definition castNumber (v : value) : option Q :=
  match v with
  | VNumber q => Some q
  | _ => castToNumber v
  end.

End Builtins.

(** ** Documents and collections *)

Definition ObjectId := nat.

(** models/User: the fields the pipeline reads. *)
Record IUser := mkUser {
  userId : ObjectId;
  userManager : option ObjectId;
  whatsappNumber : option string;
  tokenWhats : option string
}.

(** The user collection is owned by the account management; the pipeline
    only queries it. *)
Class UserDirectory := {
  (** [User.findOne({ couponCode })] *)
  FindUserByCoupon : value -> option IUser;
  (** [User.findById(id)] *)
  FindUserById : ObjectId -> option IUser
}.

(** models/Sale *)
Record ISale := mkSale {
  saleId : ObjectId;
  influencer : ObjectId;
  manager : option ObjectId;
  orderId : string;
  saleValue : Q;
  commissionCalculated : bool;
  influencerCommissionEarned : option double;
  managerCommissionEarned : option double;
  couponCodeUsed : option string;
  transactionDate : Z;
  processedViaWebhook : bool
}.

Inductive PaymentStatus := pending | paid | failed.

(** models/CommissionPayment *)
Record ICommissionPayment := mkPayment {
  paymentId : ObjectId;
  user : ObjectId;
  roleAtPayment : Role;
  paymentSales : list ObjectId;
  totalSalesValue : double;
  commissionEarned : double;
  paymentPeriodStart : Z;
  paymentPeriodEnd : Z;
  calculationDate : Z;
  paymentStatus : PaymentStatus
}.

(** The store: the three collections and the supply of fresh [_id]s. *)
Record DB := mkDB {
  sales : list ISale;
  tiers : list ICommissionTier;
  payments : list ICommissionPayment;
  nextId : ObjectId
}.

Definition withSales (db : DB) (l : list ISale) : DB :=
  mkDB l (tiers db) (payments db) (nextId db).

Definition withTiers (db : DB) (l : list ICommissionTier) : DB :=
  mkDB (sales db) l (payments db) (nextId db).

(** [Sale.findOne({ orderId: o })] for a string [o]. *)
Definition findSaleByOrderId (l : list ISale) (o : string) : option ISale :=
  find (fun s => String.eqb (orderId s) o) l.

(** The number of rows with a given [orderId]. *)
Definition countOrderId (l : list ISale) (o : string) : nat :=
  List.length (filter (fun s => String.eqb (orderId s) o) l).

(** The object passed to [Sale.create] by the webhook handlers
    ([commissionCalculated] and [processedViaWebhook] are [true] there). *)
Record SaleDoc := mkSaleDoc {
  docInfluencer : ObjectId;
  docManager : option ObjectId;
  docOrderId : string;
  docSaleValue : Q;
  docInfluencerCommission : double;
  docManagerCommission : double;
  docCouponCode : value;
  docTransactionDate : option Z   (* [None]: an invalid date *)
}.

Section Store.
Context `{Runtime}.

(** The coupon of the document, cast to the [String] path. *)
Definition castCoupon (v : value) : Result (option string) :=
  match v with
  | VUndefined | VNull => Ok None
  | _ => match castString v with
         | Some s => Ok (Some s)
         | None => Throw 200 CastError
         end
  end.

(** [Sale.create(doc)]: the casts and validators of [SaleSchema]
    ([transactionDate] a date, no [NaN] on a [Number] path, [orderId]
    required, [saleValue] with [min: 0]), then the insert, which the unique
    index on [orderId] refuses for a second row. *)
Definition Sale_create (db : DB) (doc : SaleDoc) : Result (DB * ISale) :=
  coupon <- castCoupon (docCouponCode doc) ;;
  match docTransactionDate doc with
  | None => Throw 200 CastError
  | Some date =>
      if isDNaN (docInfluencerCommission doc) || isDNaN (docManagerCommission doc)
      then Throw 200 CastError
      else if String.eqb (docOrderId doc) EmptyString then Throw 200 ValidationError
      else if negb (Qle_bool 0 (docSaleValue doc)) then Throw 200 ValidationError
      else match findSaleByOrderId (sales db) (docOrderId doc) with
           | Some _ => Throw 200 DuplicateKey
           | None =>
               let s := mkSale (nextId db) (docInfluencer doc) (docManager doc)
                               (docOrderId doc) (docSaleValue doc) true
                               (Some (docInfluencerCommission doc))
                               (Some (docManagerCommission doc))
                               coupon date true in
               Ok (mkDB (sales db ++ [s]) (tiers db) (payments db) (S (nextId db)), s)
           end
  end.

End Store.

(** ** Responses *)

Inductive Body :=
| AlreadyProcessed (existing : ObjectId)   (* 'Venda já processada anteriormente' *)
| NoCoupon                                 (* processed: false *)
| NoInfluencer (couponCode : value)        (* processed: false *)
| SaleRegistered (newSale influencerId : ObjectId) (managerId : option ObjectId)
                 (influencerCommission managerCommission : double)
| TiersSaved (created : list ICommissionTier)
| Failure (e : Error).

Record Response := mkResponse { status : nat; body : Body }.

(** middlewares/errorMiddleware.ts, [errorHandler].  (server.ts leaves it
    unmounted; the default handler of Express then answers with the same
    status: [res.statusCode] when it is an error status, else [500].) *)
Definition errorHandler (statusCode : nat) (e : Error) : Response :=
  mkResponse (if (statusCode =? 200)%nat then 500%nat else statusCode) (Failure e).

(** A notification handed to the messaging service: the recipient's number
    and the manager's token (the rendered text is not modelled). *)
Record Notification := mkNotification { recipient : string; credential : string }.

(** A string property that is present and not empty. *)
Definition present (o : option string) : option string :=
  match o with
  | Some s => if String.eqb s EmptyString then None else Some s
  | None => None
  end.

(** ** The webhook handlers (controllers/webhookController.ts)

    A handler reads the store, awaits, and then inserts: [seen] is the store
    its reads observe and [db] the store at the time of [Sale.create].  A
    handler that runs alone has [seen = db]. *)

(** What a handler has decided when its reads are done. *)
Record Pending := mkPending {
  pendingDoc : SaleDoc;
  pendingInfluencer : IUser;
  pendingManager : option IUser;
  (** [orderValue.toFixed(2)] is defined: [orderValue] is a number *)
  pendingCanRender : bool
}.

Inductive Prepared :=
| Respond (r : Response)
| Persist (p : Pending).

Definition Outcome : Type := DB * Response * list Notification.

(** [next(error)]: the error middleware answers; nothing was written. *)
Definition respond (db : DB) (c : Result Outcome) : Outcome :=
  match c with
  | Ok o => o
  | Throw statusCode e => (db, errorHandler statusCode e, [])
  end.

Definition isString (v : value) (s : string) : bool :=
  match v with
  | VString s' => String.eqb s' s
  | _ => false
  end.

(** [typeof v === 'object'] *)
Definition isObjectType (v : value) : bool :=
  match v with
  | VNull | VArray _ | VObject _ => true
  | _ => false
  end.

Definition isNumberType (v : value) : bool :=
  match v with
  | VNumber _ => true
  | _ => false
  end.

(** Step 2 of [processCartPandaWebhook]: the coupon of [discount_codes];
    [VNull] when there is none. *)
Definition cartPandaCouponCode (discount_codes : value) : Result value :=
  if truthy discount_codes then
    match discount_codes with
    | VString s => Ok (VString (trim s))
    | VArray (first :: _) =>
        if isObjectType first then
          code <- getProp first "code" ;;
          Ok (if truthy code then code else VNull)
        else
          Ok (match first with VString _ => first | _ => VNull end)
    | _ =>
        Ok (if isObjectType discount_codes && truthy (field discount_codes "code")
            then field discount_codes "code" else VNull)
    end
  else Ok VNull.

Section Handlers.
Context `{Runtime} `{UserDirectory}.

(** The notification step of the three handlers. *)
Definition newSaleNotification (u : IUser) (canRender : bool) : list Notification :=
  match present (whatsappNumber u) with
  | None => []
  | Some number =>
      let managerToken :=
        match userManager u with
        | Some m => match FindUserById m with
                    | Some mgr => present (tokenWhats mgr)
                    | None => None
                    end
        | None => None
        end in
      match managerToken with
      | Some token => if canRender then [mkNotification number token] else []
      | None => []
      end
  end.

(** Manager lookup and commissions, the same in the three handlers. *)
Definition attribute (seen : DB) (u : IUser) (order : string) (orderValue : Q)
    (couponCode : value) (date : option Z) (canRender : bool) : Prepared :=
  let mgr := match userManager u with
             | Some m => FindUserById m
             | None => None
             end in
  let influencerCommission := calculateCommission (tiers seen) orderValue INFLUENCER in
  let managerCommission :=
    match mgr with
    | Some _ => calculateCommission (tiers seen) orderValue MANAGER
    | None => DFin 0
    end in
  Persist (mkPending
    (mkSaleDoc (userId u) (option_map userId mgr) order orderValue
               influencerCommission managerCommission couponCode date)
    u mgr canRender).

(** [Sale.create], the notification and the [201] response. *)
Definition registerSale (db : DB) (p : Pending) : Result Outcome :=
  created <- Sale_create db (pendingDoc p) ;;
  let newSale := snd created in
  Ok (fst created,
      mkResponse 201
        (SaleRegistered (saleId newSale) (userId (pendingInfluencer p))
           (option_map userId (pendingManager p))
           (docInfluencerCommission (pendingDoc p))
           (docManagerCommission (pendingDoc p))),
      newSaleNotification (pendingInfluencer p) (pendingCanRender p)).

Definition complete (db : DB) (p : Prepared) : Result Outcome :=
  match p with
  | Respond r => Ok (db, r, [])
  | Persist pend => registerSale db pend
  end.

(** The head of [processShopifyWebhook]: the order of the body and the
    "validação básica". *)
Record ShopifyOrder := mkShopifyOrder {
  shopifyFinalOrderId : value;
  shopifyFinalTotalPrice : value;
  shopifyDiscountCodes : value;
  shopifyCreatedAt : value
}.

Definition shopifyIntake (reqBody : value) : Result ShopifyOrder :=
  order <- getProp reqBody "order" ;;
  if negb (truthy order) then Throw 400 BadFormat else
  let shopifyOrderId := field order "id" in
  let totalPrice := field order "total_price" in
  let currentTotalPrice := field order "current_total_price" in
  let discount_codes := field order "discount_codes" in
  let orderCreatedAt := field order "created_at" in
  let orderNumber := field order "order_number" in
  let orderName := field order "name" in
  let finalOrderId := jsOr (jsOr shopifyOrderId orderNumber) orderName in
  let finalTotalPrice := jsOr totalPrice currentTotalPrice in
  if negb (truthy finalOrderId) || negb (truthy finalTotalPrice)
  then Throw 400 IncompleteData
  else Ok (mkShopifyOrder finalOrderId finalTotalPrice discount_codes orderCreatedAt).

(** Step 2 of [processShopifyWebhook]: [None] when the order has no coupon,
    else [discount_codes[0].code]. *)
Definition shopifyCouponCode (discount_codes : value) : Result (option value) :=
  if negb (truthy discount_codes) || isZero (jsLength discount_codes) then Ok None
  else couponCode <- getProp (index0 discount_codes) "code" ;; Ok (Some couponCode).

(** [processShopifyWebhook] up to the commissions. *)
Definition shopifyPrepare (seen : DB) (now : Z) (reqBody : value) : Result Prepared :=
  o <- shopifyIntake reqBody ;;
  match findSaleByOrderId (sales seen) (toString (shopifyFinalOrderId o)) with
  | Some existingSale =>
      Ok (Respond (mkResponse 200 (AlreadyProcessed (saleId existingSale))))
  | None =>
      coupon <- shopifyCouponCode (shopifyDiscountCodes o) ;;
      match coupon with
      | None => Ok (Respond (mkResponse 200 NoCoupon))
      | Some couponCode =>
          match FindUserByCoupon couponCode with
          | None => Ok (Respond (mkResponse 200 (NoInfluencer couponCode)))
          | Some u =>
              match parseFloat (shopifyFinalTotalPrice o) with
              | NaN => Throw 200 CastError   (* the tier query cannot cast NaN *)
              | Num orderValue =>
                  Ok (attribute seen u (toString (shopifyFinalOrderId o)) orderValue
                        couponCode
                        (if truthy (shopifyCreatedAt o)
                         then newDate (shopifyCreatedAt o) else Some now)
                        true)
              end
          end
      end
  end.

Definition processShopifyWebhookAt (seen db : DB) (now : Z) (reqBody : value) : Outcome :=
  respond db (p <- shopifyPrepare seen now reqBody ;; complete db p).

Definition processShopifyWebhook (db : DB) (now : Z) (reqBody : value) : Outcome :=
  processShopifyWebhookAt db db now reqBody.

(** The total of a CartPanda order after
    [if (typeof finalTotalPrice === 'string') finalTotalPrice =
       parseFloat(finalTotalPrice.replace(/[^\d.-]/g, ''))]. *)
Definition cartPandaTotal (totalPrice : value) : jsval :=
  match totalPrice with
  | VString s => ofNum (parseFloatString (stripNonNumeric s))
  | v => JVal v
  end.

(** [finalTotalPrice === undefined || isNaN(finalTotalPrice)] *)
Definition unusableTotal (x : jsval) : bool :=
  match x with
  | JVal VUndefined => true
  | _ => isNaN x
  end.

(** [parseFloat(finalTotalPrice.toString())] *)
Definition cartPandaOrderValue (x : jsval) : Result num :=
  match x with
  | JNaN => Ok NaN
  | JVal VNull | JVal VUndefined => Throw 200 TypeError
  | JVal v => Ok (parseFloat v)
  end.

(** The head of [processCartPandaWebhook]. *)
Record CartPandaOrder := mkCartPandaOrder {
  cartPandaFinalOrderId : value;
  cartPandaFinalTotalPrice : jsval;
  cartPandaDiscountCodes : value;
  cartPandaCreatedAt : value     (* [processed_at || created_at] *)
}.

Definition cartPandaIntake (reqBody : value) : Result CartPandaOrder :=
  order <- getProp reqBody "order" ;;
  if negb (truthy order) || negb (isString (field reqBody "event") "order.paid")
  then Throw 400 BadFormat else
  let cartPandaOrderId := field order "id" in
  let orderNumber := field order "order_number" in
  let orderNumber2 := field order "number" in
  let orderName := field order "name" in
  let totalPrice := field order "total_price" in
  let discount_codes := field order "discount_codes" in
  let orderCreatedAt := field order "processed_at" in
  let orderCreatedAt2 := field order "created_at" in
  let finalOrderId := jsOr (jsOr (jsOr cartPandaOrderId orderNumber) orderNumber2) orderName in
  let finalTotalPrice := cartPandaTotal totalPrice in
  if negb (truthy finalOrderId) || unusableTotal finalTotalPrice
  then Throw 400 IncompleteData
  else Ok (mkCartPandaOrder finalOrderId finalTotalPrice discount_codes
             (jsOr orderCreatedAt orderCreatedAt2)).

(** [processCartPandaWebhook] up to the commissions. *)
Definition cartPandaPrepare (seen : DB) (now : Z) (reqBody : value) : Result Prepared :=
  o <- cartPandaIntake reqBody ;;
  match findSaleByOrderId (sales seen) (toString (cartPandaFinalOrderId o)) with
  | Some existingSale =>
      Ok (Respond (mkResponse 200 (AlreadyProcessed (saleId existingSale))))
  | None =>
      couponCode <- cartPandaCouponCode (cartPandaDiscountCodes o) ;;
      if negb (truthy couponCode) then Ok (Respond (mkResponse 200 NoCoupon)) else
      match FindUserByCoupon couponCode with
      | None => Ok (Respond (mkResponse 200 (NoInfluencer couponCode)))
      | Some u =>
          parsed <- cartPandaOrderValue (cartPandaFinalTotalPrice o) ;;
          match parsed with
          | NaN => Throw 200 CastError
          | Num orderValue =>
              Ok (attribute seen u (toString (cartPandaFinalOrderId o)) orderValue
                    couponCode
                    (if truthy (cartPandaCreatedAt o)
                     then newDate (cartPandaCreatedAt o) else Some now)
                    true)
          end
      end
  end.

Definition processCartPandaWebhookAt (seen db : DB) (now : Z) (reqBody : value) : Outcome :=
  respond db (p <- cartPandaPrepare seen now reqBody ;; complete db p).

Definition processCartPandaWebhook (db : DB) (now : Z) (reqBody : value) : Outcome :=
  processCartPandaWebhookAt db db now reqBody.

(** [Sale.findOne({ orderId })] with the raw value of the body. *)
Definition findSaleByValue (l : list ISale) (v : value) : Result (option ISale) :=
  match v with
  | VString s => Ok (findSaleByOrderId l s)
  | _ => match stringFilter v with
         | Some p => Ok (find (fun s => p (orderId s)) l)
         | None => Throw 200 CastError
         end
  end.

(** The head of [processSaleWebhook]. *)
Record SaleOrder := mkSaleOrder {
  saleOrderId : value;
  saleOrderValue : value;
  saleCouponCode : value
}.

Definition saleIntake (reqBody : value) : Result SaleOrder :=
  orderIdV <- getProp reqBody "orderId" ;;
  let orderValueV := field reqBody "orderValue" in
  let couponCode := field reqBody "couponCode" in
  if negb (truthy orderIdV) || negb (truthy orderValueV) || negb (truthy couponCode)
  then Throw 400 IncompleteData
  else Ok (mkSaleOrder orderIdV orderValueV couponCode).

(** [processSaleWebhook] up to the commissions. *)
Definition saleWebhookPrepare (seen : DB) (now : Z) (reqBody : value) : Result Prepared :=
  o <- saleIntake reqBody ;;
  existingSale <- findSaleByValue (sales seen) (saleOrderId o) ;;
  match existingSale with
  | Some existing =>
      Ok (Respond (mkResponse 200 (AlreadyProcessed (saleId existing))))
  | None =>
      match FindUserByCoupon (saleCouponCode o) with
      | None => Throw 400 InfluencerNotFound
      | Some u =>
          match castNumber (saleOrderValue o), castString (saleOrderId o) with
          | Some orderValue, Some order =>
              Ok (attribute seen u order orderValue (saleCouponCode o) (Some now)
                    (isNumberType (saleOrderValue o)))
          | _, _ => Throw 200 CastError
          end
      end
  end.

Definition processSaleWebhookAt (seen db : DB) (now : Z) (reqBody : value) : Outcome :=
  respond db (p <- saleWebhookPrepare seen now reqBody ;; complete db p).

Definition processSaleWebhook (db : DB) (now : Z) (reqBody : value) : Outcome :=
  processSaleWebhookAt db db now reqBody.

End Handlers.

(** *** The order id a payload is recorded under *)

Section OrderKeys.
Context `{Runtime}.

Definition shopifyOrderKey (reqBody : value) : option string :=
  match shopifyIntake reqBody with
  | Ok o => Some (toString (shopifyFinalOrderId o))
  | Throw _ _ => None
  end.

Definition cartPandaOrderKey (reqBody : value) : option string :=
  match cartPandaIntake reqBody with
  | Ok o => Some (toString (cartPandaFinalOrderId o))
  | Throw _ _ => None
  end.

(** For the generic webhook, an [orderId] that is a string. *)
Definition saleOrderKey (reqBody : value) : option string :=
  match saleIntake reqBody with
  | Ok o => match saleOrderId o with
            | VString s => Some s
            | _ => None
            end
  | Throw _ _ => None
  end.

End OrderKeys.

Definition Handler : Type := DB -> Z -> value -> Outcome.

(** A delivery whose order id is already recorded is answered with the
    recorded sale; the store is left as it is and nothing is notified. *)
Definition AnswersRecorded (h : Handler) (key : value -> option string) : Prop :=
  forall db now reqBody o existing,
    key reqBody = Some o ->
    findSaleByOrderId (sales db) o = Some existing ->
    h db now reqBody = (db, mkResponse 200 (AlreadyProcessed (saleId existing)), []).

(** A delivery that registered a sale, delivered again, registers nothing:
    the second answer carries the id of the first sale, and the order id has
    exactly one row.  [dom] is the set of bodies the statement is about. *)
Definition ReplayIsNoop (h : Handler) (key : value -> option string)
    (dom : value -> Prop) : Prop :=
  forall db now now' reqBody db1 answer notes,
    dom reqBody ->
    h db now reqBody = (db1, mkResponse 201 answer, notes) ->
    exists s o,
      sales db1 = sales db ++ [s] /\
      key reqBody = Some o /\ orderId s = o /\
      (exists i m ic mc, answer = SaleRegistered (saleId s) i m ic mc) /\
      h db1 now' reqBody = (db1, mkResponse 200 (AlreadyProcessed (saleId s)), []) /\
      countOrderId (sales (fst (fst (h db1 now' reqBody)))) o = 1%nat.

Definition anyBody (reqBody : value) : Prop := True.

(** The bodies of the generic webhook whose [orderId] is a string. *)
Definition stringOrderId (reqBody : value) : Prop :=
  exists s, field reqBody "orderId" = VString s.

(** What happens when, between the duplicate check of a handler and its
    insert, a Sale with the same order id was inserted: the insert throws and
    the error middleware answers; the store at insert time is left as it is. *)
Definition SurfacesDuplicate (prepare : DB -> Z -> value -> Result Prepared)
    (handlerAt : DB -> DB -> Z -> value -> Outcome) : Prop :=
  forall seen db now reqBody pend existing,
    prepare seen now reqBody = Ok (Persist pend) ->
    findSaleByOrderId (sales db) (docOrderId (pendingDoc pend)) = Some existing ->
    exists e,
      handlerAt seen db now reqBody = (db, mkResponse 500 (Failure e), []) /\
      (e = DuplicateKey \/ e = CastError \/ e = ValidationError).

(** An order without a coupon, or whose coupon belongs to no influencer. *)
Definition shopifyUnattributable `{UserDirectory} (o : ShopifyOrder) : Prop :=
  shopifyCouponCode (shopifyDiscountCodes o) = Ok None \/
  exists c, shopifyCouponCode (shopifyDiscountCodes o) = Ok (Some c) /\
            FindUserByCoupon c = None.

Definition cartPandaUnattributable `{UserDirectory} (o : CartPandaOrder) : Prop :=
  exists c, cartPandaCouponCode (cartPandaDiscountCodes o) = Ok c /\
            (truthy c = false \/ FindUserByCoupon c = None).

(** The answer to an order that is not attributed: [200] with
    [processed: false], or the recorded sale when the order id is known. *)
Definition notAttributedAnswer (recorded : option ISale) (answer : Body) : Prop :=
  match recorded with
  | Some existing => answer = AlreadyProcessed (saleId existing)
  | None => answer = NoCoupon \/ exists c, answer = NoInfluencer c
  end.


(** What a handler has established when it reaches [Sale.create], and the
    status it leaves otherwise. *)
Definition PrepareSound (prepare : DB -> Z -> value -> Result Prepared)
    (key : value -> option string) (dom : value -> Prop) : Prop :=
  forall seen now reqBody,
    match prepare seen now reqBody with
    | Throw s _ => s = 400%nat \/ s = 200%nat
    | Ok (Respond r) => status r = 200%nat
    | Ok (Persist pend) =>
        dom reqBody ->
        key reqBody = Some (docOrderId (pendingDoc pend)) /\
        findSaleByOrderId (sales seen) (docOrderId (pendingDoc pend)) = None
    end.

(** The duplicate check of a handler. *)
Definition PrepareChecks (prepare : DB -> Z -> value -> Result Prepared)
    (key : value -> option string) : Prop :=
  forall seen now reqBody o existing,
    key reqBody = Some o ->
    findSaleByOrderId (sales seen) o = Some existing ->
    prepare seen now reqBody
      = Ok (Respond (mkResponse 200 (AlreadyProcessed (saleId existing)))).

(** A handler made of sound reads and the common tail. *)
Definition handlerOf `{Runtime} `{UserDirectory}
    (prepare : DB -> Z -> value -> Result Prepared) : Handler :=
  fun db now reqBody => respond db (p <- prepare db now reqBody ;; complete db p).


(** ** The commission service (services/commissionService.ts) *)

(** [SaleModel.findByIdAndUpdate(id, update)] *)
Fixpoint findByIdAndUpdate (l : list ISale) (id : ObjectId) (update : ISale -> ISale) : list ISale :=
  match l with
  | [] => []
  | s :: r =>
      if (saleId s =? id)%nat then update s :: r
      else s :: findByIdAndUpdate r id update
  end.

Definition setCommissions (ic mc : double) (s : ISale) : ISale :=
  mkSale (saleId s) (influencer s) (manager s) (orderId s) (saleValue s)
         true (Some ic) (Some mc)
         (couponCodeUsed s) (transactionDate s) (processedViaWebhook s).

Record PendingSummary := mkPendingSummary {
  processedSales : nat;
  totalInfluencerCommission : double;
  totalManagerCommission : double
}.

(** One turn of the loop of [processPendingCommissions]. *)
Definition processPendingSale (acc : DB * PendingSummary) (sale : ISale) : DB * PendingSummary :=
  let db := fst acc in
  let influencerCommission := calculateCommissionForSale (tiers db) (saleValue sale) INFLUENCER in
  let managerCommission :=
    match manager sale with
    | Some _ => calculateCommissionForSale (tiers db) (saleValue sale) MANAGER
    | None => DFin 0
    end in
  (withSales db (findByIdAndUpdate (sales db) (saleId sale)
                   (setCommissions influencerCommission managerCommission)),
   mkPendingSummary (S (processedSales (snd acc)))
     (dadd (totalInfluencerCommission (snd acc)) influencerCommission)
     (dadd (totalManagerCommission (snd acc)) managerCommission)).

Definition processPendingCommissions (db : DB) : DB * PendingSummary :=
  let pendingSales := filter (fun s => negb (commissionCalculated s)) (sales db) in
  fold_left processPendingSale pendingSales (db, mkPendingSummary 0 (DFin 0) (DFin 0)).

(** [transactionDate: { $gte: periodStart, $lte: periodEnd }] *)
Definition inPeriod (periodStart periodEnd : Z) (s : ISale) : bool :=
  (periodStart <=? transactionDate s)%Z && (transactionDate s <=? periodEnd)%Z.

(** A [Map] from user ids to sales, in insertion order. *)
Definition SalesMap := list (ObjectId * list ISale).

(** [if (!map.has(k)) map.set(k, []); map.get(k).push(sale)] *)
Fixpoint pushSale (m : SalesMap) (k : ObjectId) (sale : ISale) : SalesMap :=
  match m with
  | [] => [(k, [sale])]
  | (k', l) :: r =>
      if (k' =? k)%nat then (k', l ++ [sale]) :: r
      else (k', l) :: pushSale r k sale
  end.

(** The commission field of a sale for a role, with [|| 0]. *)
Definition commissionOf (role : Role) (s : ISale) : double :=
  match (match role with
         | INFLUENCER => influencerCommissionEarned s
         | MANAGER => managerCommissionEarned s
         end) with
  | Some DNaN | None => DFin 0
  | Some x => x
  end.

Definition sumSaleValue (l : list ISale) : double :=
  fold_left (fun sum sale => dadd sum (DFin (saleValue sale))) l (DFin 0).

Definition sumCommission (role : Role) (l : list ISale) : double :=
  fold_left (fun sum sale => dadd sum (commissionOf role sale)) l (DFin 0).

(** [CommissionPayment.create] with [status: 'pending']; the schema has
    [min: 0] on both totals. *)
Definition CommissionPayment_create (db : DB) (u : ObjectId) (role : Role)
    (ids : list ObjectId) (total commission : double) (periodStart periodEnd now : Z)
  : Result (DB * ICommissionPayment) :=
  if dnonnegb total && dnonnegb commission then
    let p := mkPayment (nextId db) u role ids total commission
                       periodStart periodEnd now pending in
    Ok (mkDB (sales db) (tiers db) (payments db ++ [p]) (S (nextId db)), p)
  else Throw 200 ValidationError.

Record Generation := mkGeneration {
  genDB : DB;
  genNotifications : list Notification;
  genCreated : list ICommissionPayment
}.

Record PaymentsSummary := mkPaymentsSummary {
  totalSales : nat;
  influencerPayments : nat;
  managerPayments : nat;
  totalCommissionValue : double
}.

Section Generator.
Context `{UserDirectory}.

(** The loop that fills the two maps from the populated sales. *)
Definition groupSale (maps : SalesMap * SalesMap) (sale : ISale) : SalesMap * SalesMap :=
  (match FindUserById (influencer sale) with
   | Some u => pushSale (fst maps) (userId u) sale
   | None => fst maps
   end,
   match manager sale with
   | Some m => match FindUserById m with
               | Some u => pushSale (snd maps) (userId u) sale
               | None => snd maps
               end
   | None => snd maps
   end).

Definition groupSales (l : list ISale) : SalesMap * SalesMap :=
  fold_left groupSale l ([], []).

(** The report sent with an influencer payment. *)
Definition reportNotification (u : IUser) : list Notification :=
  match present (whatsappNumber u) with
  | None => []
  | Some number =>
      match userManager u with
      | Some m => match FindUserById m with
                  | Some mgr => match present (tokenWhats mgr) with
                                | Some token => [mkNotification number token]
                                | None => []
                                end
                  | None => []
                  end
      | None => []
      end
  end.

(** The loop over the entries of a map, for either role; it stops at the
    first [create] that throws. *)
Fixpoint createPayments (role : Role) (periodStart periodEnd now : Z)
    (groups : SalesMap) (st : Generation) : Generation * option Error :=
  match groups with
  | [] => (st, None)
  | (id, groupSales) :: rest =>
      match FindUserById id with
      | None => createPayments role periodStart periodEnd now rest st
      | Some u =>
          match CommissionPayment_create (genDB st) id role (map saleId groupSales)
                  (sumSaleValue groupSales) (sumCommission role groupSales)
                  periodStart periodEnd now with
          | Throw _ e => (st, Some e)
          | Ok (db', payment) =>
              createPayments role periodStart periodEnd now rest
                (mkGeneration db'
                   (genNotifications st ++
                      match role with
                      | INFLUENCER => reportNotification u
                      | MANAGER => []
                      end)
                   (genCreated st ++ [payment]))
          end
      end
  end.

(** The sales the generator aggregates: those of the period that are
    calculated once the pending ones were processed. *)
Definition salesForPeriod (db : DB) (periodStart periodEnd : Z) : DB * list ISale :=
  let uncalculatedSales :=
    List.length (filter (fun s => inPeriod periodStart periodEnd s
                                  && negb (commissionCalculated s)) (sales db)) in
  let db1 := if (0 <? uncalculatedSales)%nat then fst (processPendingCommissions db) else db in
  (db1, filter (fun s => inPeriod periodStart periodEnd s && commissionCalculated s) (sales db1)).

Definition generateCommissionPayments (db : DB) (now periodStart periodEnd : Z)
  : Generation * Result PaymentsSummary :=
  let (db1, found) := salesForPeriod db periodStart periodEnd in
  let (influencerSalesMap, managerSalesMap) := groupSales found in
  match createPayments INFLUENCER periodStart periodEnd now influencerSalesMap
          (mkGeneration db1 [] []) with
  | (st1, Some e) => (st1, Throw 200 e)
  | (st1, None) =>
      let influencerPayments := genCreated st1 in
      match createPayments MANAGER periodStart periodEnd now managerSalesMap
              (mkGeneration (genDB st1) (genNotifications st1) []) with
      | (st2, err) =>
          let managerPayments := genCreated st2 in
          (mkGeneration (genDB st2) (genNotifications st2)
             (influencerPayments ++ managerPayments),
           match err with
           | Some e => Throw 200 e
           | None =>
               Ok (mkPaymentsSummary (List.length found)
                     (List.length influencerPayments)
                     (List.length managerPayments)
                     (fold_left (fun sum p => dadd sum (commissionEarned p))
                        (influencerPayments ++ managerPayments) (DFin 0)))
           end)
      end
  end.

End Generator.

(** *** Vocabulary of the statements about the generator *)



(** The amounts of a sale are not negative. *)
Definition saleValid (s : ISale) : Prop :=
  0 <= saleValue s /\
  dnonneg (commissionOf INFLUENCER s) /\ dnonneg (commissionOf MANAGER s).

(** The payment made from one entry of a map. *)
Definition paymentOf (role : Role) (periodStart periodEnd now : Z) (id : ObjectId)
    (g : ObjectId * list ISale) : ICommissionPayment :=
  mkPayment id (fst g) role (map saleId (snd g))
            (sumSaleValue (snd g)) (sumCommission role (snd g))
            periodStart periodEnd now pending.

Fixpoint paymentsOf (role : Role) (periodStart periodEnd now : Z) (id : ObjectId)
    (groups : SalesMap) : list ICommissionPayment :=
  match groups with
  | [] => []
  | g :: rest =>
      paymentOf role periodStart periodEnd now id g
      :: paymentsOf role periodStart periodEnd now (S id) rest
  end.


Definition resolvable `{UserDirectory} (g : ObjectId * list ISale) : bool :=
  match FindUserById (fst g) with
  | Some _ => true
  | None => false
  end.

(** *** Grouping by a key *)

Section GroupingBy.

Variable key : ISale -> option ObjectId.




End GroupingBy.

(** ** Bulk replacement of the tiers (controllers/commissionController.ts) *)

(** The store can fail at each operation of the transaction. *)
Record Faults := mkFaults {
  startFails : bool;     (* [startSession] / [startTransaction] *)
  deleteFails : bool;    (* [deleteMany] *)
  insertFails : bool;    (* [insertMany], apart from the validators *)
  commitFails : bool     (* [commitTransaction] *)
}.

Definition noFaults : Faults := mkFaults false false false false.

Definition isUndefined (v : value) : bool :=
  match v with
  | VUndefined => true
  | _ => false
  end.

(** [a <= b] on two numbers. *)
Definition numberLe (a b : value) : bool :=
  match a, b with
  | VNumber x, VNumber y => Qle_bool x y
  | _, _ => false
  end.

(** The body of the validation loop of [saveCommissionTiersBulk]. *)
Definition validateTier (tier : value) : Result unit :=
  minV <- getProp tier "minSalesValue" ;;
  let pctV := field tier "commissionPercentage" in
  let maxV := field tier "maxSalesValue" in
  if isUndefined minV || isUndefined pctV then Throw 400 InvalidInput
  else if negb (isNumberType minV) || negb (isNumberType pctV)
          || (negb (isUndefined maxV) && negb (isNumberType maxV))
  then Throw 400 InvalidInput
  else if negb (isUndefined maxV) && numberLe maxV minV then Throw 400 InvalidInput
  else Ok tt.

Fixpoint validateTiers (items : list value) : Result unit :=
  match items with
  | [] => Ok tt
  | tier :: rest => _ <- validateTier tier ;; validateTiers rest
  end.

(** [appliesTo] when it is one of ['influencer', 'manager']. *)
Definition parseRole (v : value) : option Role :=
  match v with
  | VString s =>
      if String.eqb s "influencer" then Some INFLUENCER
      else if String.eqb s "manager" then Some MANAGER
      else None
  | _ => None
  end.

(** The validators of [CommissionTierSchema]. *)
Definition tierSchemaValid (t : ICommissionTier) : bool :=
  negb (String.eqb (tierName t) EmptyString)
  && Qle_bool 0 (minSalesValue t)
  && Qle_bool 0 (commissionPercentage t) && Qle_bool (commissionPercentage t) 100
  && match maxSalesValue t with
     | None => true
     | Some m => Qle_bool 0 m && Qle_bool (minSalesValue t) m
     end.

(** The operations of the session act on the working copy of the
    transaction. *)
Definition deleteMany (f : Faults) (working : list ICommissionTier) (role : Role)
  : Result (list ICommissionTier) :=
  if deleteFails f then Throw 200 PersistenceError
  else Ok (filter (fun t => negb (Role_eqb (appliesTo t) role)) working).

Definition insertMany (f : Faults) (working docs : list ICommissionTier)
  : Result (list ICommissionTier) :=
  if insertFails f then Throw 200 PersistenceError
  else if forallb tierSchemaValid docs then Ok (working ++ docs)
  else Throw 200 ValidationError.

Definition commitTransaction (f : Faults) (working : list ICommissionTier)
  : Result (list ICommissionTier) :=
  if commitFails f then Throw 200 PersistenceError else Ok working.

Fixpoint mapResult {A B} (f : A -> Result B) (l : list A) : Result (list B) :=
  match l with
  | [] => Ok []
  | a :: r => b <- f a ;; bs <- mapResult f r ;; Ok (b :: bs)
  end.

Section TierAdministration.
Context `{Runtime}.

(** An element of [newTiersData]. *)
Definition newTierData (role : Role) (tier : value) : Result ICommissionTier :=
  match field tier "minSalesValue", field tier "commissionPercentage" with
  | VNumber minV, VNumber pct =>
      match field tier "maxSalesValue" with
      | VNumber maxV =>
          Ok (mkTier ("Faixa " ++ formatCurrency minV ++ " a " ++ formatCurrency maxV)%string
                     minV (Some maxV) pct role true)
      | VUndefined =>
          Ok (mkTier ("Faixa acima de " ++ formatCurrency minV)%string
                     minV None pct role true)
      | _ => Throw 200 CastError
      end
  | _, _ => Throw 200 CastError
  end.

(** The [try] block: delete, insert, commit. *)
Definition replaceTiers (f : Faults) (current : list ICommissionTier) (role : Role)
    (items : list value) : Result (list ICommissionTier * list ICommissionTier) :=
  working <- deleteMany f current role ;;
  newTiersData <- mapResult (newTierData role) items ;;
  working' <- insertMany f working newTiersData ;;
  committed <- commitTransaction f working' ;;
  Ok (committed, newTiersData).

Definition saveCommissionTiersBulk (f : Faults) (db : DB) (reqBody : value) : DB * Response :=
  let run : Result (DB * Response) :=
    appliesToV <- getProp reqBody "appliesTo" ;;
    match parseRole appliesToV with
    | None => Throw 400 InvalidInput
    | Some role =>
        match field reqBody "tiers" with
        | VArray items =>
            _ <- validateTiers items ;;
            if startFails f then Throw 200 PersistenceError else
            match replaceTiers f (tiers db) role items with
            | Ok (committed, created) =>
                Ok (withTiers db committed, mkResponse 200 (TiersSaved created))
            | Throw statusCode e =>
                (* [abortTransaction]: the working copy is dropped *)
                Throw statusCode e
            end
        | _ => Throw 400 InvalidInput
        end
    end in
  match run with
  | Ok o => o
  | Throw statusCode e => (db, errorHandler statusCode e)
  end.

End TierAdministration.

(** An entry with a [minSalesValue] or a [commissionPercentage] that is not
    a number, a [maxSalesValue] that is present and not a number, or a
    [maxSalesValue] not above its [minSalesValue]. *)
Definition tierEntryInvalid (t : value) : bool :=
  negb (isNumberType (field t "minSalesValue"))
  || negb (isNumberType (field t "commissionPercentage"))
  || (negb (isUndefined (field t "maxSalesValue"))
      && negb (isNumberType (field t "maxSalesValue")))
  || numberLe (field t "maxSalesValue") (field t "minSalesValue").

(** An element of the array that is not [null]. *)
Definition isEntry (t : value) : bool :=
  match t with
  | VNull | VUndefined => false
  | _ => true
  end.

Definition anyFault (f : Faults) : bool :=
  startFails f || deleteFails f || insertFails f || commitFails f.

(** ** A runtime and a store for the examples

    The instance is exact on the inputs the examples use: decimal literals
    without exponent, integer order ids, dates given in milliseconds. *)

(** The digits at the head of a string: their value, their number, the rest. *)
Fixpoint readDigits (s : string) (acc : Z) (n : nat) : Z * nat * string :=
  match s with
  | String c r =>
      if isDigit c
      then readDigits r (10 * acc + Z.of_nat (nat_of_ascii c - 48))%Z (S n)
      else (acc, n, s)
  | EmptyString => (acc, n, s)
  end.

Definition readUnsigned (s : string) : option Q * string :=
  let '(ip, ni, s1) := readDigits s 0%Z 0%nat in
  let '(fp, nf, s2) :=
    match s1 with
    | String "."%char r => readDigits r 0%Z 0%nat
    | _ => (0%Z, 0%nat, s1)
    end in
  if (ni + nf =? 0)%nat then (None, s)
  else (Some (Qred (inject_Z ip + inject_Z fp / inject_Z (10 ^ Z.of_nat nf))), s2).

Definition readSigned (s : string) : option Q * string :=
  match s with
  | String "-"%char r => let (q, rest) := readUnsigned r in (option_map Qopp q, rest)
  | String "+"%char r => readUnsigned r
  | _ => readUnsigned s
  end.

(** [parseFloat]: the longest decimal prefix after the leading white space. *)
Definition parseFloatDecimal (s : string) : num :=
  match fst (readSigned (trimStart s)) with
  | Some q => Num q
  | None => NaN
  end.

(** [Number(s)]: the whole trimmed string is a decimal literal, or empty. *)
Definition numberOfString (s : string) : num :=
  match trim s with
  | EmptyString => Num 0
  | t => match readSigned t with
         | (Some q, EmptyString) => Num q
         | _ => NaN
         end
  end.

Definition decimalOfQ (q : Q) : string :=
  match Qred q with
  | Qmake n 1%positive => NilZero.string_of_int (Z.to_int n)
  | Qmake n d => NilZero.string_of_int (Z.to_int n) ++ "/" ++ NilZero.string_of_int (Z.to_int (Zpos d))
  end.

Definition exampleRuntime : Runtime := {|
  numberToString := decimalOfQ;
  objectToString := fun _ => "[object Object]";
  parseFloatString := parseFloatDecimal;
  stringToNumber := numberOfString;
  castToString := fun v => match v with
                           | VNumber q => Some (decimalOfQ q)
                           | VBool true => Some "true"
                           | VBool false => Some "false"
                           | _ => None
                           end;
  castToNumber := fun v => match v with
                           | VString s => match numberOfString s with
                                          | Num q => Some q
                                          | NaN => None
                                          end
                           | VBool b => Some (if b then 1 else 0)
                           | _ => None
                           end;
  newDate := fun v => match v with
                      | VNumber (Qmake n 1%positive) => Some n
                      | _ => None
                      end;
  stringFilter := fun v => match v with
                           | VNumber q => Some (String.eqb (decimalOfQ q))
                           | _ => None
                           end;
  formatCurrency := fun q => ("R$ " ++ decimalOfQ q)%string
|}.

(** Users: manager 1 (with a token), influencer 2 of manager 1 with the
    coupon [antonio10], influencer 3 with the coupon [x] and no manager. *)
Definition managerAna : IUser := mkUser 1%nat None (Some "5511900000001") (Some "token-ana").
Definition influencerAntonio : IUser := mkUser 2%nat (Some 1%nat) (Some "5511900000002") None.
Definition influencerLais : IUser := mkUser 3%nat None None None.

Definition exampleDirectory : UserDirectory := {|
  FindUserByCoupon := fun v =>
    if isString v "antonio10" then Some influencerAntonio
    else if isString v "x" then Some influencerLais
    else None;
  FindUserById := fun id =>
    match id with
    | 1%nat => Some managerAna
    | 2%nat => Some influencerAntonio
    | 3%nat => Some influencerLais
    | _ => None
    end
|}.

(** The tiers of the tier-selection example. *)
Definition exampleTiers : list ICommissionTier :=
  [ mkTier "Bronze" 0 (Some 1000) 10 INFLUENCER true;
    mkTier "Prata" 1000.01 (Some 5000) 15 INFLUENCER true;
    mkTier "Ouro" 5000.01 None 20 INFLUENCER true;
    mkTier "Gestor" 0 None 5 MANAGER true;
    mkTier "Antiga" 0 None 50 INFLUENCER false ].

Definition emptyDB : DB := mkDB [] exampleTiers [] 100%nat.

Definition obj (fields : list (string * value)) : value := VObject fields.

(** A Shopify order with the coupon of an influencer. *)
Definition shopifyExample : value :=
  obj [("order", obj [("id", VNumber 34488130);
                      ("total_price", VString "150.00");
                      ("discount_codes", VArray [obj [("code", VString "antonio10")]]);
                      ("created_at", VNumber 1744213713000)])].

(** The CartPanda order of scripts/testCartPandaWebhook.ts. *)
Definition cartPandaExample : value :=
  obj [("event", VString "order.paid");
       ("order", obj [("id", VNumber 34488130);
                      ("order_number", VString "316360");
                      ("number", VNumber 316360);
                      ("name", VString "#316360");
                      ("total_price", VNumber 160.65);
                      ("discount_codes", VString "antonio10");
                      ("processed_at", VNumber 1744213713000);
                      ("created_at", VNumber 1744213713000)])].

(** A body of the generic webhook whose coupon belongs to nobody. *)
Definition saleExampleUnknownCoupon : value :=
  obj [("orderId", VString "A-1"); ("orderValue", VNumber 100);
       ("couponCode", VString "nobody")].



(** A CartPanda order with a total in currency format and an unknown coupon. *)
Definition cartPandaCurrencyTotal : value :=
  obj [("event", VString "order.paid");
       ("order", obj [("id", VNumber 1003);
                      ("total_price", VString "R$ 160.65");
                      ("discount_codes", VString "ninguem")])].

(** Three calculated sales of influencer 3 in the period, of 100, 200 and 300
    with commissions 10, 20 and 30, and a fourth one after the period. *)
Definition calculatedSale (id : ObjectId) (order : string) (v ic : Q) (date : Z) : ISale :=
  mkSale id 3%nat None order v true (Some (DFin ic)) (Some (DFin 0)) None date true.

Definition threeSalesDB : DB :=
  mkDB [ calculatedSale 10%nat "o-10" 100 10 5;
         calculatedSale 11%nat "o-11" 200 20 6;
         calculatedSale 12%nat "o-12" 300 30 7;
         calculatedSale 13%nat "o-13" 1000 100 20 ]
       exampleTiers [] 100%nat.

(** Two bodies of the bulk replacement for the influencer tiers: the second
    entry of the first one has its [maxSalesValue] below its [minSalesValue]. *)
Definition tierEntry (minV pct : Q) (maxV : option Q) : value :=
  obj (("minSalesValue", VNumber minV) :: ("commissionPercentage", VNumber pct)
       :: match maxV with
          | Some m => [("maxSalesValue", VNumber m)]
          | None => []
          end).

Definition bulkInvalid : value :=
  obj [("appliesTo", VString "influencer");
       ("tiers", VArray [tierEntry 0 10 (Some 1000); tierEntry 1000 15 (Some 500)])].

Definition bulkValid : value :=
  obj [("appliesTo", VString "influencer");
       ("tiers", VArray [tierEntry 0 12 (Some 2000); tierEntry 2000 18 None])].

(** ** Vocabulary of the further properties *)

(** The amounts the backfill writes into a pending sale. *)
Definition influencerAmount (tierTable : list ICommissionTier) (s : ISale) : double :=
  calculateCommissionForSale tierTable (saleValue s) INFLUENCER.

Definition managerAmount (tierTable : list ICommissionTier) (s : ISale) : double :=
  match manager s with
  | Some _ => calculateCommissionForSale tierTable (saleValue s) MANAGER
  | None => DFin 0
  end.

(** A sale after the backfill: a calculated sale as it is, a pending sale
    with its two amounts. *)
Definition backfilled (tierTable : list ICommissionTier) (s : ISale) : ISale :=
  if commissionCalculated s then s
  else setCommissions (influencerAmount tierTable s) (managerAmount tierTable s) s.

Definition isPending (s : ISale) : bool := negb (commissionCalculated s).

(** One turn of the loop, seen from one document of the collection. *)
Definition turnOn (tierTable : list ICommissionTier) (x s : ISale) : ISale :=
  if (saleId x =? saleId s)%nat
  then setCommissions (influencerAmount tierTable s) (managerAmount tierTable s) x
  else x.

(** The ledger invariant: one row per order id, distinct ids, and every id
    below the next one to be given. *)
Definition ledgerOk (db : DB) : Prop :=
  NoDup (map orderId (sales db)) /\
  NoDup (map saleId (sales db)) /\
  NoDup (map paymentId (payments db)) /\
  (forall s, In s (sales db) -> (saleId s < nextId db)%nat) /\
  (forall p, In p (payments db) -> (paymentId p < nextId db)%nat).

Definition HandlerAt : Type := DB -> DB -> Z -> value -> Outcome.

(** A handler leaves the store as it is, or appends one sale to it. *)
Definition AppendsAtMostOneSale (h : HandlerAt) : Prop :=
  forall seen db now reqBody,
    let out := h seen db now reqBody in
    let db' := fst (fst out) in
    let answer := snd (fst out) in
    (db' = db /\ snd out = [] /\
     (status answer = 200%nat \/ status answer = 400%nat \/ status answer = 500%nat))
    \/
    (exists s,
       status answer = 201%nat /\
       sales db' = sales db ++ [s] /\ saleId s = nextId db /\
       nextId db' = S (nextId db) /\
       tiers db' = tiers db /\ payments db' = payments db /\
       findSaleByOrderId (sales db) (orderId s) = None /\
       orderId s <> EmptyString /\ 0 <= saleValue s).

Definition KeepsLedger (h : HandlerAt) : Prop :=
  forall seen db now reqBody,
    ledgerOk db -> ledgerOk (fst (fst (h seen db now reqBody))).

(** The coupon a handler reads from a body. *)
Definition shopifyCoupon `{Runtime} (reqBody couponCode : value) : Prop :=
  exists o, shopifyIntake reqBody = Ok o /\
            shopifyCouponCode (shopifyDiscountCodes o) = Ok (Some couponCode).

Definition cartPandaCoupon `{Runtime} (reqBody couponCode : value) : Prop :=
  exists o, cartPandaIntake reqBody = Ok o /\
            cartPandaCouponCode (cartPandaDiscountCodes o) = Ok couponCode.

Definition saleCoupon (reqBody couponCode : value) : Prop :=
  couponCode = field reqBody "couponCode".

(** The manager a sale of the influencer [u] is registered with. *)
Definition managerOf `{UserDirectory} (u : IUser) : option ObjectId :=
  match userManager u with
  | Some m => option_map userId (FindUserById m)
  | None => None
  end.

(** The sale a handler registers, and its answer: [u] is the user that
    [User.findOne] returns for the coupon of the body. *)
Definition RegistersWhatBackfillWould `{UserDirectory} (h : Handler)
    (coupon : value -> value -> Prop) : Prop :=
  forall db now reqBody db' answer notes,
    h db now reqBody = (db', mkResponse 201 answer, notes) ->
    exists s couponCode u,
      coupon reqBody couponCode /\
      FindUserByCoupon couponCode = Some u /\
      sales db' = sales db ++ [s] /\
      influencer s = userId u /\
      manager s = managerOf u /\
      commissionCalculated s = true /\ processedViaWebhook s = true /\
      influencerCommissionEarned s = Some (influencerAmount (tiers db) s) /\
      managerCommissionEarned s = Some (managerAmount (tiers db) s) /\
      answer = SaleRegistered (saleId s) (userId u) (managerOf u)
                 (influencerAmount (tiers db) s) (managerAmount (tiers db) s).

(** The notifications of a handler: [u] is the user of the coupon of the
    body, the influencer of the sale that was appended. *)
Definition NotifiesThroughManager `{UserDirectory} (h : HandlerAt)
    (coupon : value -> value -> Prop) : Prop :=
  forall seen db now reqBody n,
    let out := h seen db now reqBody in
    In n (snd out) ->
    snd out = [n] /\ status (snd (fst out)) = 201%nat /\
    recipient n <> EmptyString /\ credential n <> EmptyString /\
    exists couponCode u m mgr s,
      coupon reqBody couponCode /\
      FindUserByCoupon couponCode = Some u /\
      sales (fst (fst out)) = sales db ++ [s] /\ influencer s = userId u /\
      userManager u = Some m /\ FindUserById m = Some mgr /\
      whatsappNumber u = Some (recipient n) /\
      tokenWhats mgr = Some (credential n).

(** What the reads of a handler hand over to the insert. *)
Definition PrepareAttributes `{Runtime} `{UserDirectory}
    (prepare : DB -> Z -> value -> Result Prepared)
    (coupon : value -> value -> Prop) : Prop :=
  forall seen now reqBody pend,
    prepare seen now reqBody = Ok (Persist pend) ->
    exists u order v c date canRender,
      coupon reqBody c /\ FindUserByCoupon c = Some u /\
      Persist pend = attribute seen u order v c date canRender.

(** Every character of a string satisfies a test. *)
Fixpoint allChars (f : ascii -> bool) (s : string) : bool :=
  match s with
  | EmptyString => true
  | String c r => f c && allChars f r
  end.

(** ** The messaging service (services/whatsappService.ts)

    [sendTextMessage] up to the request it posts to [/send/text]; the answer
    of the provider is outside the model. *)

Inductive SendError :=
| MissingToken                  (* 'Configuração de token UAZapi ausente.' *)
| MissingRecipientOrMessage.    (* 'Destinatário e mensagem são obrigatórios' *)

Record TextRequest := mkTextRequest {
  requestNumber : string;   (* [number] of the payload *)
  requestText : string;     (* [text] of the payload *)
  requestToken : string     (* the [token] header *)
}.

(** [to.replace(/\D/g, '')] *)
Definition digitsOnly (s : string) : string := filterString isDigit s.

(** [fallbackToken] is [process.env.UAZAPI_TOKEN]. *)
Definition sendTextMessage (fallbackToken : option string) (to message : string)
    (apiToken : option string) : TextRequest + SendError :=
  let tokenToSend :=
    match present apiToken with
    | Some t => Some t
    | None => present fallbackToken
    end in
  match tokenToSend with
  | None => inr MissingToken
  | Some token =>
      if String.eqb to EmptyString || String.eqb message EmptyString
      then inr MissingRecipientOrMessage
      else inl (mkTextRequest (digitsOnly to) message token)
  end.

Definition sendNewSaleNotification (fallbackToken : option string) (to messageContent : string)
    (apiToken : option string) : TextRequest + SendError :=
  sendTextMessage fallbackToken to messageContent apiToken.

Definition sendSalesReport (fallbackToken : option string) (to messageContent : string)
    (apiToken : option string) : TextRequest + SendError :=
  sendTextMessage fallbackToken to messageContent apiToken.

(** ** The webhook token (middlewares/webhookAuthMiddleware.ts) *)

Inductive Gate :=
| CallNext
| Refuse (statusCode : nat).

(** [configuredToken] is [process.env.WEBHOOK_TOKEN], [headerToken] the
    header [webhook-token], [queryToken] is [req.query.token]. *)
Definition verifyWebhookToken (configuredToken headerToken : option string)
    (queryToken reqBody : value) : Result Gate :=
  token <- match present headerToken with
           | Some h => Ok (VString h)
           | None => if truthy queryToken then Ok queryToken
                     else getProp reqBody "token"
           end ;;
  match present configuredToken with
  | None => Ok (Refuse 500)
  | Some configured =>
      if negb (truthy token) then Ok (Refuse 401)
      else if isString token configured then Ok CallNext
      else Ok (Refuse 401)
  end.

(** ** The payment request (controllers/commissionController.ts,
    [createCommissionPayments]) *)

Inductive PaymentRequestError :=
| RequestTypeError        (* the body is [undefined] *)
| MissingDates            (* 'Por favor, forneça datas de início e fim' *)
| InvalidDates            (* 'Datas inválidas' *)
| EndBeforeStart          (* 'A data final deve ser posterior à data inicial' *)
| GenerationFailed (e : Error).

Record PaymentsAnswer := mkPaymentsAnswer {
  paymentsStatus : nat;
  paymentsBody : PaymentRequestError + PaymentsSummary
}.

Section PaymentRequest.
Context `{Runtime} `{UserDirectory}.

Definition createCommissionPayments (db : DB) (now : Z) (reqBody : value)
  : Generation * PaymentsAnswer :=
  let refuse (c : nat) (e : PaymentRequestError) :=
    (mkGeneration db [] [], mkPaymentsAnswer c (inl e)) in
  match getProp reqBody "startDate" with
  | Throw _ _ => refuse 500%nat RequestTypeError
  | Ok startDate =>
      let endDate := field reqBody "endDate" in
      if negb (truthy startDate) || negb (truthy endDate) then refuse 400%nat MissingDates
      else match newDate startDate, newDate endDate with
           | Some periodStart, Some periodEnd =>
               if (periodEnd <? periodStart)%Z then refuse 400%nat EndBeforeStart
               else
                 let result := generateCommissionPayments db now periodStart periodEnd in
                 match snd result with
                 | Ok summary => (fst result, mkPaymentsAnswer 201 (inr summary))
                 | Throw _ e => (fst result, mkPaymentsAnswer 500 (inl (GenerationFailed e)))
                 end
           | _, _ => refuse 400%nat InvalidDates
           end
  end.

End PaymentRequest.

(** ** Vocabulary of the statements about the bulk replacement *)

Definition ofRole (role : Role) (t : ICommissionTier) : bool := Role_eqb (appliesTo t) role.

Definition notOfRole (role : Role) (t : ICommissionTier) : bool :=
  negb (Role_eqb (appliesTo t) role).

(** The tier stored for an entry of the request. *)
Definition storedFor (role : Role) (entry : value) (t : ICommissionTier) : Prop :=
  field entry "minSalesValue" = VNumber (minSalesValue t) /\
  field entry "commissionPercentage" = VNumber (commissionPercentage t) /\
  match maxSalesValue t with
  | Some m => field entry "maxSalesValue" = VNumber m /\ minSalesValue t < m
  | None => field entry "maxSalesValue" = VUndefined
  end /\
  appliesTo t = role /\ isActive t = true /\
  tierName t <> EmptyString /\
  0 <= minSalesValue t /\ 0 <= commissionPercentage t /\ commissionPercentage t <= 100.

(** ** The webhook routes (routes/webhookRoutes.ts):
    [router.use(verifyWebhookToken)] before the three handlers *)

Inductive RouteAnswer :=
| Rejected (statusCode : nat)     (* answered by the middleware *)
| Answered (r : Response).        (* answered by the handler or the error handler *)

Definition webhookRoute (handler : Handler) (configuredToken headerToken : option string)
    (queryToken : value) (db : DB) (now : Z) (reqBody : value)
  : DB * RouteAnswer * list Notification :=
  match verifyWebhookToken configuredToken headerToken queryToken reqBody with
  | Ok CallNext =>
      let out := handler db now reqBody in
      (fst (fst out), Answered (snd (fst out)), snd out)
  | Ok (Refuse statusCode) => (db, Rejected statusCode, [])
  | Throw statusCode e => (db, Answered (errorHandler statusCode e), [])
  end.

(** The request carries the token [t]: in the header, else in the query,
    else in the body. *)
Definition carriesToken (t : string) (headerToken : option string)
    (queryToken reqBody : value) : Prop :=
  present headerToken = Some t \/
  (present headerToken = None /\ queryToken = VString t) \/
  (present headerToken = None /\ truthy queryToken = false /\
   getProp reqBody "token" = Ok (VString t)).

(** ** Further example data *)

(** Two pending sales (one with a manager) and a calculated one. *)
Definition pendingDB : DB :=
  mkDB [ mkSale 20%nat 2%nat (Some 1%nat) "p-20" 1500 false None None
                (Some "antonio10") 5 false;
         mkSale 21%nat 3%nat None "p-21" 200 false None None None 6 false;
         calculatedSale 22%nat "p-22" 300 30 7 ]
       exampleTiers [] 100%nat.

(** Orders whose [discount_codes] is [[null]] and a blank string. *)
Definition shopifyNullCoupon : value :=
  obj [("order", obj [("id", VNumber 1004);
                      ("total_price", VString "150.00");
                      ("discount_codes", VArray [VNull])])].

Definition cartPandaBlankCoupon : value :=
  obj [("event", VString "order.paid");
       ("order", obj [("id", VNumber 1005);
                      ("total_price", VNumber 160.65);
                      ("discount_codes", VString "   ")])].

(** A payment request for a period that ends before it starts. *)
Definition reversedPeriodRequest : value :=
  obj [("startDate", VNumber 10); ("endDate", VNumber 0)].

(** * Properties

    ** Doubles *)

Lemma roundHalfEven_nonneg (n : Z) (d : positive) :
  (0 <= n)%Z -> (0 <= roundHalfEven n d)%Z.
Proof.
  intros Hn. unfold roundHalfEven.
  assert (Hq : (0 <= n / Zpos d)%Z) by (apply Z.div_pos; lia).
  destruct (2 * (n mod Zpos d) ?= Zpos d)%Z; [destruct (Z.even _)| |]; lia.
Qed.

Lemma roundPositive_nonneg (n d : positive) : NonNeg (roundPositive n d).
Proof.
  unfold roundPositive.
  destruct (scale2 n d (- Z.max (binadeOf n d - 52) (-1074))) as [n' d'].
  pose proof (roundHalfEven_nonneg (Zpos n') d' ltac:(lia)) as Hm.
  destruct (_ && _); [reflexivity|].
  cbn [NonNeg]. rewrite Qred_correct.
  destruct (0 <=? Z.max (binadeOf n d - 52) (-1074))%Z.
  - unfold Qle, inject_Z. cbn [Qnum Qden].
    assert (0 <= 2 ^ Z.max (binadeOf n d - 52) (-1074))%Z by (apply Z.pow_nonneg; lia).
    nia.
  - unfold Qle. cbn [Qnum Qden]. lia.
Qed.

Lemma round_nonneg (q : Q) : 0 <= q -> NonNeg (round q).
Proof.
  intros Hq. unfold round. destruct q as [n d]. cbn [Qnum Qden].
  destruct n as [|n|n].
  - apply Qle_refl.
  - apply roundPositive_nonneg.
  - exfalso. unfold Qle in Hq. cbn [Qnum Qden] in Hq. lia.
Qed.

Lemma nearest_nonneg (x : double) : NonNeg x -> NonNeg (nearest x).
Proof. destruct x as [|s|q]; cbn [nearest NonNeg]; auto. apply round_nonneg. Qed.

Lemma dnonneg_nearest (x : double) : dnonneg x <-> NonNeg (nearest x).
Proof.
  unfold dnonneg, dnonnegb. destruct (nearest x) as [|s|q]; cbn [NonNeg].
  - split; [discriminate|tauto].
  - destruct s; cbn; split; congruence.
  - apply Qle_bool_iff.
Qed.

Lemma NonNeg_dnonneg (x : double) : NonNeg x -> dnonneg x.
Proof. intros Hx. apply dnonneg_nearest, nearest_nonneg, Hx. Qed.


(** The product of two doubles that are not negative is not negative, or
    it is the [NaN] of [0 * Infinity]. *)
Lemma dmul_nonneg (a b : double) :
  dnonneg a -> dnonneg b -> dmul a b = DNaN \/ dnonneg (dmul a b).
Proof.
  intros Ha Hb. apply dnonneg_nearest in Ha, Hb.
  unfold dmul. destruct (nearest a) as [|s|x], (nearest b) as [|s'|y];
    cbn [NonNeg] in *; try contradiction; subst; cbn [xorb].
  - right. now apply NonNeg_dnonneg.
  - destruct (isZeroQ y) eqn:Z; [now left|right]. apply NonNeg_dnonneg.
    unfold isNegative. destruct (Z.ltb_spec (Qnum y) 0) as [Hlt|_]; [|reflexivity].
    exfalso. unfold Qle in Hb. cbn [Qnum Qden] in Hb. lia.
  - destruct (isZeroQ x) eqn:Z; [now left|right]. apply NonNeg_dnonneg.
    unfold isNegative. destruct (Z.ltb_spec (Qnum x) 0) as [Hlt|_]; [|reflexivity].
    exfalso. unfold Qle in Ha. cbn [Qnum Qden] in Ha. lia.
  - right. apply NonNeg_dnonneg, round_nonneg. now apply Qmult_le_0_compat.
Qed.

(** [pct / 100] is not negative when [pct] is not. *)
Lemma percent_nonneg (pct : Q) : 0 <= pct -> dnonneg (ddiv (DFin pct) (DFin 100)).
Proof.
  intros Hp. apply NonNeg_dnonneg. unfold ddiv.
  change (nearest (DFin 100)) with (DFin 100).
  pose proof (round_nonneg pct Hp) as Hn. cbn [nearest].
  destruct (round pct) as [|s|x]; cbn [NonNeg] in Hn; try contradiction; subst.
  - reflexivity.
  - change (isZeroQ 100) with false. cbn iota.
    apply round_nonneg. apply Qle_shift_div_l; [reflexivity|]. now rewrite Qmult_0_l.
Qed.

(** ** The tier resolver *)

Lemma Role_eqb_eq a b : Role_eqb a b = true <-> a = b.
Proof. destruct a, b; simpl; split; congruence. Qed.

Lemma tierQuery_applicable role v t :
  tierQuery role v t = true <-> applicable role v t.
Proof.
  unfold tierQuery, applicable.
  rewrite !andb_true_iff, Role_eqb_eq, Qle_bool_iff. tauto.
Qed.

Lemma calculateCommissionForSale_eq tiers v role :
  calculateCommissionForSale tiers v role = calculateCommission tiers v role.
Proof.
  reflexivity.
Qed.

(** The head of the sorted result is a member with the largest key. *)
Lemma sortByMinDesc_head l :
  match sortByMinDesc l with
  | [] => l = []
  | t :: _ => In t l /\ forall x, In x l -> minSalesValue x <= minSalesValue t
  end.
Proof.
  induction l as [|a l IH]; simpl; [reflexivity|].
  destruct (sortByMinDesc l) as [|t r]; simpl.
  - subst l. split; [now left|]. intros x [<-|[]]. apply Qle_refl.
  - destruct IH as [Hin Hmax].
    destruct (Qle_bool (minSalesValue t) (minSalesValue a)) eqn:E.
    + apply Qle_bool_iff in E. split; [now left|].
      intros x [<-|Hx]; [apply Qle_refl|].
      eapply Qle_trans; [apply Hmax, Hx|exact E].
    + split; [now right|].
      intros x [<-|Hx]; [|now apply Hmax].
      destruct (Qlt_le_dec (minSalesValue a) (minSalesValue t)) as [H|H].
      * now apply Qlt_le_weak.
      * apply Qle_bool_iff in H. congruence.
Qed.

Lemma insertDesc_withMax f t l :
  insertDesc (withMax f t) (map (withMax f) l) = map (withMax f) (insertDesc t l).
Proof.
  induction l as [|x r IH]; simpl; [reflexivity|].
  destruct (Qle_bool (minSalesValue x) (minSalesValue t)); simpl; [reflexivity|].
  now rewrite IH.
Qed.

Lemma sortByMinDesc_withMax f l :
  sortByMinDesc (map (withMax f) l) = map (withMax f) (sortByMinDesc l).
Proof.
  induction l as [|a l IH]; simpl; [reflexivity|].
  now rewrite IH, insertDesc_withMax.
Qed.

Lemma filter_tierQuery_withMax f role v l :
  filter (tierQuery role v) (map (withMax f) l) = map (withMax f) (filter (tierQuery role v) l).
Proof.
  induction l as [|a l IH]; simpl; [reflexivity|].
  change (tierQuery role v (withMax f a)) with (tierQuery role v a).
  destruct (tierQuery role v a); simpl; now rewrite IH.
Qed.

Lemma calculateCommission_withMax f tiers v role :
  calculateCommission (map (withMax f) tiers) v role = calculateCommission tiers v role.
Proof.
  unfold calculateCommission.
  rewrite filter_tierQuery_withMax, sortByMinDesc_withMax.
  destruct (sortByMinDesc _); reflexivity.
Qed.

(** When every other applicable tier has a strictly smaller key than [t],
    the resolver picks [t]. *)
Lemma calculateCommission_strict_max tiers v role t :
  In t tiers -> applicable role v t ->
  (forall t', In t' tiers -> applicable role v t' ->
              t' = t \/ minSalesValue t' < minSalesValue t) ->
  calculateCommission tiers v role
  = dmul (DFin v) (ddiv (DFin (commissionPercentage t)) (DFin 100)).
Proof.
  intros Hin Happ Hstrict. unfold calculateCommission.
  pose proof (sortByMinDesc_head (filter (tierQuery role v) tiers)) as H.
  assert (Hf : In t (filter (tierQuery role v) tiers))
    by (apply filter_In; split; [assumption|now apply tierQuery_applicable]).
  destruct (sortByMinDesc _) as [|h r].
  - rewrite H in Hf. destruct Hf.
  - destruct H as [Hh Hmax]. apply filter_In in Hh. destruct Hh as [Hh1 Hh2].
    apply tierQuery_applicable in Hh2.
    destruct (Hstrict h Hh1 Hh2) as [->|Hlt]; [reflexivity|].
    exfalso. apply (Qlt_not_le _ _ Hlt), Hmax, Hf.
Qed.

(** C1.  For every role and sale value, both resolvers return
    [saleValue * (pct / 100)], computed as the code computes it (the
    quotient rounded to a double, then the product rounded to a double), for
    an active tier [t] of the role with [minSalesValue t <= saleValue] whose
    [minSalesValue] is the largest among such tiers, and exactly [0] when
    there is no such tier.  The resolver is a total function: it has no
    error result. *)
Theorem commission_resolution (tiers : list ICommissionTier) (role : Role) (saleValue : Q) :
  calculateCommissionForSale tiers saleValue role = calculateCommission tiers saleValue role /\
  ((exists t,
      In t tiers /\ applicable role saleValue t /\
      (forall t', In t' tiers -> applicable role saleValue t' ->
                  minSalesValue t' <= minSalesValue t) /\
      calculateCommission tiers saleValue role
      = dmul (DFin saleValue) (ddiv (DFin (commissionPercentage t)) (DFin 100)))
   \/
   ((forall t, In t tiers -> ~ applicable role saleValue t) /\
    calculateCommission tiers saleValue role = DFin 0)).
Proof.
  split; [reflexivity|].
  unfold calculateCommission.
  pose proof (sortByMinDesc_head (filter (tierQuery role saleValue) tiers)) as H.
  destruct (sortByMinDesc _) as [|h r].
  - right. split; [|reflexivity].
    intros t Hin Happ.
    assert (Hf : In t (filter (tierQuery role saleValue) tiers))
      by (apply filter_In; split; [assumption|now apply tierQuery_applicable]).
    rewrite H in Hf. exact Hf.
  - left. destruct H as [Hh Hmax].
    apply filter_In in Hh. destruct Hh as [Hin Hq].
    exists h. split; [assumption|].
    split; [now apply tierQuery_applicable|].
    split.
    + intros t' Hin' Happ'. apply Hmax, filter_In.
      split; [assumption|now apply tierQuery_applicable].
    + reflexivity.
Qed.

(** The tier-selection example: 999.99 falls in the 10% tier, 1000.01 in the
    15% tier and 1000000 in the 20% tier; without an active tier of the role
    the commission is 0.  The results are the doubles that JavaScript prints
    as 99.99900000000001, 150.0015 and 200000. *)
Example tier_selection_example :
  calculateCommission exampleTiers 999.99 INFLUENCER = round 99.99900000000001 /\
  calculateCommission exampleTiers 999.99 INFLUENCER <> round 99.999 /\
  calculateCommission exampleTiers 1000.01 INFLUENCER = round 150.0015 /\
  calculateCommission exampleTiers 1000000 INFLUENCER = DFin 200000 /\
  calculateCommission [] 1000000 INFLUENCER = DFin 0 /\
  calculateCommission (filter (fun t => negb (isActive t)) exampleTiers) 500 INFLUENCER
    = DFin 0.
Proof. repeat apply conj; vm_compute; try reflexivity; discriminate. Qed.

(** C10.  The resolvers never read [maxSalesValue]: replacing the upper
    bounds of the tiers by anything leaves the commission unchanged, and a
    tier whose [minSalesValue] is strictly the largest applicable one gives
    its percentage also to a sale strictly above its [maxSalesValue]. *)
Theorem maxSalesValue_not_consulted (tiers : list ICommissionTier) (role : Role) (saleValue : Q) :
  (forall f : ICommissionTier -> option Q,
     calculateCommission (map (withMax f) tiers) saleValue role
       = calculateCommission tiers saleValue role /\
     calculateCommissionForSale (map (withMax f) tiers) saleValue role
       = calculateCommissionForSale tiers saleValue role) /\
  (forall t upper,
     In t tiers -> applicable role saleValue t ->
     maxSalesValue t = Some upper -> upper < saleValue ->
     (forall t', In t' tiers -> applicable role saleValue t' ->
                 t' = t \/ minSalesValue t' < minSalesValue t) ->
     calculateCommission tiers saleValue role
       = dmul (DFin saleValue) (ddiv (DFin (commissionPercentage t)) (DFin 100)) /\
     calculateCommissionForSale tiers saleValue role
       = dmul (DFin saleValue) (ddiv (DFin (commissionPercentage t)) (DFin 100))).
Proof.
  split.
  - intro f. split; apply calculateCommission_withMax.
  - intros t upper Hin Happ _ _ Hstrict.
    split; now apply calculateCommission_strict_max.
Qed.

(** A sale of 5000 against the single tier [0, 1000) at 10% still earns 10%. *)
Lemma maxSalesValue_not_consulted_witness :
  let t := mkTier "Bronze" 0 (Some 1000) 10 INFLUENCER true in
  calculateCommission [t] 5000 INFLUENCER = dmul (DFin 5000) (ddiv (DFin 10) (DFin 100)).
Proof.
  intro t.
  apply (proj2 (maxSalesValue_not_consulted [t] INFLUENCER 5000) t 1000).
  - now left.
  - repeat split. discriminate.
  - reflexivity.
  - reflexivity.
  - intros t' [<-|[]] _. now left.
Defined.

(** ** The webhook handlers *)

Section HandlerFacts.
Context `{Runtime} `{UserDirectory}.

Lemma errorHandler_status s e :
  status (errorHandler s e) = 500%nat \/ (status (errorHandler s e) = s /\ s <> 200%nat).
Proof.
  unfold errorHandler; simpl. destruct (Nat.eqb_spec s 200); [now left|now right].
Qed.

Lemma errorHandler_not_201 s e : s <> 201%nat -> status (errorHandler s e) <> 201%nat.
Proof.
  intros Hs. destruct (errorHandler_status s e) as [E|[E _]]; rewrite E; [discriminate|assumption].
Qed.

Lemma Sale_create_ok db doc db' s :
  Sale_create db doc = Ok (db', s) ->
  findSaleByOrderId (sales db) (docOrderId doc) = None /\
  sales db' = sales db ++ [s] /\ tiers db' = tiers db /\ payments db' = payments db /\
  orderId s = docOrderId doc /\ saleId s = nextId db.
Proof.
  unfold Sale_create, bind.
  destruct (castCoupon (docCouponCode doc)); [|discriminate].
  destruct (docTransactionDate doc); [|discriminate].
  destruct (_ || _); [discriminate|].
  destruct (String.eqb _ _); [discriminate|].
  destruct (negb _); [discriminate|].
  destruct (findSaleByOrderId _ _) eqn:E; [discriminate|].
  intros [= <- <-]. simpl. repeat split; auto.
Qed.

Lemma Sale_create_throws db doc s e :
  Sale_create db doc = Throw s e -> s = 200%nat.
Proof.
  unfold Sale_create, bind.
  destruct (castCoupon (docCouponCode doc)) as [c|s0 e0] eqn:C.
  - destruct (docTransactionDate doc); [|now intros [= <- _]].
    destruct (_ || _); [now intros [= <- _]|].
    destruct (String.eqb _ _); [now intros [= <- _]|].
    destruct (negb _); [now intros [= <- _]|].
    destruct (findSaleByOrderId _ _); [now intros [= <- _]|discriminate].
  - intros [= <- _]. unfold castCoupon in C.
    destruct (docCouponCode doc); try discriminate;
      destruct (castString _); congruence.
Qed.

Lemma findSaleByOrderId_app_new l s o :
  findSaleByOrderId l o = None -> orderId s = o ->
  findSaleByOrderId (l ++ [s]) o = Some s /\ countOrderId (l ++ [s]) o = 1%nat.
Proof.
  unfold findSaleByOrderId, countOrderId. intros Hn <-.
  induction l as [|x l IH]; simpl in *.
  - rewrite String.eqb_refl. auto.
  - destruct (String.eqb (orderId x) (orderId s)); [discriminate|]. auto.
Qed.

Lemma Sale_create_errors db doc s e :
  Sale_create db doc = Throw s e ->
  e = DuplicateKey \/ e = CastError \/ e = ValidationError.
Proof.
  unfold Sale_create, bind.
  destruct (castCoupon (docCouponCode doc)) as [c|s0 e0] eqn:C.
  - destruct (docTransactionDate doc); [|intros [= _ <-]; auto].
    destruct (_ || _); [intros [= _ <-]; auto|].
    destruct (String.eqb _ _); [intros [= _ <-]; auto|].
    destruct (negb _); [intros [= _ <-]; auto|].
    destruct (findSaleByOrderId _ _); [intros [= _ <-]; auto|discriminate].
  - intros [= _ <-]. unfold castCoupon in C.
    destruct (docCouponCode doc); try discriminate;
      destruct (castString _); try discriminate; injection C as _ <-; auto.
Qed.

(** The three ways a handler ends once its reads are done. *)
Lemma respond_throw db s e :
  respond db (p <- Throw s e ;; complete db p) = (db, errorHandler s e, []).
Proof. reflexivity. Qed.

Lemma respond_answer db r :
  respond db (p <- Ok (Respond r) ;; complete db p) = (db, r, []).
Proof. reflexivity. Qed.

Lemma respond_persist db pend :
  respond db (p <- Ok (Persist pend) ;; complete db p) =
  match Sale_create db (pendingDoc pend) with
  | Ok (db', s) =>
      (db', mkResponse 201
              (SaleRegistered (saleId s) (userId (pendingInfluencer pend))
                 (option_map userId (pendingManager pend))
                 (docInfluencerCommission (pendingDoc pend))
                 (docManagerCommission (pendingDoc pend))),
       newSaleNotification (pendingInfluencer pend) (pendingCanRender pend))
  | Throw s e => (db, errorHandler s e, [])
  end.
Proof.
  simpl. unfold registerSale, bind.
  destruct (Sale_create db (pendingDoc pend)) as [[db' s]|]; reflexivity.
Qed.

Lemma getProp_throws v k s e : getProp v k = Throw s e -> s = 200%nat.
Proof. destruct v; simpl; congruence. Qed.

Lemma shopifyIntake_throws reqBody s e :
  shopifyIntake reqBody = Throw s e -> s = 400%nat \/ s = 200%nat.
Proof.
  unfold shopifyIntake, bind.
  destruct (getProp reqBody "order") eqn:G.
  - destruct (negb (truthy a)); [intros [= <- _]; now left|].
    destruct (_ || _); [intros [= <- _]; now left|discriminate].
  - intros [= <- _]. right. eapply getProp_throws, G.
Qed.

Lemma cartPandaIntake_throws reqBody s e :
  cartPandaIntake reqBody = Throw s e -> s = 400%nat \/ s = 200%nat.
Proof.
  unfold cartPandaIntake, bind.
  destruct (getProp reqBody "order") eqn:G.
  - destruct (_ || _); [intros [= <- _]; now left|].
    destruct (_ || _); [intros [= <- _]; now left|discriminate].
  - intros [= <- _]. right. eapply getProp_throws, G.
Qed.

Lemma saleIntake_throws reqBody s e :
  saleIntake reqBody = Throw s e -> s = 400%nat \/ s = 200%nat.
Proof.
  unfold saleIntake, bind.
  destruct (getProp reqBody "orderId") eqn:G.
  - destruct (_ || _); [intros [= <- _]; now left|discriminate].
  - intros [= <- _]. right. eapply getProp_throws, G.
Qed.

Lemma shopifyCouponCode_throws d s e :
  shopifyCouponCode d = Throw s e -> s = 200%nat.
Proof.
  unfold shopifyCouponCode, bind. destruct (_ || _); [discriminate|].
  destruct (getProp _ _) eqn:G; [discriminate|].
  intros [= <- _]. eapply getProp_throws, G.
Qed.

Lemma cartPandaCouponCode_throws d s e :
  cartPandaCouponCode d = Throw s e -> s = 200%nat.
Proof.
  unfold cartPandaCouponCode, bind. destruct (truthy d); [|discriminate].
  destruct d; try discriminate.
  destruct items as [|first rest]; [discriminate|].
  destruct (isObjectType first); [|discriminate].
  destruct (getProp _ _) eqn:G; [discriminate|].
  intros [= <- _]. eapply getProp_throws, G.
Qed.

Lemma shopifyPrepare_sound : PrepareSound shopifyPrepare shopifyOrderKey anyBody.
Proof.
  intros seen now reqBody. unfold shopifyPrepare, shopifyOrderKey, bind.
  destruct (shopifyIntake reqBody) as [o|s e] eqn:I; [|eapply shopifyIntake_throws, I].
  destruct (findSaleByOrderId _ _) eqn:F; [reflexivity|].
  destruct (shopifyCouponCode _) as [[c|]|s e] eqn:C;
    [| reflexivity | right; eapply shopifyCouponCode_throws, C].
  destruct (FindUserByCoupon c); [|reflexivity].
  destruct (parseFloat _); [now right|].
  simpl. auto.
Qed.

Lemma cartPandaPrepare_sound : PrepareSound cartPandaPrepare cartPandaOrderKey anyBody.
Proof.
  intros seen now reqBody. unfold cartPandaPrepare, cartPandaOrderKey, bind.
  destruct (cartPandaIntake reqBody) as [o|s e] eqn:I; [|eapply cartPandaIntake_throws, I].
  destruct (findSaleByOrderId _ _) eqn:F; [reflexivity|].
  destruct (cartPandaCouponCode _) as [c|s e] eqn:C;
    [| right; eapply cartPandaCouponCode_throws, C].
  destruct (negb (truthy c)); [reflexivity|].
  destruct (FindUserByCoupon c); [|reflexivity].
  destruct (cartPandaOrderValue _) as [[|q]|s e] eqn:V.
  - now right.
  - simpl. auto.
  - right. destruct (cartPandaFinalTotalPrice o) as [|[]]; simpl in V; congruence.
Qed.

Lemma findSaleByValue_throws l v s e :
  findSaleByValue l v = Throw s e -> s = 200%nat.
Proof.
  unfold findSaleByValue.
  destruct v; try discriminate; destruct (stringFilter _); congruence.
Qed.

Lemma saleWebhookPrepare_sound : PrepareSound saleWebhookPrepare saleOrderKey stringOrderId.
Proof.
  intros seen now reqBody. unfold saleWebhookPrepare, saleOrderKey, bind.
  destruct (saleIntake reqBody) as [o|s e] eqn:I; [|eapply saleIntake_throws, I].
  destruct (findSaleByValue _ _) as [[x|]|s e] eqn:F;
    [reflexivity| |right; eapply findSaleByValue_throws, F].
  destruct (FindUserByCoupon _); [|now left].
  destruct (castNumber _); [|now right].
  destruct (castString _) as [order|] eqn:C; [|now right].
  simpl. intros [s Hs].
  assert (Ho : saleOrderId o = VString s).
  { revert I. unfold saleIntake, bind.
    destruct (getProp reqBody "orderId") as [v|] eqn:G; [|discriminate].
    destruct (_ || _); [discriminate|]. intros [= <-]. simpl.
    destruct reqBody; simpl in G; try discriminate; injection G as <-; exact Hs. }
  rewrite Ho in *. simpl in C, F. injection C as <-. injection F as F. auto.
Qed.

Lemma shopifyPrepare_checks : PrepareChecks shopifyPrepare shopifyOrderKey.
Proof.
  intros seen now reqBody o existing. unfold shopifyOrderKey, shopifyPrepare, bind.
  destruct (shopifyIntake reqBody); [|discriminate].
  intros [= <-] ->. reflexivity.
Qed.

Lemma cartPandaPrepare_checks : PrepareChecks cartPandaPrepare cartPandaOrderKey.
Proof.
  intros seen now reqBody o existing. unfold cartPandaOrderKey, cartPandaPrepare, bind.
  destruct (cartPandaIntake reqBody); [|discriminate].
  intros [= <-] ->. reflexivity.
Qed.

Lemma saleWebhookPrepare_checks : PrepareChecks saleWebhookPrepare saleOrderKey.
Proof.
  intros seen now reqBody o existing. unfold saleOrderKey, saleWebhookPrepare, bind.
  destruct (saleIntake reqBody) as [i|]; [|discriminate].
  destruct (saleOrderId i); try discriminate.
  intros [= <-]. simpl. intros ->. reflexivity.
Qed.

Lemma handler_answers_recorded prepare key :
  PrepareChecks prepare key -> AnswersRecorded (handlerOf prepare) key.
Proof.
  intros Hc db now reqBody o existing Hk Hf. unfold handlerOf.
  now rewrite (Hc db now reqBody o existing Hk Hf).
Qed.

Lemma handler_replay prepare key dom :
  PrepareSound prepare key dom -> PrepareChecks prepare key ->
  ReplayIsNoop (handlerOf prepare) key dom.
Proof.
  intros Hs Hc db now now' reqBody db1 answer notes Hdom. unfold handlerOf.
  pose proof (Hs db now reqBody) as S.
  destruct (prepare db now reqBody) as [[r|pend]|s e].
  - rewrite respond_answer. intros [= <- E _]. rewrite E in S. discriminate.
  - rewrite respond_persist.
    destruct (Sale_create db (pendingDoc pend)) as [[db' s]|s e] eqn:C.
    + intros [= <- <- _].
      destruct (S Hdom) as [Hk _].
      apply Sale_create_ok in C. destruct C as (Hn & Hs' & _ & _ & Ho & _).
      destruct (findSaleByOrderId_app_new _ s _ Hn Ho) as [Hfind Hcount].
      rewrite <- Hs' in Hfind, Hcount.
      pose proof (Hc db' now' reqBody _ s Hk Hfind) as P.
      exists s, (docOrderId (pendingDoc pend)).
      rewrite P, respond_answer. simpl.
      repeat split; eauto.
    + intros [= _ E _]. exfalso. revert E.
      apply (errorHandler_not_201 s e).
      rewrite (Sale_create_throws _ _ _ _ C). discriminate.
  - rewrite respond_throw. intros [= _ E _]. exfalso. revert E.
    apply (errorHandler_not_201 s e). destruct S as [-> | ->]; discriminate.
Qed.

Lemma handler_surfaces_duplicate prepare :
  SurfacesDuplicate prepare
    (fun seen db now reqBody => respond db (p <- prepare seen now reqBody ;; complete db p)).
Proof.
  intros seen db now reqBody pend existing -> Hdup.
  rewrite respond_persist.
  destruct (Sale_create db (pendingDoc pend)) as [[db' s]|s e] eqn:C.
  - apply Sale_create_ok in C. destruct C as [C _]. congruence.
  - exists e. rewrite (Sale_create_throws _ _ _ _ C). split; [reflexivity|].
    eapply Sale_create_errors, C.
Qed.

End HandlerFacts.

(** C2.  In each of the three handlers, a delivery whose order id already has
    a Sale is answered [200] with the id of that Sale, the store is unchanged
    (no row, no recomputation) and no notification is attempted; a delivery
    that created a Sale, delivered again, is answered with the id of the
    Sale it created, and the order id has exactly one row afterwards.  For
    the generic webhook the order id is the [orderId] string of the body. *)
Theorem duplicate_delivery_is_idempotent `{Runtime} `{UserDirectory} :
  AnswersRecorded processShopifyWebhook shopifyOrderKey /\
  AnswersRecorded processCartPandaWebhook cartPandaOrderKey /\
  AnswersRecorded processSaleWebhook saleOrderKey /\
  ReplayIsNoop processShopifyWebhook shopifyOrderKey anyBody /\
  ReplayIsNoop processCartPandaWebhook cartPandaOrderKey anyBody /\
  ReplayIsNoop processSaleWebhook saleOrderKey stringOrderId.
Proof.
  repeat split.
  - apply (handler_answers_recorded shopifyPrepare), shopifyPrepare_checks.
  - apply (handler_answers_recorded cartPandaPrepare), cartPandaPrepare_checks.
  - apply (handler_answers_recorded saleWebhookPrepare), saleWebhookPrepare_checks.
  - apply (handler_replay shopifyPrepare);
      [apply shopifyPrepare_sound|apply shopifyPrepare_checks].
  - apply (handler_replay cartPandaPrepare);
      [apply cartPandaPrepare_sound|apply cartPandaPrepare_checks].
  - apply (handler_replay saleWebhookPrepare);
      [apply saleWebhookPrepare_sound|apply saleWebhookPrepare_checks].
Qed.


(** C3 (amended).  When the reads of a handler passed the duplicate check
    and reached the insert, and a Sale with the same order id exists at insert
    time, the insert throws ([DuplicateKey], unless a validator of the schema
    throws first), the error middleware answers [500], the store is left as
    it is and no notification is attempted: the violation is not turned into
    an already-processed success. *)
Theorem duplicate_on_insert_surfaces `{Runtime} `{UserDirectory} :
  SurfacesDuplicate shopifyPrepare processShopifyWebhookAt /\
  SurfacesDuplicate cartPandaPrepare processCartPandaWebhookAt /\
  SurfacesDuplicate saleWebhookPrepare processSaleWebhookAt.
Proof.
  repeat split.
  - apply (handler_surfaces_duplicate shopifyPrepare).
  - apply (handler_surfaces_duplicate cartPandaPrepare).
  - apply (handler_surfaces_duplicate saleWebhookPrepare).
Qed.

(** C4 (amended).  A Shopify or CartPanda payload that passes the intake and
    carries no coupon, or a coupon of no influencer, is answered [200]
    ([processed: false], or the recorded sale when the order id is known),
    creates no Sale and notifies nobody.  The generic webhook answers [400]
    in both cases, and creates no Sale either: a missing coupon fails its
    validation, and an unknown coupon is thrown as an error with status
    [400] (unless the order id is already recorded, which is answered first). *)
Theorem unattributed_orders `{Runtime} `{UserDirectory} (db : DB) (now : Z) (reqBody : value) :
  (forall o, shopifyIntake reqBody = Ok o -> shopifyUnattributable o ->
     exists answer,
       processShopifyWebhook db now reqBody = (db, mkResponse 200 answer, []) /\
       notAttributedAnswer
         (findSaleByOrderId (sales db) (toString (shopifyFinalOrderId o))) answer) /\
  (forall o, cartPandaIntake reqBody = Ok o -> cartPandaUnattributable o ->
     exists answer,
       processCartPandaWebhook db now reqBody = (db, mkResponse 200 answer, []) /\
       notAttributedAnswer
         (findSaleByOrderId (sales db) (toString (cartPandaFinalOrderId o))) answer) /\
  (forall fields, reqBody = VObject fields ->
     truthy (field reqBody "couponCode") = false ->
     processSaleWebhook db now reqBody = (db, mkResponse 400 (Failure IncompleteData), [])) /\
  (forall o, saleIntake reqBody = Ok o ->
     FindUserByCoupon (saleCouponCode o) = None ->
     processSaleWebhook db now reqBody =
       (db,
        match findSaleByValue (sales db) (saleOrderId o) with
        | Ok (Some existing) => mkResponse 200 (AlreadyProcessed (saleId existing))
        | Ok None => mkResponse 400 (Failure InfluencerNotFound)
        | Throw _ e => mkResponse 500 (Failure e)
        end,
        [])).
Proof.
  repeat split.
  - intros o Hi Hu.
    unfold processShopifyWebhook, processShopifyWebhookAt, shopifyPrepare.
    rewrite Hi. simpl bind.
    destruct (findSaleByOrderId _ _) as [existing|]; simpl.
    + eexists; split; reflexivity.
    + destruct Hu as [-> | (c & -> & Hc)]; simpl.
      * eexists; split; [reflexivity|now left].
      * rewrite Hc. eexists; split; [reflexivity|right; now exists c].
  - intros o Hi (c & Hc & Hu).
    unfold processCartPandaWebhook, processCartPandaWebhookAt, cartPandaPrepare.
    rewrite Hi. simpl bind.
    destruct (findSaleByOrderId _ _) as [existing|]; simpl.
    + eexists; split; reflexivity.
    + rewrite Hc. simpl.
      destruct (truthy c) eqn:T; simpl.
      * destruct Hu as [Hu|Hu]; [discriminate|]. rewrite Hu.
        eexists; split; [reflexivity|right; now exists c].
      * eexists; split; [reflexivity|now left].
  - intros fields -> Hc.
    unfold processSaleWebhook, processSaleWebhookAt, saleWebhookPrepare, saleIntake.
    cbn [getProp bind field] in *. rewrite Hc. simpl.
    now rewrite !orb_true_r.
  - intros o Hi Hc.
    unfold processSaleWebhook, processSaleWebhookAt, saleWebhookPrepare.
    rewrite Hi. simpl bind.
    destruct (findSaleByValue _ _) as [[existing|]|s e] eqn:F; simpl.
    + reflexivity.
    + rewrite Hc. reflexivity.
    + now rewrite (findSaleByValue_throws _ _ _ _ F).
Qed.


(** C6 (amended).  The coupon of a CartPanda order: a string gives the string
    trimmed; an array gives the [code] of its first element when this is an
    object with a non-empty [code], and the first element itself when it is
    a string (the other elements are never read); a single object gives its
    non-empty [code].  For a non-empty [x] without white space at its ends
    the three encodings give [x].  Without [discount_codes], or with an empty
    or absent code in these positions, there is no coupon ([VNull], or the
    empty string, which the handler also takes as "no coupon"). *)
Theorem cartPanda_coupon_encodings :
  (forall s, s <> EmptyString ->
     cartPandaCouponCode (VString s) = Ok (VString (trim s))) /\
  (forall fields rest,
     cartPandaCouponCode (VArray (VObject fields :: rest)) =
       Ok (if truthy (assoc "code" fields) then assoc "code" fields else VNull)) /\
  (forall x rest,
     cartPandaCouponCode (VArray (VString x :: rest)) = Ok (VString x)) /\
  (forall fields,
     cartPandaCouponCode (VObject fields) =
       Ok (if truthy (assoc "code" fields) then assoc "code" fields else VNull)) /\
  (forall x rest, x <> EmptyString -> trim x = x ->
     cartPandaCouponCode (VString x) = Ok (VString x) /\
     cartPandaCouponCode (VArray (VObject [("code", VString x)] :: rest)) = Ok (VString x) /\
     cartPandaCouponCode (VArray (VString x :: rest)) = Ok (VString x) /\
     cartPandaCouponCode (VObject [("code", VString x)]) = Ok (VString x)) /\
  (cartPandaCouponCode VUndefined = Ok VNull /\
   cartPandaCouponCode VNull = Ok VNull /\
   cartPandaCouponCode (VString EmptyString) = Ok VNull /\
   cartPandaCouponCode (VArray []) = Ok VNull /\
   truthy VNull = false /\ truthy (VString EmptyString) = false).
Proof.
  assert (S : forall s, s <> EmptyString ->
                cartPandaCouponCode (VString s) = Ok (VString (trim s))).
  { intros s Hs. unfold cartPandaCouponCode. simpl.
    destruct (String.eqb_spec s EmptyString); [contradiction|reflexivity]. }
  assert (T : forall x, x <> EmptyString ->
                truthy (VString x) = true).
  { intros x Hx. simpl. destruct (String.eqb_spec x EmptyString); [contradiction|reflexivity]. }
  repeat apply conj; try reflexivity; try exact S.
  intros x rest Hx Ht. repeat apply conj.
  - rewrite (S x Hx). now rewrite Ht.
  - unfold cartPandaCouponCode. cbn [truthy isObjectType getProp bind field assoc].
    rewrite String.eqb_refl. now rewrite (T x).
  - reflexivity.
  - unfold cartPandaCouponCode. cbn [truthy isObjectType getProp bind field assoc andb].
    rewrite String.eqb_refl. now rewrite (T x).
Qed.

(** ** The commission service *)

Lemma filter_none {A} (f : A -> bool) (l : list A) :
  (forall x, In x l -> f x = false) -> filter f l = [].
Proof.
  induction l as [|a l IH]; simpl; intros Hf; [reflexivity|].
  rewrite (Hf a (or_introl eq_refl)). apply IH. intros x Hx. apply Hf. now right.
Qed.

Section Grouping.

Variable key : ISale -> option ObjectId.









End Grouping.


(** The amount of a sale that is not negative, under percentages that are
    not negative, is not negative (or the [NaN] of [0 * Infinity], which is
    read back as 0). *)
Lemma calculateCommissionForSale_nonneg tiers v role :
  0 <= v -> Forall (fun t => 0 <= commissionPercentage t) tiers ->
  calculateCommissionForSale tiers v role = DNaN \/
  dnonneg (calculateCommissionForSale tiers v role).
Proof.
  intros Hv Ht. unfold calculateCommissionForSale.
  pose proof (sortByMinDesc_head (filter (tierQuery role v) tiers)) as Hh.
  destruct (sortByMinDesc _) as [|h r]; [right; reflexivity|].
  destruct Hh as [Hin _]. apply filter_In in Hin. destruct Hin as [Hin _].
  rewrite Forall_forall in Ht.
  apply dmul_nonneg; [now apply NonNeg_dnonneg|].
  apply percent_nonneg. now apply Ht.
Qed.

Lemma commissionOf_setCommissions role ic mc s :
  (ic = DNaN \/ dnonneg ic) -> (mc = DNaN \/ dnonneg mc) ->
  dnonneg (commissionOf role (setCommissions ic mc s)).
Proof.
  intros Hi Hm. unfold commissionOf, setCommissions.
  destruct role; cbn [influencerCommissionEarned managerCommissionEarned].
  - destruct Hi as [-> |Hi]; [reflexivity|]. destruct ic; [reflexivity|exact Hi|exact Hi].
  - destruct Hm as [-> |Hm]; [reflexivity|]. destruct mc; [reflexivity|exact Hm|exact Hm].
Qed.

Lemma findByIdAndUpdate_ids l id ic mc :
  map saleId (findByIdAndUpdate l id (setCommissions ic mc)) = map saleId l.
Proof.
  induction l as [|s l IH]; simpl; [reflexivity|].
  destruct (saleId s =? id)%nat; simpl; [reflexivity|now rewrite IH].
Qed.

Lemma findByIdAndUpdate_valid l id ic mc :
  (ic = DNaN \/ dnonneg ic) -> (mc = DNaN \/ dnonneg mc) -> Forall saleValid l ->
  Forall saleValid (findByIdAndUpdate l id (setCommissions ic mc)).
Proof.
  intros Hi Hm. induction 1 as [|s l Hs Hl IH]; simpl; [constructor|].
  destruct (saleId s =? id)%nat; constructor; auto.
  destruct Hs as [Hv _]. repeat apply conj.
  - exact Hv.
  - now apply commissionOf_setCommissions.
  - now apply commissionOf_setCommissions.
Qed.

(** What the backfill keeps. *)
Lemma processPendingCommissions_keeps db :
  let db' := fst (processPendingCommissions db) in
  map saleId (sales db') = map saleId (sales db) /\
  tiers db' = tiers db /\ payments db' = payments db /\ nextId db' = nextId db /\
  (Forall saleValid (sales db) ->
   Forall (fun t => 0 <= commissionPercentage t) (tiers db) ->
   Forall saleValid (sales db')).
Proof.
  unfold processPendingCommissions.
  set (pendingSales := filter _ (sales db)).
  assert (Hp : forall s, In s pendingSales -> In s (sales db))
    by (intros s Hs; apply filter_In in Hs; tauto).
  clearbody pendingSales.
  set (acc0 := (db, mkPendingSummary 0 (DFin 0) (DFin 0))).
  assert (Hinv : map saleId (sales (fst acc0)) = map saleId (sales db) /\
                 tiers (fst acc0) = tiers db /\ payments (fst acc0) = payments db /\
                 nextId (fst acc0) = nextId db /\
                 (Forall saleValid (sales db) ->
                  Forall (fun t => 0 <= commissionPercentage t) (tiers db) ->
                  Forall saleValid (sales (fst acc0)))) by (simpl; auto).
  clearbody acc0. revert acc0 Hinv.
  induction pendingSales as [|s l IH]; intros acc Hinv; simpl; [exact Hinv|].
  apply IH; [intros x Hx; apply Hp; now right|].
  destruct Hinv as (Hi & Ht & Hpay & Hn & Hv).
  unfold processPendingSale. simpl.
  rewrite findByIdAndUpdate_ids. repeat split; auto.
  intros Hvalid Htiers.
  assert (Hs : 0 <= saleValue s).
  { rewrite Forall_forall in Hvalid. apply Hvalid, Hp. now left. }
  apply findByIdAndUpdate_valid; auto.
  - rewrite Ht. now apply calculateCommissionForSale_nonneg.
  - destruct (manager s); [|right; reflexivity].
    rewrite Ht. now apply calculateCommissionForSale_nonneg.
Qed.

Section GeneratorFacts.
Context `{UserDirectory}.

Lemma salesForPeriod_keeps db ps pe :
  let db1 := fst (salesForPeriod db ps pe) in
  let found := snd (salesForPeriod db ps pe) in
  map saleId (sales db1) = map saleId (sales db) /\
  payments db1 = payments db /\
  found = filter (fun s => inPeriod ps pe s && commissionCalculated s) (sales db1) /\
  (Forall saleValid (sales db) ->
   Forall (fun t => 0 <= commissionPercentage t) (tiers db) ->
   Forall saleValid found).
Proof.
  unfold salesForPeriod. simpl.
  destruct (0 <? _)%nat.
  - destruct (processPendingCommissions_keeps db) as (Hi & _ & Hp & _ & Hv).
    repeat split; auto.
    intros Hs Ht. specialize (Hv Hs Ht). rewrite Forall_forall in *.
    intros x Hx. apply filter_In in Hx. now apply Hv.
  - repeat split; auto.
    intros Hs _. rewrite Forall_forall in *.
    intros x Hx. apply filter_In in Hx. now apply Hs.
Qed.






Lemma createPayments_spec role ps pe now : forall groups st st' err,
  createPayments role ps pe now groups st = (st', err) ->
  exists done,
    (exists j, done = filter resolvable (firstn j groups)) /\
    genCreated st' = genCreated st ++ paymentsOf role ps pe now (nextId (genDB st)) done /\
    payments (genDB st') = payments (genDB st) ++ paymentsOf role ps pe now (nextId (genDB st)) done /\
    sales (genDB st') = sales (genDB st) /\
    tiers (genDB st') = tiers (genDB st) /\
    (err = None -> done = filter resolvable groups) /\
    ((forall g, In g groups ->
        dnonneg (sumSaleValue (snd g)) /\ dnonneg (sumCommission role (snd g))) ->
     err = None).
Proof.
  induction groups as [|[id gs] rest IH]; intros st st' err; simpl.
  - intros [= <- <-]. exists []. rewrite !app_nil_r.
    repeat split; auto. exists 0%nat. reflexivity.
  - unfold resolvable at 2. simpl fst.
    destruct (FindUserById id) as [u|] eqn:Eu.
    + unfold CommissionPayment_create.
      destruct (dnonnegb (sumSaleValue gs) && dnonnegb (sumCommission role gs)) eqn:Ev.
      * intros Hc. apply IH in Hc. simpl in Hc.
        destruct Hc as (done & (j & Hj) & Hcr & Hp & Hs & Ht & Hnone & Hvalid).
        exists ((id, gs) :: done). simpl.
        rewrite <- !app_assoc in Hcr, Hp. simpl in Hcr, Hp.
        repeat split; auto.
        -- exists (S j). simpl. unfold resolvable at 1. simpl. rewrite Eu. now rewrite Hj.
        -- intros E. now rewrite (Hnone E).
      * intros [= <- <-]. exists []. rewrite !app_nil_r.
        repeat split; auto.
        -- exists 0%nat. reflexivity.
        -- discriminate.
        -- intros Hv. exfalso. destruct (Hv (id, gs) (or_introl eq_refl)) as [H1 H2].
           simpl in H1, H2. unfold dnonneg in H1, H2. rewrite H1, H2 in Ev. discriminate.
    + intros Hc. apply IH in Hc.
      destruct Hc as (done & (j & Hj) & Hcr & Hp & Hs & Ht & Hnone & Hvalid).
      exists done. repeat split; auto.
      exists (S j). simpl. unfold resolvable at 1. simpl. now rewrite Eu.
Qed.


Hypothesis FindUserById_id : forall i u, FindUserById i = Some u -> userId u = i.




End GeneratorFacts.



Lemma NoDup_map_filter {A B} (f : A -> B) (g : A -> bool) (l : list A) :
  NoDup (map f l) -> NoDup (map f (filter g l)).
Proof.
  induction l as [|a l IH]; simpl; intros Hn; [constructor|].
  inversion Hn as [|? ? Hnotin Hl]; subst.
  destruct (g a); simpl; [|now apply IH].
  constructor; [|now apply IH].
  intros Hin. apply Hnotin. apply in_map_iff in Hin. destruct Hin as (x & <- & Hx).
  apply in_map. apply filter_In in Hx. tauto.
Qed.

Lemma NoDup_map_eq {A B} (f : A -> B) (l : list A) (a b : A) :
  NoDup (map f l) -> In a l -> In b l -> f a = f b -> a = b.
Proof.
  induction l as [|x l IH]; simpl; intros Hn Ha Hb E; [contradiction|].
  inversion Hn as [|? ? Hnotin Hl]; subst.
  destruct Ha as [->|Ha], Hb as [->|Hb]; auto.
  - exfalso. apply Hnotin. rewrite E. now apply in_map.
  - exfalso. apply Hnotin. rewrite <- E. now apply in_map.
Qed.

Section GeneratorPrefix.
Context `{UserDirectory}.
Hypothesis FindUserById_id : forall i u, FindUserById i = Some u -> userId u = i.




End GeneratorPrefix.






(** ** Bulk replacement of the tiers *)

Lemma validateTier_cases (t : value) :
  match validateTier t with
  | Ok _ => isEntry t = true /\ tierEntryInvalid t = false
  | Throw s _ =>
      (s = 400%nat /\ isEntry t = true /\ tierEntryInvalid t = true) \/
      (s = 200%nat /\ isEntry t = false)
  end.
Proof.
  unfold validateTier, tierEntryInvalid.
  destruct t as [| |b|q|s|items|fields];
    try (right; split; reflexivity);
    try (left; repeat split; reflexivity).
  cbn [getProp bind field isEntry].
  generalize (assoc "minSalesValue" fields) (assoc "commissionPercentage" fields)
             (assoc "maxSalesValue" fields).
  intros a b c.
  destruct a, b, c; cbn;
    try (left; repeat split; reflexivity);
    try (split; reflexivity);
    match goal with
    | |- context [Qle_bool ?x ?y] =>
        destruct (Qle_bool x y); cbn;
          [left; repeat split; reflexivity|split; reflexivity]
    end.
Qed.

Lemma validateTiers_ok items :
  validateTiers items = Ok tt -> forall t, In t items -> tierEntryInvalid t = false.
Proof.
  induction items as [|a items IH]; simpl; [intros _ t []|].
  pose proof (validateTier_cases a) as Ha. unfold bind.
  destruct (validateTier a); [|discriminate].
  intros Hr t [<-|Hin]; [tauto|now apply IH].
Qed.

Lemma validateTier_error (t : value) s e :
  validateTier t = Throw s e -> s = 400%nat -> e = InvalidInput.
Proof.
  unfold validateTier, bind.
  destruct (getProp t "minSalesValue") as [v|s0 e0] eqn:G.
  - repeat match goal with
           | |- context [if ?c then _ else _] => destruct c
           end; congruence.
  - intros [= <- _] E. apply getProp_throws in G. congruence.
Qed.

Lemma validateTiers_throws items s e :
  validateTiers items = Throw s e ->
  (s = 400%nat /\ e = InvalidInput) \/
  (s = 200%nat /\ exists t, In t items /\ isEntry t = false).
Proof.
  induction items as [|a items IH]; simpl; [discriminate|].
  pose proof (validateTier_cases a) as Ha. unfold bind.
  destruct (validateTier a) as [[]|s' e'] eqn:V.
  - intros Hr. destruct (IH Hr) as [?|[-> (t & Ht & Hn)]]; [now left|].
    right. split; [reflexivity|]. exists t. auto.
  - intros [= <- <-]. destruct Ha as [(-> & _)|(-> & Hn)].
    + left. split; [reflexivity|]. eapply validateTier_error; eauto.
    + right. split; [reflexivity|]. exists a. auto.
Qed.

Section TierFacts.
Context `{Runtime}.

Lemma newTierData_throws role t s e : newTierData role t = Throw s e -> s = 200%nat.
Proof.
  unfold newTierData.
  destruct (field t "minSalesValue"); try congruence.
  destruct (field t "commissionPercentage"); try congruence.
  destruct (field t "maxSalesValue"); congruence.
Qed.

Lemma mapResult_throws role items s e :
  mapResult (newTierData role) items = Throw s e -> s = 200%nat.
Proof.
  induction items as [|a items IH]; simpl; [discriminate|]. unfold bind.
  destruct (newTierData role a) eqn:E.
  - destruct (mapResult _ items); [discriminate|]. intros [= <- <-]. now apply IH.
  - intros [= <- <-]. eapply newTierData_throws, E.
Qed.

Lemma replaceTiers_cases (f : Faults) current role items :
  match replaceTiers f current role items with
  | Ok (committed, created) =>
      deleteFails f = false /\ insertFails f = false /\ commitFails f = false /\
         mapResult (newTierData role) items = Ok created /\
         committed = filter (fun t => negb (Role_eqb (appliesTo t) role)) current ++ created
  | Throw s _ => s = 200%nat
  end.
Proof.
  unfold replaceTiers, deleteMany, insertMany, commitTransaction, bind.
  destruct (deleteFails f); [reflexivity|].
  destruct (mapResult (newTierData role) items) as [created|s e] eqn:M;
    [|eapply mapResult_throws, M].
  destruct (insertFails f); [reflexivity|].
  destruct (forallb tierSchemaValid created); [|reflexivity].
  destruct (commitFails f); [reflexivity|].
  auto.
Qed.

End TierFacts.

(** The two ways the bulk replacement ends. *)
Lemma saveCommissionTiersBulk_outcome `{Runtime} (f : Faults) (db : DB) (reqBody : value) :
  (exists s e,
     saveCommissionTiersBulk f db reqBody = (db, errorHandler s e) /\
     (s = 400%nat \/ s = 200%nat) /\
     (forall items,
        field reqBody "tiers" = VArray items ->
        (exists t, In t items /\ tierEntryInvalid t = true) ->
        forallb isEntry items = true ->
        s = 400%nat /\ e = InvalidInput))
  \/
  (exists role items created,
     parseRole (field reqBody "appliesTo") = Some role /\
     field reqBody "tiers" = VArray items /\
     (forall t, In t items -> tierEntryInvalid t = false) /\
     mapResult (newTierData role) items = Ok created /\
     anyFault f = false /\
     saveCommissionTiersBulk f db reqBody =
       (withTiers db
          (filter (fun t => negb (Role_eqb (appliesTo t) role)) (tiers db) ++ created),
        mkResponse 200 (TiersSaved created))).
Proof.
  unfold saveCommissionTiersBulk, bind.
  destruct (getProp reqBody "appliesTo") as [a|s e] eqn:G.
  2:{ left. exists s, e. split; [reflexivity|].
      split; [right; eapply getProp_throws, G|].
      intros items Hi. destruct reqBody; simpl in G, Hi; discriminate. }
  assert (Ha : a = field reqBody "appliesTo")
    by (destruct reqBody; try discriminate; injection G as <-; reflexivity).
  subst a.
  destruct (parseRole (field reqBody "appliesTo")) as [role|].
  2:{ left. exists 400%nat, InvalidInput. split; [reflexivity|]. split; auto. }
  destruct (field reqBody "tiers") as [| | | | |items|] eqn:T;
    try (left; exists 400%nat, InvalidInput; split; [reflexivity|]; split; auto; fail).
  destruct (validateTiers items) as [[]|s e] eqn:V.
  - pose proof (validateTiers_ok _ V) as Hok.
    assert (Hnone : forall items', VArray items = VArray items' ->
                      (exists t, In t items' /\ tierEntryInvalid t = true) ->
                      forallb isEntry items' = true ->
                      200%nat = 400%nat /\ PersistenceError = InvalidInput).
    { intros items' [= <-] (t & Ht & Hinv). rewrite (Hok t Ht) in Hinv. discriminate. }
    destruct (startFails f) eqn:S.
    + left. exists 200%nat, PersistenceError. split; [reflexivity|]. split; auto.
    + pose proof (replaceTiers_cases f (tiers db) role items) as R.
      destruct (replaceTiers f (tiers db) role items) as [[committed created]|s e].
      * right. exists role, items, created.
        destruct R as (D & I & C & M & ->).
        repeat split; auto.
        unfold anyFault. now rewrite S, D, I, C.
      * left. exists s, e. subst s. split; [reflexivity|]. split; [now right|].
        intros items' E (t & Ht & Hinv). injection E as <-.
        rewrite (Hok t Ht) in Hinv. discriminate.
  - left. exists s, e. split; [reflexivity|].
    destruct (validateTiers_throws _ _ _ V) as [[-> ->]|[-> (t & Ht & Hn)]].
    + split; auto.
    + split; [now right|]. intros items' [= <-] _ Hall.
      rewrite forallb_forall in Hall. rewrite (Hall t Ht) in Hn. discriminate.
Qed.

Lemma objects_are_entries (entries : list (list (string * value))) :
  forallb isEntry (map VObject entries) = true.
Proof. induction entries; simpl; auto. Qed.

(** C8.  The bulk replacement either answers [200] and the tiers of the
    role are exactly the new set (the tiers of the other role are kept), or
    it leaves the store as it was and answers an error.  A list of tier
    objects with an entry whose [minSalesValue], [commissionPercentage] or
    [maxSalesValue] is not a number, or whose [maxSalesValue] is not above
    its [minSalesValue], is answered [400] and leaves the store as it was
    (whatever the elements of the array are, the store is left as it was);
    so does any failure of the store at the start, the delete, the insert or
    the commit of the transaction. *)
Theorem tier_bulk_replace_all_or_nothing `{Runtime} (f : Faults) (db : DB) (reqBody : value) :
  let out := saveCommissionTiersBulk f db reqBody in
  ((fst out = db /\ (status (snd out) = 400%nat \/ status (snd out) = 500%nat)) \/
   (exists role items created,
      parseRole (field reqBody "appliesTo") = Some role /\
      field reqBody "tiers" = VArray items /\
      mapResult (newTierData role) items = Ok created /\
      anyFault f = false /\
      snd out = mkResponse 200 (TiersSaved created) /\
      fst out = withTiers db
                  (filter (fun t => negb (Role_eqb (appliesTo t) role)) (tiers db)
                   ++ created))) /\
  (forall entries : list (list (string * value)),
     field reqBody "tiers" = VArray (map VObject entries) ->
     (exists t, In t entries /\ tierEntryInvalid (VObject t) = true) ->
     fst out = db /\ snd out = mkResponse 400 (Failure InvalidInput)) /\
  (forall items,
     field reqBody "tiers" = VArray items ->
     (exists t, In t items /\ tierEntryInvalid t = true) ->
     fst out = db /\ (status (snd out) = 400%nat \/ status (snd out) = 500%nat)) /\
  (anyFault f = true ->
     fst out = db /\
     (status (snd out) = 400%nat \/ status (snd out) = 500%nat)).
Proof.
  cbv zeta.
  assert (St : forall s e, s = 400%nat \/ s = 200%nat ->
                 status (errorHandler s e) = 400%nat \/ status (errorHandler s e) = 500%nat)
    by (intros s e [-> | ->]; simpl; auto).
  destruct (saveCommissionTiersBulk_outcome f db reqBody)
    as [(s & e & -> & Hs & Hinv)|(role & items & created & Hr & Hi & Hok & Hm & Hf & ->)].
  - cbn [fst snd]. repeat apply conj.
    + left. split; [reflexivity|now apply St].
    + intros entries Hi (t & Ht & Hbad). split; [reflexivity|].
      destruct (Hinv _ Hi) as [-> ->]; [|apply objects_are_entries|reflexivity].
      exists (VObject t). split; [now apply in_map|assumption].
    + intros items Hi Hex. split; [reflexivity|now apply St].
    + intros _. split; [reflexivity|now apply St].
  - cbn [fst snd]. repeat apply conj.
    + right. exists role, items, created. repeat split; auto.
    + intros entries Hi' (t & Ht & Hbad). exfalso.
      rewrite Hi in Hi'. injection Hi' as ->.
      rewrite (Hok (VObject t)) in Hbad; [discriminate|now apply in_map].
    + intros items' Hi' (t & Ht & Hbad). exfalso.
      rewrite Hi in Hi'. injection Hi' as <-. rewrite (Hok t Ht) in Hbad. discriminate.
    + rewrite Hf. discriminate.
Qed.

(** * Further properties

    ** The tier resolver *)

(** X2.  The commission does not depend on the order of the tiers in the
    collection, nor on repeated documents, as long as two applicable tiers
    with the same [minSalesValue] carry the same percentage: two tables with
    the same tiers give the same commission. *)
Theorem commission_independent_of_order (tiers tiers' : list ICommissionTier)
    (role : Role) (saleValue : Q) :
  (forall t, In t tiers <-> In t tiers') ->
  (forall t t', In t tiers -> In t' tiers ->
     applicable role saleValue t -> applicable role saleValue t' ->
     minSalesValue t == minSalesValue t' ->
     commissionPercentage t = commissionPercentage t') ->
  calculateCommission tiers saleValue role = calculateCommission tiers' saleValue role.
Proof.
  intros Hsame Hties. unfold calculateCommission.
  pose proof (sortByMinDesc_head (filter (tierQuery role saleValue) tiers)) as H1.
  pose proof (sortByMinDesc_head (filter (tierQuery role saleValue) tiers')) as H2.
  assert (Hf : forall t, In t (filter (tierQuery role saleValue) tiers) <->
                         In t (filter (tierQuery role saleValue) tiers'))
    by (intros t; rewrite !filter_In, Hsame; tauto).
  destruct (sortByMinDesc (filter (tierQuery role saleValue) tiers)) as [|h r],
           (sortByMinDesc (filter (tierQuery role saleValue) tiers')) as [|h' r'].
  - reflexivity.
  - exfalso. destruct H2 as [Hin _]. apply Hf in Hin. rewrite H1 in Hin. exact Hin.
  - exfalso. destruct H1 as [Hin _]. apply Hf in Hin. rewrite H2 in Hin. exact Hin.
  - destruct H1 as [Hin1 Hmax1], H2 as [Hin2 Hmax2].
    assert (Hin2' := proj2 (Hf h') Hin2).
    assert (Hin1' := proj1 (Hf h) Hin1).
    assert (E : minSalesValue h == minSalesValue h')
      by (apply Qle_antisym; [apply Hmax2, Hin1'|apply Hmax1, Hin2']).
    apply filter_In in Hin1, Hin2'.
    destruct Hin1 as [I1 Q1], Hin2' as [I2 Q2].
    apply tierQuery_applicable in Q1, Q2.
    now rewrite (Hties h h' I1 I2 Q1 Q2 E).
Qed.

(** ** The backfill of pending sales *)

Lemma findByIdAndUpdate_as_map (l : list ISale) (id : ObjectId) (u : ISale -> ISale) :
  NoDup (map saleId l) ->
  findByIdAndUpdate l id u = map (fun x => if (saleId x =? id)%nat then u x else x) l.
Proof.
  induction l as [|s l IH]; simpl; intros Hn; [reflexivity|].
  inversion Hn as [|? ? Hnotin Hl]; subst.
  destruct (Nat.eqb_spec (saleId s) id) as [E|E].
  - f_equal. symmetry. erewrite map_ext_in; [apply map_id|].
    intros x Hx. simpl. destruct (Nat.eqb_spec (saleId x) id); [|reflexivity].
    exfalso. apply Hnotin. rewrite E. replace id with (saleId x) by assumption.
    now apply in_map.
  - f_equal. now apply IH.
Qed.

Lemma turnOn_id T x s : saleId (turnOn T x s) = saleId x.
Proof. unfold turnOn. destruct (_ =? _)%nat; reflexivity. Qed.

Lemma turns_id T todo : forall x, saleId (fold_left (turnOn T) todo x) = saleId x.
Proof.
  induction todo as [|s todo IH]; intros x; simpl; [reflexivity|].
  now rewrite IH, turnOn_id.
Qed.

Lemma turns_none T todo : forall x,
  (forall s, In s todo -> saleId s <> saleId x) -> fold_left (turnOn T) todo x = x.
Proof.
  induction todo as [|s todo IH]; intros x Hx; simpl; [reflexivity|].
  unfold turnOn at 2.
  destruct (Nat.eqb_spec (saleId x) (saleId s)) as [E|E].
  - exfalso. apply (Hx s (or_introl eq_refl)). now symmetry.
  - apply IH. intros s' Hs'. apply Hx. now right.
Qed.

Lemma turns_one T todo : forall x y,
  NoDup (map saleId todo) -> In x todo -> saleId y = saleId x ->
  fold_left (turnOn T) todo y
  = setCommissions (influencerAmount T x) (managerAmount T x) y.
Proof.
  induction todo as [|s todo IH]; intros x y Hn Hin Hy; simpl; [destruct Hin|].
  inversion Hn as [|? ? Hnotin Hl]; subst.
  destruct Hin as [->|Hin].
  - unfold turnOn at 2. rewrite Hy, Nat.eqb_refl.
    apply turns_none. intros s Hs E. apply Hnotin. simpl in E. rewrite <- Hy, <- E.
    now apply in_map.
  - unfold turnOn at 2.
    destruct (Nat.eqb_spec (saleId y) (saleId s)) as [E|E].
    + exfalso. apply Hnotin. rewrite <- E, Hy. now apply in_map.
    + now apply IH.
Qed.

Lemma processPendingSale_turn acc s :
  NoDup (map saleId (sales (fst acc))) ->
  let T := tiers (fst acc) in
  let a := processPendingSale acc s in
  sales (fst a) = map (fun x => turnOn T x s) (sales (fst acc)) /\
  tiers (fst a) = T /\ payments (fst a) = payments (fst acc) /\
  nextId (fst a) = nextId (fst acc) /\
  processedSales (snd a) = S (processedSales (snd acc)) /\
  totalInfluencerCommission (snd a)
    = dadd (totalInfluencerCommission (snd acc)) (influencerAmount T s) /\
  totalManagerCommission (snd a)
    = dadd (totalManagerCommission (snd acc)) (managerAmount T s).
Proof.
  intros Hn. cbv zeta. unfold processPendingSale. simpl.
  rewrite findByIdAndUpdate_as_map by assumption.
  repeat split; reflexivity.
Qed.

(** The loop of [processPendingCommissions] over any list of sales. *)
Lemma processPending_fold (todo : list ISale) : forall acc,
  NoDup (map saleId (sales (fst acc))) ->
  let r := fold_left processPendingSale todo acc in
  let T := tiers (fst acc) in
  sales (fst r) = map (fold_left (turnOn T) todo) (sales (fst acc)) /\
  tiers (fst r) = T /\ payments (fst r) = payments (fst acc) /\
  nextId (fst r) = nextId (fst acc) /\
  processedSales (snd r) = (processedSales (snd acc) + List.length todo)%nat /\
  totalInfluencerCommission (snd r)
    = fold_left (fun sum s => dadd sum (influencerAmount T s)) todo
        (totalInfluencerCommission (snd acc)) /\
  totalManagerCommission (snd r)
    = fold_left (fun sum s => dadd sum (managerAmount T s)) todo
        (totalManagerCommission (snd acc)).
Proof.
  induction todo as [|s todo IH]; intros acc Hn; cbv zeta; cbn [fold_left List.length].
  - rewrite map_id, Nat.add_0_r. repeat split; reflexivity.
  - destruct (processPendingSale_turn acc s Hn) as (Hs & Ht & Hp & Hi & Hc & Hti & Htm).
    cbv zeta in *.
    assert (Hn' : NoDup (map saleId (sales (fst (processPendingSale acc s))))).
    { rewrite Hs, map_map.
      erewrite map_ext; [exact Hn|]. intros x. apply turnOn_id. }
    destruct (IH _ Hn') as (Hs' & Ht' & Hp' & Hi' & Hc' & Hti' & Htm').
    cbv zeta in *.
    rewrite Hs', Ht', Hp', Hi', Hc', Hti', Htm', Hs, Ht, Hp, Hi, Hc, Hti, Htm, map_map.
    repeat split; auto; lia.
Qed.

Lemma backfilled_is_turns T (l : list ISale) :
  NoDup (map saleId l) ->
  map (fold_left (turnOn T) (filter isPending l)) l = map (backfilled T) l.
Proof.
  intros Hn. apply map_ext_in. intros x Hx. unfold backfilled.
  destruct (commissionCalculated x) eqn:C.
  - apply turns_none. intros s Hs E. apply filter_In in Hs. destruct Hs as [Hs Hp].
    assert (s = x) by (eapply NoDup_map_eq; eauto). subst s.
    unfold isPending in Hp. rewrite C in Hp. discriminate.
  - apply turns_one; [now apply NoDup_map_filter| |reflexivity].
    apply filter_In. split; [assumption|]. unfold isPending. now rewrite C.
Qed.




(** ** The webhook handlers: the ledger *)

Section LedgerFacts.
Context `{Runtime} `{UserDirectory}.

Lemma shopifyPrepare_attributes : PrepareAttributes shopifyPrepare shopifyCoupon.
Proof.
  intros seen now reqBody pend. unfold shopifyPrepare, shopifyCoupon, bind.
  destruct (shopifyIntake reqBody) as [o|]; [|discriminate].
  destruct (findSaleByOrderId _ _); [discriminate|].
  destruct (shopifyCouponCode _) as [[c|]|] eqn:C; try discriminate.
  destruct (FindUserByCoupon c) as [u|] eqn:U; [|discriminate].
  destruct (parseFloat _) as [|v]; [discriminate|].
  intros [= E]. rewrite <- E. exists u. do 2 eexists. exists c. do 2 eexists.
  repeat apply conj; [exists o; auto|exact U|reflexivity].
Qed.

Lemma cartPandaPrepare_attributes : PrepareAttributes cartPandaPrepare cartPandaCoupon.
Proof.
  intros seen now reqBody pend. unfold cartPandaPrepare, cartPandaCoupon, bind.
  destruct (cartPandaIntake reqBody) as [o|]; [|discriminate].
  destruct (findSaleByOrderId _ _); [discriminate|].
  destruct (cartPandaCouponCode _) as [c|] eqn:C; [|discriminate].
  destruct (negb (truthy c)); [discriminate|].
  destruct (FindUserByCoupon c) as [u|] eqn:U; [|discriminate].
  destruct (cartPandaOrderValue _) as [[|v]|]; try discriminate.
  intros [= E]. rewrite <- E. exists u. do 2 eexists. exists c. do 2 eexists.
  repeat apply conj; [exists o; auto|exact U|reflexivity].
Qed.

Lemma saleWebhookPrepare_attributes : PrepareAttributes saleWebhookPrepare saleCoupon.
Proof.
  intros seen now reqBody pend. unfold saleWebhookPrepare, saleCoupon.
  destruct (saleIntake reqBody) as [o|] eqn:I; [|discriminate]. cbn [bind].
  assert (Ec : saleCouponCode o = field reqBody "couponCode").
  { unfold saleIntake in I. destruct (getProp reqBody "orderId"); [|discriminate].
    cbn [bind] in I. destruct (_ || _); [discriminate|]. now injection I as <-. }
  destruct (findSaleByValue _ _) as [[x|]|]; try discriminate. cbn [bind].
  destruct (FindUserByCoupon _) as [u|] eqn:U; [|discriminate].
  destruct (castNumber _) as [v|]; [|discriminate].
  destruct (castString _) as [order|]; [|discriminate].
  intros [= E]. rewrite <- E. exists u. do 2 eexists. exists (saleCouponCode o).
  do 2 eexists. repeat apply conj; [exact Ec|exact U|reflexivity].
Qed.

Lemma Sale_create_row db doc db' s :
  Sale_create db doc = Ok (db', s) ->
  nextId db' = S (nextId db) /\
  orderId s <> EmptyString /\ 0 <= saleValue s /\
  influencer s = docInfluencer doc /\ manager s = docManager doc /\
  saleValue s = docSaleValue doc /\
  commissionCalculated s = true /\ processedViaWebhook s = true /\
  influencerCommissionEarned s = Some (docInfluencerCommission doc) /\
  managerCommissionEarned s = Some (docManagerCommission doc).
Proof.
  unfold Sale_create, bind.
  destruct (castCoupon (docCouponCode doc)); [|discriminate].
  destruct (docTransactionDate doc); [|discriminate].
  destruct (_ || _); [discriminate|].
  destruct (String.eqb_spec (docOrderId doc) EmptyString); [discriminate|].
  destruct (Qle_bool 0 (docSaleValue doc)) eqn:Q; [|discriminate]. simpl.
  destruct (findSaleByOrderId _ _); [discriminate|].
  intros [= <- <-]. simpl. apply Qle_bool_iff in Q. repeat split; auto.
Qed.

Lemma status_of_error s e :
  s = 400%nat \/ s = 200%nat ->
  status (errorHandler s e) = 200%nat \/ status (errorHandler s e) = 400%nat
  \/ status (errorHandler s e) = 500%nat.
Proof. intros [-> | ->]; simpl; auto. Qed.

Lemma handler_appends prepare key dom :
  PrepareSound prepare key dom ->
  AppendsAtMostOneSale
    (fun seen db now reqBody => respond db (p <- prepare seen now reqBody ;; complete db p)).
Proof.
  intros Hs seen db now reqBody. cbv zeta.
  pose proof (Hs seen now reqBody) as S.
  destruct (prepare seen now reqBody) as [[r|pend]|s e].
  - rewrite respond_answer. left. simpl. auto.
  - rewrite respond_persist.
    destruct (Sale_create db (pendingDoc pend)) as [[db' s]|s e] eqn:C.
    + right. exists s. simpl.
      destruct (Sale_create_ok _ _ _ _ C) as (Hn & Hsl & Ht & Hp & Ho & Hi).
      destruct (Sale_create_row _ _ _ _ C) as (Hnx & Hne & Hv & _).
      rewrite <- Ho in Hn. repeat split; auto.
    + left. cbn [fst snd]. repeat split.
      apply status_of_error. right. eapply Sale_create_throws, C.
  - rewrite respond_throw. left. cbn [fst snd]. repeat split. now apply status_of_error.
Qed.

Lemma ledgerOk_append db db' s :
  ledgerOk db ->
  sales db' = sales db ++ [s] -> saleId s = nextId db -> nextId db' = S (nextId db) ->
  payments db' = payments db ->
  findSaleByOrderId (sales db) (orderId s) = None ->
  ledgerOk db'.
Proof.
  intros (Ho & Hi & Hp & Hs & Hpl) Hsl Hid Hnx Hpay Hfind.
  unfold ledgerOk. rewrite Hsl, Hpay, Hnx, !map_app. simpl.
  repeat split.
  - apply NoDup_app; [assumption|repeat constructor; intros []|].
    intros o Hin [<-|[]]. apply in_map_iff in Hin. destruct Hin as (x & E & Hx).
    unfold findSaleByOrderId in Hfind.
    apply (find_none _ _ Hfind) in Hx. rewrite E, String.eqb_refl in Hx. discriminate.
  - apply NoDup_app; [assumption|repeat constructor; intros []|].
    intros i Hin [<-|[]]. apply in_map_iff in Hin. destruct Hin as (x & E & Hx).
    apply Hs in Hx. lia.
  - assumption.
  - intros x Hx. apply in_app_or in Hx. destruct Hx as [Hx|[<-|[]]]; [apply Hs in Hx|]; lia.
  - intros p Hin. apply Hpl in Hin. lia.
Qed.

Lemma appends_keeps_ledger (h : HandlerAt) : AppendsAtMostOneSale h -> KeepsLedger h.
Proof.
  intros Ha seen db now reqBody Hok.
  destruct (Ha seen db now reqBody) as [(-> & _)|(s & _ & Hsl & Hid & Hnx & _ & Hp & Hf & _)];
    [assumption|].
  eapply ledgerOk_append; eauto.
Qed.

End LedgerFacts.

(** X5.  Each webhook handler (also when its reads saw an older store than
    the one it inserts into) either leaves the store exactly as it is,
    notifies nobody and answers 200, 400 or 500, or answers 201 and appends
    one sale, with the next id, a non-empty order id that had no row and a
    value that is not negative; it never modifies or removes a row and never
    touches the tiers or the payments. *)
Theorem handlers_append_at_most_one_sale `{Runtime} `{UserDirectory} :
  AppendsAtMostOneSale processShopifyWebhookAt /\
  AppendsAtMostOneSale processCartPandaWebhookAt /\
  AppendsAtMostOneSale processSaleWebhookAt.
Proof.
  repeat apply conj.
  - apply (handler_appends shopifyPrepare _ _ shopifyPrepare_sound).
  - apply (handler_appends cartPandaPrepare _ _ cartPandaPrepare_sound).
  - apply (handler_appends saleWebhookPrepare _ _ saleWebhookPrepare_sound).
Qed.

(** X6.  The webhook handlers keep the ledger invariant: order ids stay
    unique, the ids of sales and payments stay distinct and below the next
    id, whatever store the reads of the handler saw. *)
Theorem handlers_keep_ledger `{Runtime} `{UserDirectory} :
  KeepsLedger processShopifyWebhookAt /\
  KeepsLedger processCartPandaWebhookAt /\
  KeepsLedger processSaleWebhookAt.
Proof.
  repeat apply conj; apply appends_keeps_ledger.
  - apply (handler_appends shopifyPrepare _ _ shopifyPrepare_sound).
  - apply (handler_appends cartPandaPrepare _ _ cartPandaPrepare_sound).
  - apply (handler_appends saleWebhookPrepare _ _ saleWebhookPrepare_sound).
Qed.

Section RegistrationFacts.
Context `{Runtime} `{UserDirectory}.

Lemma present_Some o s : present o = Some s -> o = Some s /\ s <> EmptyString.
Proof.
  unfold present. destruct o as [x|]; [|discriminate].
  destruct (String.eqb_spec x EmptyString); [discriminate|].
  intros [= <-]. auto.
Qed.

Lemma newSaleNotification_In u canRender n :
  In n (newSaleNotification u canRender) ->
  newSaleNotification u canRender = [n] /\
  recipient n <> EmptyString /\ credential n <> EmptyString /\
  exists m mgr,
    userManager u = Some m /\ FindUserById m = Some mgr /\
    whatsappNumber u = Some (recipient n) /\ tokenWhats mgr = Some (credential n).
Proof.
  unfold newSaleNotification.
  destruct (present (whatsappNumber u)) as [number|] eqn:W; [|intros []].
  destruct (userManager u) as [m|]; [|intros []].
  destruct (FindUserById m) as [mgr|] eqn:M; [|intros []].
  destruct (present (tokenWhats mgr)) as [token|] eqn:T; [|intros []].
  destruct canRender; [|intros []].
  intros [<-|[]]. simpl.
  apply present_Some in W, T. destruct W, T.
  repeat split; auto. exists m, mgr. auto.
Qed.

Lemma handler_notifies prepare key dom coupon :
  PrepareSound prepare key dom -> PrepareAttributes prepare coupon ->
  NotifiesThroughManager
    (fun seen db now reqBody => respond db (p <- prepare seen now reqBody ;; complete db p))
    coupon.
Proof.
  intros Hs Ha seen db now reqBody n. cbv zeta.
  pose proof (Ha seen now reqBody) as A.
  destruct (prepare seen now reqBody) as [[r|pend]|s e].
  - rewrite respond_answer. intros [].
  - rewrite respond_persist.
    destruct (Sale_create db (pendingDoc pend)) as [[db' s]|s e] eqn:C; [|intros []].
    cbn [fst snd]. intros Hin.
    destruct (A pend eq_refl) as (u & order & v & c & date & cr & Hc & Hu & E).
    unfold attribute in E. injection E as ->. cbn [pendingInfluencer pendingCanRender] in *.
    destruct (newSaleNotification_In _ _ _ Hin) as (En & Hr & Hcr & m & mgr & Hm).
    destruct (Sale_create_ok _ _ _ _ C) as (_ & Hsl & _).
    destruct (Sale_create_row _ _ _ _ C) as (_ & _ & _ & Hi & _).
    cbn [pendingDoc docInfluencer] in Hi.
    repeat split; auto.
    exists c, u, m, mgr, s. destruct Hm as (M1 & M2 & M3 & M4).
    repeat apply conj; auto.
  - rewrite respond_throw. intros [].
Qed.

Lemma handler_registers prepare key dom coupon :
  PrepareSound prepare key dom -> PrepareAttributes prepare coupon ->
  RegistersWhatBackfillWould (handlerOf prepare) coupon.
Proof.
  intros Hs Ha db now reqBody db' answer notes. unfold handlerOf.
  pose proof (Hs db now reqBody) as S. pose proof (Ha db now reqBody) as A.
  destruct (prepare db now reqBody) as [[r|pend]|s e].
  - rewrite respond_answer. intros [= _ E _]. rewrite E in S. discriminate.
  - rewrite respond_persist.
    destruct (Sale_create db (pendingDoc pend)) as [[db1 s]|s e] eqn:C.
    + intros [= <- <- _].
      destruct (A pend eq_refl) as (u & order & v & c & date & cr & Hc & Hu & E).
      unfold attribute in E. injection E as ->. simpl in C |- *.
      destruct (Sale_create_ok _ _ _ _ C) as (_ & Hsl & _).
      destruct (Sale_create_row _ _ _ _ C)
        as (_ & _ & _ & Hi & Hm & Hv & Hcal & Hw & Hic & Hmc).
      simpl in Hi, Hm, Hv, Hic, Hmc.
      assert (Em : manager s = managerOf u).
      { rewrite Hm. unfold managerOf. destruct (userManager u); reflexivity. }
      assert (Eic : influencerAmount (tiers db) s
                    = calculateCommission (tiers db) v INFLUENCER).
      { unfold influencerAmount. now rewrite Hv. }
      assert (Emc : managerAmount (tiers db) s
                    = match match userManager u with
                            | Some m => FindUserById m
                            | None => None
                            end with
                      | Some _ => calculateCommission (tiers db) v MANAGER
                      | None => DFin 0
                      end).
      { unfold managerAmount. rewrite Hm, Hv.
        destruct (match userManager u with Some m => FindUserById m | None => None end);
          reflexivity. }
      exists s, c, u. rewrite Eic, Emc, <- Em.
      repeat apply conj; auto.
      rewrite Em. unfold managerOf. destruct (userManager u); reflexivity.
    + intros [= _ E _]. exfalso. revert E. apply (errorHandler_not_201 s e).
      rewrite (Sale_create_throws _ _ _ _ C). discriminate.
  - rewrite respond_throw. intros [= _ E _]. exfalso. revert E.
    apply (errorHandler_not_201 s e). destruct S as [-> | ->]; discriminate.
Qed.

End RegistrationFacts.

(** X7.  The sale a handler registers with 201 belongs to the user that
    [User.findOne] returns for the coupon of the body: that user is its
    influencer, and its manager is the manager this user has in the
    directory at that moment, when that manager exists (none otherwise).
    The sale is stored as calculated and as coming from a webhook, with the
    two amounts the backfill would compute for it from the same tiers (0 for
    the manager when the sale has none), and the 201 answer reports these
    ids and amounts. *)
Theorem handlers_register_what_backfill_would `{Runtime} `{UserDirectory} :
  RegistersWhatBackfillWould processShopifyWebhook shopifyCoupon /\
  RegistersWhatBackfillWould processCartPandaWebhook cartPandaCoupon /\
  RegistersWhatBackfillWould processSaleWebhook saleCoupon.
Proof.
  repeat apply conj.
  - apply (handler_registers shopifyPrepare _ _ _ shopifyPrepare_sound),
      shopifyPrepare_attributes.
  - apply (handler_registers cartPandaPrepare _ _ _ cartPandaPrepare_sound),
      cartPandaPrepare_attributes.
  - apply (handler_registers saleWebhookPrepare _ _ _ saleWebhookPrepare_sound),
      saleWebhookPrepare_attributes.
Qed.

(** X8.  A handler notifies at most one recipient, and only together with a
    201 answer: the recipient is the non-empty WhatsApp number of the user
    that [User.findOne] returns for the coupon of the body, who is the
    influencer of the sale that was appended, and the credential is the
    non-empty token of the manager of that user; without a number, a
    manager or a token nothing is sent. *)
Theorem handlers_notify_through_manager `{Runtime} `{UserDirectory} :
  NotifiesThroughManager processShopifyWebhookAt shopifyCoupon /\
  NotifiesThroughManager processCartPandaWebhookAt cartPandaCoupon /\
  NotifiesThroughManager processSaleWebhookAt saleCoupon.
Proof.
  repeat apply conj.
  - apply (handler_notifies shopifyPrepare _ _ _ shopifyPrepare_sound),
      shopifyPrepare_attributes.
  - apply (handler_notifies cartPandaPrepare _ _ _ cartPandaPrepare_sound),
      cartPandaPrepare_attributes.
  - apply (handler_notifies saleWebhookPrepare _ _ _ saleWebhookPrepare_sound),
      saleWebhookPrepare_attributes.
Qed.

(** ** The webhook handlers: shapes of the payload *)

Lemma trimStart_spaces s : allChars isSpace s = true -> trimStart s = EmptyString.
Proof.
  induction s as [|c r IH]; simpl; [reflexivity|].
  intros Hs. apply andb_true_iff in Hs. destruct Hs as [Hc Hr]. rewrite Hc. now apply IH.
Qed.

Lemma filterString_all f s : allChars f (filterString f s) = true.
Proof.
  induction s as [|c r IH]; simpl; [reflexivity|].
  destruct (f c) eqn:E; simpl; [now rewrite E|assumption].
Qed.

Lemma filterString_id f s : allChars f s = true -> filterString f s = s.
Proof.
  induction s as [|c r IH]; simpl; [reflexivity|].
  intros Hs. apply andb_true_iff in Hs. destruct Hs as [Hc Hr]. rewrite Hc. now rewrite IH.
Qed.

Lemma filterString_app f s1 s2 :
  filterString f (s1 ++ s2) = (filterString f s1 ++ filterString f s2)%string.
Proof.
  induction s1 as [|c r IH]; simpl; [reflexivity|].
  destruct (f c); simpl; now rewrite IH.
Qed.

(** X9.  The coupon that [processShopifyWebhook] reads from
    [discount_codes], shape by shape: nothing from a falsy value or an empty
    array; the [code] of the first element of an array, whatever follows,
    and a [TypeError] when that element is [null]; [undefined] (not the
    string) from a non-empty string; a [TypeError] from a number, from
    [true] and from an object without a property [0]. *)
Theorem shopify_coupon_by_shape :
  (forall d, truthy d = false -> shopifyCouponCode d = Ok None) /\
  shopifyCouponCode (VArray []) = Ok None /\
  (forall fields rest,
     shopifyCouponCode (VArray (VObject fields :: rest)) = Ok (Some (assoc "code" fields))) /\
  (forall rest, shopifyCouponCode (VArray (VNull :: rest)) = Throw 200 TypeError) /\
  (forall s, s <> EmptyString -> shopifyCouponCode (VString s) = Ok (Some VUndefined)) /\
  (forall q, ~ q == 0 -> shopifyCouponCode (VNumber q) = Throw 200 TypeError) /\
  shopifyCouponCode (VBool true) = Throw 200 TypeError /\
  (forall fields,
     isZero (assoc "length" fields) = false -> assoc "0" fields = VUndefined ->
     shopifyCouponCode (VObject fields) = Throw 200 TypeError).
Proof.
  repeat apply conj; try reflexivity.
  - intros d Hd. unfold shopifyCouponCode. now rewrite Hd.
  - intros s Hs. destruct s as [|c r]; [contradiction|]. reflexivity.
  - intros q Hq. unfold shopifyCouponCode. simpl.
    destruct (Qeq_bool q 0) eqn:E; [apply Qeq_bool_iff in E; contradiction|reflexivity].
  - intros fields Hl H0. unfold shopifyCouponCode. simpl. rewrite Hl, H0. reflexivity.
Qed.

Section EdgeFacts.
Context `{Runtime} `{UserDirectory}.

(** X10.  An order that passes the intake and is not yet recorded, whose
    [discount_codes] is an array with [null] as first element, is answered
    500 by both platform handlers ([typeof null] is ['object'], and reading
    [code] of it throws); nothing is stored. *)
Theorem null_coupon_entry_is_a_server_error (db : DB) (now : Z) (reqBody : value) :
  (forall o rest,
     shopifyIntake reqBody = Ok o ->
     findSaleByOrderId (sales db) (toString (shopifyFinalOrderId o)) = None ->
     shopifyDiscountCodes o = VArray (VNull :: rest) ->
     processShopifyWebhook db now reqBody = (db, mkResponse 500 (Failure TypeError), [])) /\
  (forall o rest,
     cartPandaIntake reqBody = Ok o ->
     findSaleByOrderId (sales db) (toString (cartPandaFinalOrderId o)) = None ->
     cartPandaDiscountCodes o = VArray (VNull :: rest) ->
     processCartPandaWebhook db now reqBody = (db, mkResponse 500 (Failure TypeError), [])).
Proof.
  split; intros o rest Hi Hf Hd.
  - unfold processShopifyWebhook, processShopifyWebhookAt, shopifyPrepare.
    rewrite Hi. simpl bind. rewrite Hf, Hd. reflexivity.
  - unfold processCartPandaWebhook, processCartPandaWebhookAt, cartPandaPrepare.
    rewrite Hi. simpl bind. rewrite Hf, Hd. reflexivity.
Qed.

(** X11.  A CartPanda order that passes the intake and is not yet recorded,
    whose [discount_codes] is a string of white space only, is answered 200
    as an order without coupon: the string is trimmed before it is tested. *)
Theorem blank_coupon_is_no_coupon (db : DB) (now : Z) (reqBody : value)
    (o : CartPandaOrder) (s : string) :
  cartPandaIntake reqBody = Ok o ->
  findSaleByOrderId (sales db) (toString (cartPandaFinalOrderId o)) = None ->
  cartPandaDiscountCodes o = VString s ->
  allChars isSpace s = true ->
  processCartPandaWebhook db now reqBody = (db, mkResponse 200 NoCoupon, []).
Proof.
  intros Hi Hf Hd Hs.
  unfold processCartPandaWebhook, processCartPandaWebhookAt, cartPandaPrepare.
  rewrite Hi. simpl bind. rewrite Hf, Hd.
  unfold cartPandaCouponCode.
  destruct (truthy (VString s)); [|reflexivity].
  unfold trim. rewrite (trimStart_spaces s Hs). reflexivity.
Qed.

(** X12.  The stripping of the CartPanda total keeps exactly the digits,
    [.] and [-], in their order: it is idempotent, distributes over
    concatenation and is the identity on a string of such characters.  On
    such a string the value CartPanda uses is the [parseFloat] of the string,
    the value the Shopify handler computes for the same total. *)
Theorem stripping_keeps_numeric_characters (s s' : string) :
  allChars isNumericChar (stripNonNumeric s) = true /\
  stripNonNumeric (stripNonNumeric s) = stripNonNumeric s /\
  stripNonNumeric (s ++ s') = (stripNonNumeric s ++ stripNonNumeric s')%string /\
  (allChars isNumericChar s = true ->
   stripNonNumeric s = s /\
   cartPandaTotal (VString s) = ofNum (parseFloat (VString s)) /\
   forall q, parseFloat (VString s) = Num q ->
             cartPandaOrderValue (cartPandaTotal (VString s)) = Ok (Num q)).
Proof.
  unfold stripNonNumeric. repeat apply conj.
  - apply filterString_all.
  - apply filterString_id, filterString_all.
  - apply filterString_app.
  - intros Hs. pose proof (filterString_id _ _ Hs) as E. repeat apply conj.
    + exact E.
    + simpl. unfold stripNonNumeric. now rewrite E.
    + intros q Hq. simpl in *. unfold stripNonNumeric. rewrite E, Hq. reflexivity.
Qed.

End EdgeFacts.

(** ** The payment generator *)

Lemma backfill_sales (db : DB) :
  NoDup (map saleId (sales db)) ->
  sales (fst (processPendingCommissions db)) = map (backfilled (tiers db)) (sales db).
Proof.
  intros Hn. unfold processPendingCommissions.
  change (filter (fun s => negb (commissionCalculated s)) (sales db))
    with (filter isPending (sales db)).
  destruct (processPending_fold (filter isPending (sales db))
              (db, mkPendingSummary 0 (DFin 0) (DFin 0)) Hn) as (Hs & _).
  cbv zeta in Hs. simpl in Hs. now rewrite Hs, backfilled_is_turns.
Qed.

Lemma backfilled_orderId T s : orderId (backfilled T s) = orderId s.
Proof. unfold backfilled. destruct (commissionCalculated s); reflexivity. Qed.

Lemma ledgerOk_backfill (db : DB) :
  ledgerOk db -> ledgerOk (fst (processPendingCommissions db)).
Proof.
  intros (Ho & Hi & Hp & Hs & Hq).
  destruct (processPendingCommissions_keeps db) as (Ei & _ & Ep & En & _).
  pose proof (backfill_sales db Hi) as Es.
  unfold ledgerOk. rewrite Ei, Ep, En. repeat apply conj; try assumption.
  - rewrite Es, map_map.
    rewrite (map_ext _ orderId (backfilled_orderId (tiers db))). exact Ho.
  - intros s Hin. apply (in_map saleId) in Hin. rewrite Ei in Hin.
    apply in_map_iff in Hin. destruct Hin as (s0 & E & Hin). rewrite <- E. now apply Hs.
Qed.

Lemma ledgerOk_payment db u role ids total commission ps pe now db' p :
  CommissionPayment_create db u role ids total commission ps pe now = Ok (db', p) ->
  ledgerOk db -> ledgerOk db'.
Proof.
  unfold CommissionPayment_create.
  destruct (dnonnegb total && dnonnegb commission); [|discriminate].
  intros [= <- <-] (Ho & Hi & Hp & Hs & Hq).
  unfold ledgerOk. cbn [sales payments nextId]. repeat apply conj; try assumption.
  - rewrite map_app. cbn [map paymentId].
    apply NoDup_app; [exact Hp|repeat constructor; intros []|].
    intros x Hx [<-|[]]. apply in_map_iff in Hx. destruct Hx as (q & E & Hin).
    apply Hq in Hin. lia.
  - intros s Hin. apply Hs in Hin. lia.
  - intros q Hin. apply in_app_iff in Hin. destruct Hin as [Hin|[<-|[]]].
    + apply Hq in Hin. lia.
    + cbn [paymentId]. lia.
Qed.

Section GeneratorStore.
Context `{UserDirectory}.

Lemma createPayments_ledger role ps pe now : forall groups st st' err,
  createPayments role ps pe now groups st = (st', err) ->
  ledgerOk (genDB st) -> ledgerOk (genDB st').
Proof.
  induction groups as [|[id g] rest IH]; intros st st' err; cbn [createPayments].
  - intros [= <- _]. auto.
  - destruct (FindUserById id); [|apply IH].
    destruct (CommissionPayment_create _ _ _ _ _ _ _ _ _) as [[db' p]|s e] eqn:C.
    + intros Hc Hl. apply (IH _ _ _ Hc). cbn [genDB].
      exact (ledgerOk_payment _ _ _ _ _ _ _ _ _ _ _ C Hl).
    + intros [= <- _]. auto.
Qed.

Lemma createPayments_notes role ps pe now : forall groups st st' err,
  createPayments role ps pe now groups st = (st', err) ->
  forall n, In n (genNotifications st') ->
    In n (genNotifications st) \/
    (recipient n <> EmptyString /\ credential n <> EmptyString).
Proof.
  induction groups as [|[id g] rest IH]; intros st st' err; cbn [createPayments].
  - intros [= <- _]. auto.
  - destruct (FindUserById id) as [u|]; [|apply IH].
    destruct (CommissionPayment_create _ _ _ _ _ _ _ _ _) as [[db' p]|s e].
    + intros Hc n Hin. destruct (IH _ _ _ Hc n Hin) as [Hn|Hn]; [|now right].
      cbn [genNotifications] in Hn. apply in_app_iff in Hn.
      destruct Hn as [Hn|Hn]; [now left|]. right.
      destruct role; [|destruct Hn].
      unfold reportNotification in Hn.
      destruct (present (whatsappNumber u)) as [number|] eqn:W; [|destruct Hn].
      destruct (userManager u) as [m|]; [|destruct Hn].
      destruct (FindUserById m) as [mgr|]; [|destruct Hn].
      destruct (present (tokenWhats mgr)) as [token|] eqn:T; [|destruct Hn].
      destruct Hn as [<-|[]]. cbn [recipient credential].
      apply present_Some in W, T. split; [apply W|apply T].
    + intros [= <- _]. auto.
Qed.

Lemma generator_store (db : DB) (now ps pe : Z) :
  let out := generateCommissionPayments db now ps pe in
  let db1 := fst (salesForPeriod db ps pe) in
  payments (genDB (fst out)) = payments db ++ genCreated (fst out) /\
  sales (genDB (fst out)) = sales db1 /\ tiers (genDB (fst out)) = tiers db1 /\
  (ledgerOk db1 -> ledgerOk (genDB (fst out))) /\
  (forall n, In n (genNotifications (fst out)) ->
     recipient n <> EmptyString /\ credential n <> EmptyString).
Proof.
  cbv zeta. unfold generateCommissionPayments.
  pose proof (salesForPeriod_keeps db ps pe) as K. cbv zeta in K.
  destruct (salesForPeriod db ps pe) as [db1 found]. cbn [fst snd] in *.
  destruct K as (_ & Kp & _).
  destruct (groupSales found) as [im mm].
  destruct (createPayments INFLUENCER ps pe now im (mkGeneration db1 [] []))
    as [st1 e1] eqn:C1.
  destruct (createPayments_spec _ _ _ _ _ _ _ _ C1)
    as (d1 & _ & G1 & P1 & S1 & T1 & _).
  pose proof (createPayments_ledger _ _ _ _ _ _ _ _ C1) as L1.
  pose proof (createPayments_notes _ _ _ _ _ _ _ _ C1) as N1.
  cbn [genDB genCreated genNotifications app] in *.
  destruct e1 as [e|].
  - cbn [fst snd]. rewrite P1, G1, Kp. repeat apply conj; auto.
    intros n Hin. destruct (N1 n Hin) as [[]|Hn]. exact Hn.
  - destruct (createPayments MANAGER ps pe now mm
                (mkGeneration (genDB st1) (genNotifications st1) [])) as [st2 e2] eqn:C2.
    destruct (createPayments_spec _ _ _ _ _ _ _ _ C2)
      as (d2 & _ & G2 & P2 & S2 & T2 & _).
    pose proof (createPayments_ledger _ _ _ _ _ _ _ _ C2) as L2.
    pose proof (createPayments_notes _ _ _ _ _ _ _ _ C2) as N2.
    cbn [genDB genCreated genNotifications app fst snd] in *.
    rewrite P2, P1, G1, G2, Kp, S2, S1, T2, T1, app_assoc.
    repeat apply conj; auto.
    intros n Hin. destruct (N2 n Hin) as [Hn|Hn]; [|exact Hn].
    destruct (N1 n Hn) as [[]|Hn']. exact Hn'.
Qed.

End GeneratorStore.

(** X13.  A call of the generator only appends to the payments: the stored
    payments afterwards are the earlier ones followed by the payments the
    call created, also when a [create] throws halfway (what was created
    before stays).  The tiers are not touched, the sales are those of the
    store or of its backfill, and the ledger invariant is kept.  Every report
    it sends has a non-empty recipient and a non-empty token. *)
Theorem generator_only_appends_payments `{UserDirectory} (db : DB) (now ps pe : Z) :
  let out := generateCommissionPayments db now ps pe in
  let db' := genDB (fst out) in
  payments db' = payments db ++ genCreated (fst out) /\
  tiers db' = tiers db /\
  (sales db' = sales db \/ sales db' = sales (fst (processPendingCommissions db))) /\
  map saleId (sales db') = map saleId (sales db) /\
  (ledgerOk db -> ledgerOk db') /\
  (forall n, In n (genNotifications (fst out)) ->
     recipient n <> EmptyString /\ credential n <> EmptyString).
Proof.
  cbv zeta.
  destruct (generator_store db now ps pe) as (Hp & Hs & Ht & Hl & Hn).
  pose proof (salesForPeriod_keeps db ps pe) as K. cbv zeta in K.
  destruct K as (Ki & _).
  rewrite Hs, Ht. repeat apply conj; auto.
  - unfold salesForPeriod. cbn [fst].
    destruct (0 <? _)%nat; [|reflexivity].
    now destruct (processPendingCommissions_keeps db) as (_ & E & _).
  - unfold salesForPeriod. cbn [fst]. destruct (0 <? _)%nat; auto.
  - intros L. apply Hl. unfold salesForPeriod. cbn [fst].
    destruct (0 <? _)%nat; [now apply ledgerOk_backfill|exact L].
Qed.

Lemma inPeriod_reversed (ps pe : Z) (s : ISale) : (pe < ps)%Z -> inPeriod ps pe s = false.
Proof. unfold inPeriod. intros Hlt. apply andb_false_iff. lia. Qed.

(** X14.  When no sale of the store has its date in the period (as for
    every period that ends before it starts) the generator changes nothing,
    creates and sends nothing and reports zeros: pending sales outside the
    period are not backfilled. *)
Theorem generator_on_empty_period `{UserDirectory} (db : DB) (now ps pe : Z) :
  (forall s, In s (sales db) -> inPeriod ps pe s = false) ->
  generateCommissionPayments db now ps pe
    = (mkGeneration db [] [], Ok (mkPaymentsSummary 0 0 0 (DFin 0))).
Proof.
  intros Hout. unfold generateCommissionPayments, salesForPeriod.
  rewrite (filter_none (fun s => inPeriod ps pe s && negb (commissionCalculated s)))
    by (intros s Hin; now rewrite (Hout s Hin)).
  cbn [List.length Nat.ltb Nat.leb].
  rewrite filter_none by (intros s Hin; now rewrite (Hout s Hin)).
  reflexivity.
Qed.

(** ** The payment request *)

(** X16.  [createCommissionPayments] answers 201, 400 or 500.  It answers
    201 exactly when both dates are given and valid and the period does not
    end before it starts (equal dates are accepted) and the generator
    returns; the answer then carries the generator's summary.  With 400 the
    store is as it was.  Whatever the answer, the payments are the earlier
    ones followed by those the call created, so a 500 from a failing
    generator keeps what it had created. *)
Theorem payment_request_outcome `{Runtime} `{UserDirectory}
    (db : DB) (now : Z) (reqBody : value) :
  let out := createCommissionPayments db now reqBody in
  let gen := fst out in
  let answer := snd out in
  (paymentsStatus answer = 201%nat \/ paymentsStatus answer = 400%nat \/
   paymentsStatus answer = 500%nat) /\
  payments (genDB gen) = payments db ++ genCreated gen /\
  tiers (genDB gen) = tiers db /\
  (paymentsStatus answer = 400%nat -> gen = mkGeneration db [] []) /\
  (paymentsStatus answer = 201%nat <->
   exists periodStart periodEnd summary,
     truthy (field reqBody "startDate") = true /\
     truthy (field reqBody "endDate") = true /\
     newDate (field reqBody "startDate") = Some periodStart /\
     newDate (field reqBody "endDate") = Some periodEnd /\
     (periodStart <= periodEnd)%Z /\
     generateCommissionPayments db now periodStart periodEnd = (gen, Ok summary) /\
     paymentsBody answer = inr summary) /\
  (paymentsStatus answer = 500%nat ->
   (gen = mkGeneration db [] [] /\ paymentsBody answer = inl RequestTypeError) \/
   exists periodStart periodEnd s e,
     generateCommissionPayments db now periodStart periodEnd = (gen, Throw s e) /\
     paymentsBody answer = inl (GenerationFailed e)).
Proof.
  cbv zeta. unfold createCommissionPayments.
  assert (Same : payments (genDB (mkGeneration db [] []))
                 = payments db ++ genCreated (mkGeneration db [] [])
                 /\ tiers (genDB (mkGeneration db [] [])) = tiers db)
    by (cbn [genDB genCreated]; now rewrite app_nil_r).
  destruct Same as [SameP SameT].
  assert (Refused : forall c e,
            c <> 201%nat ->
            let out := (mkGeneration db [] [], mkPaymentsAnswer c (inl e)) in
            payments (genDB (fst out)) = payments db ++ genCreated (fst out) /\
            tiers (genDB (fst out)) = tiers db /\
            (paymentsStatus (snd out) = 400%nat -> fst out = mkGeneration db [] []) /\
            (paymentsStatus (snd out) = 201%nat <->
             exists periodStart periodEnd summary,
               truthy (field reqBody "startDate") = true /\
               truthy (field reqBody "endDate") = true /\
               newDate (field reqBody "startDate") = Some periodStart /\
               newDate (field reqBody "endDate") = Some periodEnd /\
               (periodStart <= periodEnd)%Z /\
               generateCommissionPayments db now periodStart periodEnd = (fst out, Ok summary) /\
               paymentsBody (snd out) = inr summary)).
  { intros c e Hc. cbv zeta. cbn [fst snd paymentsStatus paymentsBody].
    repeat apply conj; auto.
    - intros E. contradiction.
    - intros (? & ? & ? & _ & _ & _ & _ & _ & _ & ?). discriminate. }
  destruct (getProp reqBody "startDate") as [startDate|s e] eqn:G.
  2:{ destruct (Refused 500%nat RequestTypeError) as (R1 & R2 & R3 & R4); [discriminate|].
      cbv zeta in *. cbn [fst snd paymentsStatus paymentsBody] in *.
      repeat split; auto; try apply R4. }
  assert (Es : startDate = field reqBody "startDate").
  { destruct reqBody; cbn [getProp] in G; try discriminate; now injection G as <-. }
  subst startDate.
  destruct (truthy (field reqBody "startDate")) eqn:Ts;
    [destruct (truthy (field reqBody "endDate")) eqn:Te|]; cbn [negb orb].
  2,3: destruct (Refused 400%nat MissingDates) as (R1 & R2 & R3 & R4); [discriminate|];
       cbv zeta in *; cbn [fst snd paymentsStatus paymentsBody] in *;
       repeat split; auto; try apply R4; discriminate.
  destruct (newDate (field reqBody "startDate")) as [ps|] eqn:Ds;
    [destruct (newDate (field reqBody "endDate")) as [pe|] eqn:De|].
  2,3: destruct (Refused 400%nat InvalidDates) as (R1 & R2 & R3 & R4); [discriminate|];
       cbv zeta in *; cbn [fst snd paymentsStatus paymentsBody] in *;
       repeat split; auto; try apply R4; discriminate.
  destruct (pe <? ps)%Z eqn:Lt.
  { destruct (Refused 400%nat EndBeforeStart) as (R1 & R2 & R3 & R4); [discriminate|].
    cbv zeta in *. cbn [fst snd paymentsStatus paymentsBody] in *.
    repeat split; auto; try apply R4; discriminate. }
  apply Z.ltb_ge in Lt.
  destruct (generator_store db now ps pe) as (Hp & _ & Ht & _).
  assert (Ht' : tiers (genDB (fst (generateCommissionPayments db now ps pe))) = tiers db).
  { rewrite Ht. unfold salesForPeriod. cbn [fst]. destruct (0 <? _)%nat; [|reflexivity].
    now destruct (processPendingCommissions_keeps db) as (_ & E & _). }
  destruct (generateCommissionPayments db now ps pe) as [gen [summary|s e]] eqn:Gen;
    cbn [fst snd paymentsStatus paymentsBody] in *.
  - repeat apply conj; auto; try discriminate.
    intros _. exists ps, pe, summary. repeat apply conj; auto.
  - repeat apply conj; auto; try discriminate.
    + intros (? & ? & ? & _ & _ & _ & _ & _ & _ & ?). discriminate.
    + intros _. right. exists ps, pe, s, e. auto.
Qed.

(** ** The webhook token *)

Lemma verifyWebhookToken_cases (configuredToken headerToken : option string)
    (queryToken reqBody : value) :
  let r := verifyWebhookToken configuredToken headerToken queryToken reqBody in
  (r = Ok CallNext <->
   exists t, present configuredToken = Some t /\
     (present headerToken = Some t \/
      (present headerToken = None /\ queryToken = VString t) \/
      (present headerToken = None /\ truthy queryToken = false /\
       getProp reqBody "token" = Ok (VString t)))) /\
  (present configuredToken = None -> r <> Ok CallNext) /\
  (r = Throw 200 TypeError <->
   present headerToken = None /\ truthy queryToken = false /\
   (reqBody = VUndefined \/ reqBody = VNull)) /\
  (r = Ok CallNext \/ r = Ok (Refuse 401) \/ r = Ok (Refuse 500) \/ r = Throw 200 TypeError).
Proof.
  cbv zeta.
  assert (Pass : forall token,
            (match present configuredToken with
             | None => Ok (Refuse 500)
             | Some configured =>
                 if negb (truthy token) then Ok (Refuse 401)
                 else if isString token configured then Ok CallNext else Ok (Refuse 401)
             end = Ok CallNext
             <-> exists t, present configuredToken = Some t /\ token = VString t)
            /\ (match present configuredToken with
                | None => Ok (Refuse 500)
                | Some configured =>
                    if negb (truthy token) then Ok (Refuse 401)
                    else if isString token configured then Ok CallNext else Ok (Refuse 401)
                end <> Throw 200 TypeError)
            /\ (let r := match present configuredToken with
                         | None => Ok (Refuse 500)
                         | Some configured =>
                             if negb (truthy token) then Ok (Refuse 401)
                             else if isString token configured then Ok CallNext
                             else Ok (Refuse 401)
                         end in
                r = Ok CallNext \/ r = Ok (Refuse 401) \/ r = Ok (Refuse 500))).
  { intros token. destruct (present configuredToken) as [c|] eqn:C.
    - apply present_Some in C. destruct C as [_ Hc].
      split; [|split].
      + split.
        * destruct (truthy token); cbn [negb]; [|discriminate].
          destruct token; cbn [isString]; try discriminate.
          destruct (String.eqb_spec s c); [|discriminate]. subst. intros _. now exists c.
        * intros (t & [= <-] & ->). cbn [truthy isString].
          rewrite String.eqb_refl.
          destruct (String.eqb_spec c EmptyString); [contradiction|reflexivity].
      + destruct (negb (truthy token)); [discriminate|].
        destruct (isString token c); discriminate.
      + cbv zeta. destruct (negb (truthy token)); [auto|].
        destruct (isString token c); auto.
    - split; [|split].
      + split; [discriminate|]. intros (t & Ht & _). discriminate.
      + discriminate.
      + cbv zeta. auto. }
  unfold verifyWebhookToken.
  destruct (present headerToken) as [h|] eqn:Hh.
  { cbn [bind]. destruct (Pass (VString h)) as (P1 & P2 & P3). split; [|split; [|split]].
    - split; intros E; [apply P1 in E|apply P1].
      + destruct E as (t & Ht & [= ->]). exists t. auto.
      + destruct E as (t & Ht & [[= ->]|[[? _]|[? _]]]); try discriminate. now exists t.
    - intros Hn. rewrite Hn. discriminate.
    - split; [intros E; now apply P2 in E|]. intros [? _]. discriminate.
    - cbv zeta in P3. tauto. }
  destruct (truthy queryToken) eqn:Tq.
  { cbn [bind]. destruct (Pass queryToken) as (P1 & P2 & P3). split; [|split; [|split]].
    - split; intros E; [apply P1 in E|apply P1].
      + destruct E as (t & Ht & ->). exists t. auto.
      + destruct E as (t & Ht & [?|[[_ ->]|(_ & ? & _)]]); try discriminate. now exists t.
    - intros Hn. rewrite Hn. discriminate.
    - split; [intros E; now apply P2 in E|]. intros (_ & ? & _). discriminate.
    - cbv zeta in P3. tauto. }
  destruct (getProp reqBody "token") as [token|s e] eqn:G.
  { cbn [bind]. destruct (Pass token) as (P1 & P2 & P3). split; [|split; [|split]].
    - split; intros E; [apply P1 in E|apply P1].
      + destruct E as (t & Ht & ->). exists t. split; [exact Ht|]. right. right. auto.
      + destruct E as (t & Ht & [E|[[_ E]|(_ & _ & E)]]).
        * discriminate.
        * subst. apply present_Some in Ht. destruct Ht as [_ Hne]. cbn [truthy] in Tq.
          destruct (String.eqb_spec t EmptyString); [contradiction|discriminate].
        * injection E as ->. now exists t.
    - intros Hn. rewrite Hn. discriminate.
    - split; [intros E; now apply P2 in E|].
      intros (_ & _ & [->| ->]); discriminate.
    - cbv zeta in P3. tauto. }
  assert (Hb : s = 200%nat /\ e = TypeError /\ (reqBody = VUndefined \/ reqBody = VNull)).
  { destruct reqBody; cbn [getProp] in G; try discriminate; injection G as <- <-; auto. }
  destruct Hb as (-> & -> & Hb). cbn [bind]. split; [|split; [|split]].
  - split; [discriminate|].
    intros (t & Ht & [E|[[_ E]|(_ & _ & E)]]).
    + discriminate.
    + subst. apply present_Some in Ht. destruct Ht as [_ Hne]. cbn [truthy] in Tq.
      destruct (String.eqb_spec t EmptyString); [contradiction|discriminate].
    + discriminate.
  - discriminate.
  - split; auto.
  - auto.
Qed.

(** X17.  [verifyWebhookToken] lets a request through exactly when a token
    is configured and the first non-empty of the header, the query parameter
    and the body property is that string: the header wins over the query, the
    query over the body.  Without a configured token nothing passes.  It
    throws only when neither header nor query carries a token and the request
    has no body; every other request is refused with 401 or 500. *)
Theorem webhook_token_gate (configuredToken headerToken : option string)
    (queryToken reqBody : value) :
  let r := verifyWebhookToken configuredToken headerToken queryToken reqBody in
  (r = Ok CallNext <->
   exists t, present configuredToken = Some t /\
             carriesToken t headerToken queryToken reqBody) /\
  (present configuredToken = None -> r <> Ok CallNext) /\
  (r = Throw 200 TypeError <->
   present headerToken = None /\ truthy queryToken = false /\
   (reqBody = VUndefined \/ reqBody = VNull)) /\
  (r = Ok CallNext \/ r = Ok (Refuse 401) \/ r = Ok (Refuse 500) \/ r = Throw 200 TypeError).
Proof. exact (verifyWebhookToken_cases configuredToken headerToken queryToken reqBody). Qed.

(** ** The messaging service *)

Lemma sendTextMessage_ok (fallbackToken : option string) (to message token : string) :
  to <> EmptyString -> message <> EmptyString -> token <> EmptyString ->
  sendTextMessage fallbackToken to message (Some token)
  = inl (mkTextRequest (digitsOnly to) message token).
Proof.
  intros Ht Hm Hk. unfold sendTextMessage. cbn [present].
  destruct (String.eqb_spec token EmptyString); [contradiction|].
  destruct (String.eqb_spec to EmptyString); [contradiction|].
  destruct (String.eqb_spec message EmptyString); [contradiction|]. reflexivity.
Qed.

(** X18.  What [sendTextMessage] posts: the recipient reduced to its
    digits, the message as given, and as token the one passed with the call
    when it is not empty, else the fallback of the environment.  It refuses
    to send without any token, and (checked after the token) with an empty
    recipient or message; a recipient without a digit is not refused. *)
Theorem sendTextMessage_request (fallbackToken : option string) (to message : string)
    (apiToken : option string) :
  let r := sendTextMessage fallbackToken to message apiToken in
  (forall request, r = inl request ->
     to <> EmptyString /\ message <> EmptyString /\
     requestNumber request = digitsOnly to /\
     allChars isDigit (requestNumber request) = true /\
     requestText request = message /\
     requestToken request <> EmptyString /\
     match present apiToken with
     | Some token => requestToken request = token
     | None => fallbackToken = Some (requestToken request)
     end) /\
  (r = inr MissingToken <-> present apiToken = None /\ present fallbackToken = None) /\
  (r = inr MissingRecipientOrMessage <->
   (present apiToken <> None \/ present fallbackToken <> None) /\
   (to = EmptyString \/ message = EmptyString)).
Proof.
  cbv zeta. unfold sendTextMessage.
  assert (Body : forall t,
            let r := if String.eqb to EmptyString || String.eqb message EmptyString
                     then inr MissingRecipientOrMessage
                     else inl (mkTextRequest (digitsOnly to) message t) in
            (forall request, r = inl request ->
               to <> EmptyString /\ message <> EmptyString /\
               requestNumber request = digitsOnly to /\
               allChars isDigit (requestNumber request) = true /\
               requestText request = message /\ requestToken request = t) /\
            r <> inr MissingToken /\
            (r = inr MissingRecipientOrMessage <-> to = EmptyString \/ message = EmptyString)).
  { intros t. cbv zeta.
    destruct (String.eqb_spec to EmptyString) as [Et|Et];
      [|destruct (String.eqb_spec message EmptyString) as [Em|Em]]; cbn [orb].
    - split; [discriminate|]. split; [discriminate|]. split; auto.
    - split; [discriminate|]. split; [discriminate|]. split; auto.
    - split; [|split; [discriminate|]].
      + intros request [= <-]. cbn [requestNumber requestText requestToken].
        repeat apply conj; auto. apply filterString_all.
      + split; [discriminate|]. intros [?|?]; contradiction. }
  destruct (present apiToken) as [t|] eqn:A;
    [|destruct (present fallbackToken) as [t|] eqn:F].
  - destruct (Body t) as (B1 & B2 & B3). cbv zeta in *.
    apply present_Some in A. destruct A as [_ Ht].
    split; [|split].
    + intros request E. destruct (B1 request E) as (? & ? & ? & ? & ? & Hk).
      rewrite Hk. repeat apply conj; auto.
    + split; [intros E; now apply B2 in E|]. intros [? _]. discriminate.
    + split.
      * intros E. apply B3 in E. split; [left; discriminate|exact E].
      * intros [_ E]. now apply B3.
  - destruct (Body t) as (B1 & B2 & B3). cbv zeta in *.
    apply present_Some in F. destruct F as [Hf Ht].
    split; [|split].
    + intros request E. destruct (B1 request E) as (? & ? & ? & ? & ? & Hk).
      rewrite Hk. repeat apply conj; auto.
    + split; [intros E; now apply B2 in E|]. intros [_ ?]. discriminate.
    + split.
      * intros E. apply B3 in E. split; [right; discriminate|exact E].
      * intros [_ E]. now apply B3.
  - split; [discriminate|]. split; [tauto|].
    split; [discriminate|]. intros [[E|E] _]; exfalso; now apply E.
Qed.

(** X19.  Every notification of a webhook handler and every report of the
    payment generator passes the checks of [sendTextMessage] for any
    non-empty message, and is posted with the manager's token: the fallback
    token of the environment is never used for them. *)
Theorem notifications_use_the_manager_token `{Runtime} `{UserDirectory}
    (fallbackToken : option string) (message : string) :
  message <> EmptyString ->
  (forall seen db now reqBody n,
     In n (snd (processShopifyWebhookAt seen db now reqBody)) \/
     In n (snd (processCartPandaWebhookAt seen db now reqBody)) \/
     In n (snd (processSaleWebhookAt seen db now reqBody)) ->
     sendNewSaleNotification fallbackToken (recipient n) message (Some (credential n))
     = inl (mkTextRequest (digitsOnly (recipient n)) message (credential n))) /\
  (forall db now periodStart periodEnd n,
     In n (genNotifications (fst (generateCommissionPayments db now periodStart periodEnd))) ->
     sendSalesReport fallbackToken (recipient n) message (Some (credential n))
     = inl (mkTextRequest (digitsOnly (recipient n)) message (credential n))).
Proof.
  intros Hm. split.
  - intros seen db now reqBody n Hin.
    unfold sendNewSaleNotification.
    assert (Hn : recipient n <> EmptyString /\ credential n <> EmptyString).
    { destruct Hin as [Hin|[Hin|Hin]].
      - destruct (handler_notifies shopifyPrepare _ _ _ shopifyPrepare_sound
                    shopifyPrepare_attributes seen db now reqBody n Hin) as (_ & _ & ? & ? & _).
        auto.
      - destruct (handler_notifies cartPandaPrepare _ _ _ cartPandaPrepare_sound
                    cartPandaPrepare_attributes seen db now reqBody n Hin) as (_ & _ & ? & ? & _).
        auto.
      - destruct (handler_notifies saleWebhookPrepare _ _ _ saleWebhookPrepare_sound
                    saleWebhookPrepare_attributes seen db now reqBody n Hin) as (_ & _ & ? & ? & _).
        auto. }
    destruct Hn. now apply sendTextMessage_ok.
  - intros db now ps pe n Hin. unfold sendSalesReport.
    destruct (generator_store db now ps pe) as (_ & _ & _ & _ & Hn).
    destruct (Hn n Hin). now apply sendTextMessage_ok.
Qed.

(** ** The bulk replacement of the tiers *)

Lemma filter_filter_implied {A} (f g : A -> bool) (l : list A) :
  (forall x, f x = true -> g x = true) -> filter f (filter g l) = filter f l.
Proof.
  intros Hfg. induction l as [|x r IH]; cbn [filter]; [reflexivity|].
  destruct (g x) eqn:G; cbn [filter].
  - now rewrite IH.
  - destruct (f x) eqn:F; [|exact IH]. rewrite (Hfg x F) in G. discriminate.
Qed.

Section BulkFacts.
Context `{Runtime}.

Lemma replaceTiers_inv (f : Faults) current role items committed created :
  replaceTiers f current role items = Ok (committed, created) ->
  deleteFails f = false /\ insertFails f = false /\ commitFails f = false /\
  mapResult (newTierData role) items = Ok created /\
  forallb tierSchemaValid created = true /\
  committed = filter (notOfRole role) current ++ created.
Proof.
  unfold replaceTiers, deleteMany, insertMany, commitTransaction.
  destruct (deleteFails f); [discriminate|]. cbn [bind].
  destruct (mapResult (newTierData role) items) as [docs|s e]; [|discriminate]. cbn [bind].
  destruct (insertFails f); [discriminate|].
  destruct (forallb tierSchemaValid docs) eqn:V; [|discriminate]. cbn [bind].
  destruct (commitFails f); [discriminate|]. cbn [bind].
  intros [= <- <-]. repeat apply conj; auto.
Qed.

Lemma saveCommissionTiersBulk_success (f : Faults) (db : DB) (reqBody : value) b :
  snd (saveCommissionTiersBulk f db reqBody) = mkResponse 200 b ->
  exists role items committed created,
    getProp reqBody "appliesTo" = Ok (field reqBody "appliesTo") /\
    parseRole (field reqBody "appliesTo") = Some role /\
    field reqBody "tiers" = VArray items /\
    validateTiers items = Ok tt /\
    startFails f = false /\
    replaceTiers f (tiers db) role items = Ok (committed, created) /\
    b = TiersSaved created /\
    fst (saveCommissionTiersBulk f db reqBody) = withTiers db committed.
Proof.
  assert (No : forall s e, errorHandler s e <> mkResponse 200 b).
  { intros s e E. apply (f_equal status) in E. cbn [status] in E.
    destruct (errorHandler_status s e) as [E'|[E' Hs]]; rewrite E' in E; congruence. }
  unfold saveCommissionTiersBulk.
  destruct (getProp reqBody "appliesTo") as [a|s e] eqn:G; cbn [bind];
    [|intros E; now apply No in E].
  assert (Ea : a = field reqBody "appliesTo").
  { destruct reqBody; cbn [getProp] in G; try discriminate; now injection G as <-. }
  subst a.
  destruct (parseRole (field reqBody "appliesTo")) as [role|] eqn:P;
    [|intros E; now apply No in E].
  destruct (field reqBody "tiers") as [| | | | |items|] eqn:T;
    try (intros E; now apply No in E).
  destruct (validateTiers items) as [[]|s e] eqn:V; cbn [bind];
    [|intros E; now apply No in E].
  destruct (startFails f) eqn:S; [intros E; now apply No in E|].
  destruct (replaceTiers f (tiers db) role items) as [[committed created]|s e] eqn:R;
    [|intros E; now apply No in E].
  cbn [fst snd]. intros [= <-].
  exists role, items, committed, created. repeat apply conj; auto.
Qed.

Lemma validateTier_strict_max (entry : value) minV maxV :
  validateTier entry = Ok tt ->
  field entry "minSalesValue" = VNumber minV ->
  field entry "maxSalesValue" = VNumber maxV ->
  minV < maxV.
Proof.
  unfold validateTier. intros V Hmin Hmax.
  destruct (getProp entry "minSalesValue") as [m|s e] eqn:G; [|discriminate].
  assert (Em : m = VNumber minV).
  { destruct entry; cbn [getProp] in G; try discriminate; injection G as <-; exact Hmin. }
  subst m. cbn [bind] in V. rewrite Hmax in V.
  destruct (isUndefined (VNumber minV) || isUndefined (field entry "commissionPercentage"));
    [discriminate|].
  destruct (negb (isNumberType (VNumber minV))
            || negb (isNumberType (field entry "commissionPercentage"))
            || negb (isUndefined (VNumber maxV)) && negb (isNumberType (VNumber maxV)));
    [discriminate|].
  cbn [isUndefined negb andb numberLe] in V.
  destruct (Qle_bool maxV minV) eqn:L; [discriminate|].
  apply Qnot_le_lt. intros Hle. apply Qle_bool_iff in Hle. congruence.
Qed.

Lemma newTierData_stored role entry t :
  validateTier entry = Ok tt ->
  newTierData role entry = Ok t ->
  tierSchemaValid t = true ->
  storedFor role entry t.
Proof.
  intros V N S. unfold newTierData in N.
  destruct (field entry "minSalesValue") as [| | |minV| | |] eqn:Hmin; try discriminate.
  destruct (field entry "commissionPercentage") as [| | |pct| | |] eqn:Hpct; try discriminate.
  unfold tierSchemaValid in S.
  destruct (field entry "maxSalesValue") as [| | |maxV| | |] eqn:Hmax; try discriminate;
    injection N as <-; cbn [tierName minSalesValue maxSalesValue commissionPercentage
                            appliesTo isActive] in *;
    apply andb_true_iff in S; destruct S as [S S5];
    apply andb_true_iff in S; destruct S as [S S4];
    apply andb_true_iff in S; destruct S as [S S3];
    apply andb_true_iff in S; destruct S as [S1 S2];
    apply Qle_bool_iff in S2, S3, S4;
    (assert (Hn : forall s : string, negb (String.eqb s EmptyString) = true -> s <> EmptyString)
       by (intros s E ->; discriminate));
    unfold storedFor;
    cbn [tierName minSalesValue maxSalesValue commissionPercentage appliesTo isActive];
    rewrite ?Hmin, ?Hpct, ?Hmax; repeat apply conj; auto.
  exact (validateTier_strict_max entry minV maxV V Hmin Hmax).
Qed.

Lemma created_stored role : forall items created,
  validateTiers items = Ok tt ->
  mapResult (newTierData role) items = Ok created ->
  forallb tierSchemaValid created = true ->
  Forall2 (storedFor role) items created.
Proof.
  induction items as [|entry rest IH]; intros created V M S.
  - injection M as <-. constructor.
  - cbn [validateTiers mapResult] in V, M.
    destruct (validateTier entry) as [[]|s e] eqn:Ve; [|discriminate]. cbn [bind] in V.
    destruct (newTierData role entry) as [t|s e] eqn:Ne; [|discriminate]. cbn [bind] in M.
    destruct (mapResult (newTierData role) rest) as [ts|s e]; [|discriminate].
    cbn [bind] in M. injection M as <-. cbn [forallb] in S.
    apply andb_true_iff in S. destruct S as [St Sr].
    constructor; [now apply newTierData_stored|now apply IH].
Qed.

Lemma stored_ofRole role items created :
  Forall2 (storedFor role) items created ->
  filter (ofRole role) created = created /\ filter (notOfRole role) created = [].
Proof.
  induction 1 as [|entry t items created Hs _ [IH1 IH2]]; [split; reflexivity|].
  destruct Hs as (_ & _ & _ & Ha & _).
  assert (E : Role_eqb (appliesTo t) role = true) by now apply Role_eqb_eq.
  cbn [filter]. unfold ofRole at 1, notOfRole at 1. rewrite E. cbn [negb].
  now rewrite IH1, IH2.
Qed.

Lemma filter_ofRole_others role (l : list ICommissionTier) :
  filter (ofRole role) (filter (notOfRole role) l) = [].
Proof.
  induction l as [|t r IH]; cbn [filter]; [reflexivity|].
  unfold notOfRole at 1. destruct (Role_eqb (appliesTo t) role) eqn:E; cbn [negb filter];
    [exact IH|]. unfold ofRole at 1. now rewrite E.
Qed.

Lemma filter_notOfRole_idem role (l : list ICommissionTier) :
  filter (notOfRole role) (filter (notOfRole role) l) = filter (notOfRole role) l.
Proof. apply filter_filter_implied. auto. Qed.

End BulkFacts.

(** X20.  When the bulk replacement answers 200, the tiers of the role in
    the store are, in the order of the request, one active tier per entry
    with the entry's numbers and a generated name; each has a minimum that
    is not negative, a percentage between 0 and 100 and, when it has a
    maximum, one strictly above its minimum.  The answer lists these tiers;
    the tiers of the other role, the sales and the payments are as before. *)
Theorem bulk_replace_installs_the_entries `{Runtime} (f : Faults) (db : DB)
    (reqBody : value) (b : Body) :
  snd (saveCommissionTiersBulk f db reqBody) = mkResponse 200 b ->
  let db' := fst (saveCommissionTiersBulk f db reqBody) in
  exists role items created,
    parseRole (field reqBody "appliesTo") = Some role /\
    field reqBody "tiers" = VArray items /\
    b = TiersSaved created /\
    filter (ofRole role) (tiers db') = created /\
    Forall2 (storedFor role) items created /\
    filter (notOfRole role) (tiers db') = filter (notOfRole role) (tiers db) /\
    sales db' = sales db /\ payments db' = payments db /\ nextId db' = nextId db.
Proof.
  intros Hs. cbv zeta.
  destruct (saveCommissionTiersBulk_success f db reqBody b Hs)
    as (role & items & committed & created & _ & Hr & Ht & Hv & _ & Hrep & Hb & Hdb).
  destruct (replaceTiers_inv _ _ _ _ _ _ Hrep) as (_ & _ & _ & Hm & Hval & ->).
  pose proof (created_stored role items created Hv Hm Hval) as St.
  destruct (stored_ofRole role items created St) as [F1 F2].
  exists role, items, created. rewrite Hdb. cbn [withTiers tiers sales payments nextId].
  rewrite !filter_app, F1, F2, filter_ofRole_others, filter_notOfRole_idem, app_nil_r.
  repeat apply conj; auto.
Qed.

(** X22.  After an accepted bulk replacement both resolvers compute the
    commission of the role from the tiers of the request alone (so 0 when
    the request had no entry), and the commission of the other role as
    before the request. *)
Theorem bulk_replace_then_resolve `{Runtime} (f : Faults) (db : DB)
    (reqBody : value) (created : list ICommissionTier) :
  snd (saveCommissionTiersBulk f db reqBody) = mkResponse 200 (TiersSaved created) ->
  let db' := fst (saveCommissionTiersBulk f db reqBody) in
  exists role,
    parseRole (field reqBody "appliesTo") = Some role /\
    (forall saleValue,
       calculateCommission (tiers db') saleValue role
         = calculateCommission created saleValue role /\
       calculateCommissionForSale (tiers db') saleValue role
         = calculateCommissionForSale created saleValue role) /\
    (created = [] ->
     forall saleValue, calculateCommission (tiers db') saleValue role = DFin 0) /\
    (forall other saleValue, other <> role ->
       calculateCommission (tiers db') saleValue other
         = calculateCommission (tiers db) saleValue other /\
       calculateCommissionForSale (tiers db') saleValue other
         = calculateCommissionForSale (tiers db) saleValue other).
Proof.
  intros Hs. cbv zeta.
  destruct (saveCommissionTiersBulk_success f db reqBody _ Hs)
    as (role & items & committed & created' & _ & Hr & Ht & Hv & _ & Hrep & Hb & Hdb).
  injection Hb as <-.
  destruct (replaceTiers_inv _ _ _ _ _ _ Hrep) as (_ & _ & _ & Hm & Hval & ->).
  pose proof (created_stored role items created Hv Hm Hval) as St.
  destruct (stored_ofRole role items created St) as [F1 F2].
  assert (Own : forall v,
            filter (tierQuery role v) (filter (notOfRole role) (tiers db) ++ created)
            = filter (tierQuery role v) created).
  { intros v. rewrite filter_app.
    rewrite <- (filter_filter_implied (tierQuery role v) (ofRole role)
                  (filter (notOfRole role) (tiers db))).
    - now rewrite filter_ofRole_others.
    - intros t Q. unfold tierQuery in Q. unfold ofRole.
      apply andb_true_iff in Q. destruct Q as [Q _].
      apply andb_true_iff in Q. now destruct Q. }
  assert (Other : forall other v, other <> role ->
            filter (tierQuery other v) (filter (notOfRole role) (tiers db) ++ created)
            = filter (tierQuery other v) (tiers db)).
  { intros other v Ho.
    assert (Q : forall t, tierQuery other v t = true -> notOfRole role t = true).
    { intros t Q. unfold tierQuery in Q. unfold notOfRole.
      apply andb_true_iff in Q. destruct Q as [Q _].
      apply andb_true_iff in Q. destruct Q as [Q _].
      apply Role_eqb_eq in Q. destruct (Role_eqb (appliesTo t) role) eqn:E; [|reflexivity].
      apply Role_eqb_eq in E. congruence. }
    rewrite filter_app, (filter_filter_implied _ _ _ Q).
    rewrite <- (filter_filter_implied (tierQuery other v) (notOfRole role) created Q).
    now rewrite F2, app_nil_r. }
  exists role. rewrite Hdb. cbn [withTiers tiers].
  unfold calculateCommission, calculateCommissionForSale.
  repeat apply conj; auto.
  - intros v. now rewrite Own.
  - intros -> v. now rewrite Own.
  - intros other v Ho. now rewrite (Other other v Ho).
Qed.

(** ** The webhook routes *)

Section RouteFacts.
Context `{Runtime} `{UserDirectory}.

Lemma webhookRoute_guarded (handler : Handler) (configuredToken headerToken : option string)
    (queryToken : value) (db : DB) (now : Z) (reqBody : value) :
  let out := webhookRoute handler configuredToken headerToken queryToken db now reqBody in
  ((exists t, present configuredToken = Some t /\
              carriesToken t headerToken queryToken reqBody) /\
   out = (fst (fst (handler db now reqBody)),
          Answered (snd (fst (handler db now reqBody))),
          snd (handler db now reqBody)))
  \/
  ((forall t, present configuredToken = Some t ->
              ~ carriesToken t headerToken queryToken reqBody) /\
   fst (fst out) = db /\ snd out = [] /\
   (snd (fst out) = Rejected 401 \/ snd (fst out) = Rejected 500 \/
    snd (fst out) = Answered (mkResponse 500 (Failure TypeError)))).
Proof.
  cbv zeta. unfold webhookRoute.
  destruct (verifyWebhookToken_cases configuredToken headerToken queryToken reqBody)
    as (Pass & _ & _ & Cases). cbv zeta in Pass, Cases.
  assert (No : verifyWebhookToken configuredToken headerToken queryToken reqBody <> Ok CallNext ->
               forall t, present configuredToken = Some t ->
                         ~ carriesToken t headerToken queryToken reqBody).
  { intros Hn t Ht Hc. apply Hn, Pass. now exists t. }
  destruct Cases as [E|[E|[E|E]]]; rewrite E in *.
  - left. split; [now apply Pass|reflexivity].
  - right. cbn [fst snd]. repeat apply conj; auto. apply No. discriminate.
  - right. cbn [fst snd]. repeat apply conj; auto. apply No. discriminate.
  - right. cbn [fst snd]. repeat apply conj; auto. apply No. discriminate.
Qed.

Lemma webhookRoute_records (h : HandlerAt) (configuredToken headerToken : option string)
    (queryToken : value) (db : DB) (now : Z) (reqBody : value) :
  AppendsAtMostOneSale h ->
  let out := webhookRoute (fun db => h db db) configuredToken headerToken queryToken
               db now reqBody in
  ((forall t, present configuredToken = Some t ->
              ~ carriesToken t headerToken queryToken reqBody) ->
   fst (fst out) = db /\ snd out = [] /\
   (snd (fst out) = Rejected 401 \/ snd (fst out) = Rejected 500 \/
    snd (fst out) = Answered (mkResponse 500 (Failure TypeError)))) /\
  (fst (fst out) <> db \/ snd out <> [] ->
   exists t s r,
     present configuredToken = Some t /\
     carriesToken t headerToken queryToken reqBody /\
     snd (fst out) = Answered r /\ status r = 201%nat /\
     sales (fst (fst out)) = sales db ++ [s]).
Proof.
  intros Ha. cbv zeta.
  destruct (webhookRoute_guarded (fun db => h db db) configuredToken headerToken queryToken
              db now reqBody) as [[(t & Ht & Hc) E]|(Hn & Hd & Hs & Hr)]; cbv zeta in *.
  - split.
    + intros No. exfalso. exact (No t Ht Hc).
    + rewrite E. cbn [fst snd]. intros Hch.
      destruct (Ha db db now reqBody) as [(Hd & Hs & _)|(s & H201 & Hsl & _)];
        cbv zeta in *.
      * exfalso. destruct Hch as [Hch|Hch]; [now apply Hch|now apply Hch].
      * exists t, s, (snd (fst (h db db now reqBody))). repeat apply conj; auto.
  - split; [auto|].
    intros [Hch|Hch]; exfalso; [now apply Hch|now apply Hch].
Qed.

End RouteFacts.

(** X24.  Behind [router.use(verifyWebhookToken)] a webhook route leaves
    the store as it is and notifies nobody, answering 401 or 500, for every
    request that does not carry the configured token.  Whenever a route
    changes the store or sends a notification, a token is configured, the
    request carries it (in the header, else the query, else the body), the
    answer is the handler's 201 and one sale was appended. *)
Theorem webhook_routes_require_the_token `{Runtime} `{UserDirectory}
    (configuredToken headerToken : option string) (queryToken : value)
    (db : DB) (now : Z) (reqBody : value) (handler : Handler) :
  handler = processSaleWebhook \/ handler = processShopifyWebhook \/
  handler = processCartPandaWebhook ->
  let out := webhookRoute handler configuredToken headerToken queryToken db now reqBody in
  ((forall t, present configuredToken = Some t ->
              ~ carriesToken t headerToken queryToken reqBody) ->
   fst (fst out) = db /\ snd out = [] /\
   (snd (fst out) = Rejected 401 \/ snd (fst out) = Rejected 500 \/
    snd (fst out) = Answered (mkResponse 500 (Failure TypeError)))) /\
  (fst (fst out) <> db \/ snd out <> [] ->
   exists t s r,
     present configuredToken = Some t /\
     carriesToken t headerToken queryToken reqBody /\
     snd (fst out) = Answered r /\ status r = 201%nat /\
     sales (fst (fst out)) = sales db ++ [s]).
Proof.
  intros [-> |[-> | ->]].
  - apply (webhookRoute_records processSaleWebhookAt).
    apply (handler_appends saleWebhookPrepare _ _ saleWebhookPrepare_sound).
  - apply (webhookRoute_records processShopifyWebhookAt).
    apply (handler_appends shopifyPrepare _ _ shopifyPrepare_sound).
  - apply (webhookRoute_records processCartPandaWebhookAt).
    apply (handler_appends cartPandaPrepare _ _ cartPandaPrepare_sound).
Qed.

(** ** Examples *)

Section Examples.
#[local] Existing Instance exampleRuntime.
#[local] Existing Instance exampleDirectory.

(** The Shopify example delivered twice: the second delivery is answered with
    the sale of the first. *)
Lemma duplicate_delivery_witness :
  exists s,
    sales (fst (fst (processShopifyWebhook emptyDB 0 shopifyExample))) = [s] /\
    processShopifyWebhook (fst (fst (processShopifyWebhook emptyDB 0 shopifyExample)))
        1 shopifyExample
      = (fst (fst (processShopifyWebhook emptyDB 0 shopifyExample)),
         mkResponse 200 (AlreadyProcessed (saleId s)), []).
Proof.
  pose proof (proj1 (proj2 (proj2 (proj2 duplicate_delivery_is_idempotent)))) as R.
  edestruct (R emptyDB 0%Z 1%Z shopifyExample) as (s & o & Hs & _ & _ & _ & Hr & _).
  - exact I.
  - lazy. reflexivity.
  - exists s. split; [exact Hs|]. exact Hr.
Defined.

(** Two deliveries of the Shopify example that both pass the duplicate check
    on the empty store: the second insert meets the row of the first and the
    handler answers [500], not an already-processed success. *)
Lemma duplicate_on_insert_counterexample :
  let db1 := fst (fst (processShopifyWebhook emptyDB 0 shopifyExample)) in
  shopifyOrderKey shopifyExample = Some "34488130" /\
  findSaleByOrderId (sales emptyDB) "34488130" = None /\
  (exists existing, findSaleByOrderId (sales db1) "34488130" = Some existing) /\
  processShopifyWebhookAt emptyDB db1 1 shopifyExample
    = (db1, mkResponse 500 (Failure DuplicateKey), []) /\
  (forall id, snd (fst (processShopifyWebhookAt emptyDB db1 1 shopifyExample))
              <> mkResponse 200 (AlreadyProcessed id)).
Proof.
  vm_compute. repeat split; try (eexists; reflexivity); discriminate.
Qed.

Lemma duplicate_on_insert_witness :
  exists e,
    processShopifyWebhookAt emptyDB
      (fst (fst (processShopifyWebhook emptyDB 0 shopifyExample))) 1 shopifyExample
    = (fst (fst (processShopifyWebhook emptyDB 0 shopifyExample)),
       mkResponse 500 (Failure e), []).
Proof.
  edestruct (proj1 duplicate_on_insert_surfaces emptyDB
               (fst (fst (processShopifyWebhook emptyDB 0 shopifyExample)))
               1%Z shopifyExample) as (e & He & _).
  - lazy. reflexivity.
  - lazy. reflexivity.
  - exists e. exact He.
Defined.

(** The generic webhook rejects a coupon of no influencer with [400]. *)
Lemma unattributed_orders_counterexample :
  processSaleWebhook emptyDB 0 saleExampleUnknownCoupon
    = (emptyDB, mkResponse 400 (Failure InfluencerNotFound), []) /\
  saleIntake saleExampleUnknownCoupon
    = Ok (mkSaleOrder (VString "A-1") (VNumber 100) (VString "nobody")) /\
  FindUserByCoupon (VString "nobody") = None.
Proof. vm_compute. repeat split. Qed.

(** A CartPanda order with the coupon of no influencer is answered [200]. *)
Lemma unattributed_orders_witness :
  exists answer,
    processCartPandaWebhook emptyDB 0 cartPandaCurrencyTotal
      = (emptyDB, mkResponse 200 answer, []).
Proof.
  edestruct (proj1 (proj2 (unattributed_orders emptyDB 0%Z cartPandaCurrencyTotal)))
    as (answer & Ha & _).
  - lazy. reflexivity.
  - exists (VString "ninguem"). split; [reflexivity|right; reflexivity].
  - exists answer. exact Ha.
Defined.



(** Only the first element of an array is read, and only a string is
    trimmed. *)
Lemma cartPanda_coupon_counterexample :
  cartPandaCouponCode
    (VArray [obj [("code", VString "")]; obj [("code", VString "x")]]) = Ok VNull /\
  cartPandaCouponCode (VString " x") = Ok (VString "x") /\
  cartPandaCouponCode (obj [("code", VString " x")]) = Ok (VString " x") /\
  cartPandaCouponCode (VArray [obj [("code", VString " x")]]) = Ok (VString " x").
Proof. repeat apply conj; reflexivity. Qed.

(** The three encodings of the coupon [antonio10]. *)
Lemma cartPanda_coupon_witness :
  cartPandaCouponCode (VString "antonio10") = Ok (VString "antonio10") /\
  cartPandaCouponCode (VArray [VObject [("code", VString "antonio10")]])
    = Ok (VString "antonio10") /\
  cartPandaCouponCode (VArray [VString "antonio10"]) = Ok (VString "antonio10") /\
  cartPandaCouponCode (VObject [("code", VString "antonio10")])
    = Ok (VString "antonio10").
Proof.
  apply (proj1 (proj2 (proj2 (proj2 (proj2 cartPanda_coupon_encodings))))
           "antonio10" []).
  - discriminate.
  - reflexivity.
Defined.






(** A list with an inverted range is refused and the tiers are kept. *)
Lemma tier_bulk_replace_witness :
  fst (saveCommissionTiersBulk noFaults emptyDB bulkInvalid) = emptyDB /\
  snd (saveCommissionTiersBulk noFaults emptyDB bulkInvalid)
    = mkResponse 400 (Failure InvalidInput).
Proof.
  apply (proj1 (proj2 (tier_bulk_replace_all_or_nothing noFaults emptyDB bulkInvalid))
           [ [("minSalesValue", VNumber 0); ("commissionPercentage", VNumber 10);
              ("maxSalesValue", VNumber 1000)];
             [("minSalesValue", VNumber 1000); ("commissionPercentage", VNumber 15);
              ("maxSalesValue", VNumber 500)] ]).
  - reflexivity.
  - eexists. split; [right; left; reflexivity|reflexivity].
Defined.

(** A valid list replaces the influencer tiers and keeps the manager tier; the
    same list leaves the tiers as they were when the insert or the commit
    fails. *)
Example tier_bulk_replace_examples :
  map (fun t => (minSalesValue t, commissionPercentage t, appliesTo t))
      (tiers (fst (saveCommissionTiersBulk noFaults emptyDB bulkValid)))
    = [(0, 5, MANAGER); (0, 12, INFLUENCER); (2000, 18, INFLUENCER)] /\
  saveCommissionTiersBulk (mkFaults false false true false) emptyDB bulkValid
    = (emptyDB, mkResponse 500 (Failure PersistenceError)) /\
  saveCommissionTiersBulk (mkFaults false false false true) emptyDB bulkValid
    = (emptyDB, mkResponse 500 (Failure PersistenceError)).
Proof. repeat apply conj; vm_compute; reflexivity. Qed.

End Examples.

(** ** Examples of the further properties *)

Section FurtherExamples.
#[local] Existing Instance exampleRuntime.
#[local] Existing Instance exampleDirectory.


Lemma emptyDB_ledger : ledgerOk emptyDB.
Proof.
  unfold ledgerOk. repeat apply conj; simpl;
    first [apply NoDup_nil | intros ? []].
Defined.

Lemma threeSalesDB_ledger : ledgerOk threeSalesDB.
Proof.
  unfold ledgerOk. repeat apply conj.
  - vm_compute. repeat constructor; simpl; intuition discriminate.
  - vm_compute. repeat constructor; simpl; intuition discriminate.
  - constructor.
  - intros s Hin. cbn [threeSalesDB sales nextId] in *.
    repeat (destruct Hin as [<-|Hin]; [cbn; lia|]). destruct Hin.
  - intros p [].
Defined.

(** The example tiers in reverse order give the same commission. *)
Lemma commission_order_witness :
  calculateCommission exampleTiers 1500 INFLUENCER
  = calculateCommission (rev exampleTiers) 1500 INFLUENCER.
Proof.
  apply commission_independent_of_order.
  - intros t. apply in_rev.
  - intros t t' Ht Ht' (Ra & Ia & _) (Ra' & Ia' & _) E.
    cbn [exampleTiers In] in Ht, Ht'.
    repeat match goal with
           | H : _ \/ _ |- _ => destruct H as [<-|H]
           | H : False |- _ => destruct H
           end;
      try reflexivity; try discriminate Ra; try discriminate Ra';
      try discriminate Ia; try discriminate Ia'; vm_compute in E; discriminate E.
Defined.



(** The store after the Shopify example still satisfies the ledger
    invariant. *)
Lemma handlers_keep_ledger_witness :
  ledgerOk (fst (fst (processShopifyWebhook emptyDB 0 shopifyExample))).
Proof.
  exact (proj1 handlers_keep_ledger emptyDB emptyDB 0%Z shopifyExample emptyDB_ledger).
Defined.

(** The sale of the Shopify example belongs to the user of the coupon
    [antonio10], with the manager of that user, and is stored with the
    amounts of the backfill. *)
Lemma handlers_register_witness :
  exists s,
    sales (fst (fst (processShopifyWebhook emptyDB 0 shopifyExample)))
      = sales emptyDB ++ [s] /\
    influencer s = userId influencerAntonio /\
    manager s = managerOf influencerAntonio /\
    influencerCommissionEarned s = Some (influencerAmount (tiers emptyDB) s).
Proof.
  edestruct (proj1 handlers_register_what_backfill_would emptyDB 0%Z shopifyExample)
    as (s & c & u & (o & Ho & Hc) & Hu & Hs & Hi & Hm & _ & _ & Hic & _).
  - vm_compute. reflexivity.
  - vm_compute in Ho. injection Ho as <-. vm_compute in Hc. injection Hc as <-.
    vm_compute in Hu. injection Hu as <-.
    exists s. split; [exact Hs|]. split; [exact Hi|]. split; [exact Hm|exact Hic].
Defined.

(** The Shopify example notifies the influencer with the token of the
    manager. *)
Lemma handlers_notify_witness :
  snd (processShopifyWebhook emptyDB 0 shopifyExample)
    = [mkNotification "5511900000002" "token-ana"].
Proof.
  refine (proj1 (proj1 handlers_notify_through_manager emptyDB emptyDB 0%Z shopifyExample
                   (mkNotification "5511900000002" "token-ana") _)).
  vm_compute. left. reflexivity.
Defined.

(** A string in [discount_codes] gives the coupon [undefined] in the Shopify
    handler. *)
Lemma shopify_coupon_witness :
  shopifyCouponCode (VString "antonio10") = Ok (Some VUndefined).
Proof.
  apply (proj1 (proj2 (proj2 (proj2 (proj2 shopify_coupon_by_shape)))) "antonio10").
  discriminate.
Defined.

Lemma null_coupon_witness :
  processShopifyWebhook emptyDB 0 shopifyNullCoupon
    = (emptyDB, mkResponse 500 (Failure TypeError), []).
Proof.
  eapply (proj1 (null_coupon_entry_is_a_server_error emptyDB 0%Z shopifyNullCoupon)).
  - lazy. reflexivity.
  - lazy. reflexivity.
  - lazy. reflexivity.
Defined.

Lemma blank_coupon_witness :
  processCartPandaWebhook emptyDB 0 cartPandaBlankCoupon
    = (emptyDB, mkResponse 200 NoCoupon, []).
Proof.
  eapply (blank_coupon_is_no_coupon emptyDB 0%Z cartPandaBlankCoupon).
  - lazy. reflexivity.
  - lazy. reflexivity.
  - lazy. reflexivity.
  - reflexivity.
Defined.

Lemma stripping_witness :
  stripNonNumeric "160.65" = "160.65" /\
  cartPandaTotal (VString "160.65") = ofNum (parseFloat (VString "160.65")).
Proof.
  destruct (proj2 (proj2 (proj2 (stripping_keeps_numeric_characters "160.65" EmptyString)))
              eq_refl) as (Hs & Ht & _).
  split; [exact Hs|exact Ht].
Defined.

(** The generator keeps the ledger invariant of the store of the aggregation
    example. *)
Lemma generator_ledger_witness :
  ledgerOk (genDB (fst (generateCommissionPayments threeSalesDB 50 0 10))).
Proof.
  exact (proj1 (proj2 (proj2 (proj2 (proj2
           (generator_only_appends_payments threeSalesDB 50%Z 0%Z 10%Z)))))
           threeSalesDB_ledger).
Defined.

(** A period that ends before it starts: the pending sales stay pending. *)
Lemma empty_period_witness :
  generateCommissionPayments pendingDB 50 10 0
    = (mkGeneration pendingDB [] [], Ok (mkPaymentsSummary 0 0 0 (DFin 0))).
Proof.
  apply generator_on_empty_period.
  intros s _. apply inPeriod_reversed. reflexivity.
Defined.

(** A request for a reversed period is refused and changes nothing. *)
Lemma payment_request_witness :
  fst (createCommissionPayments threeSalesDB 50 reversedPeriodRequest)
    = mkGeneration threeSalesDB [] [].
Proof.
  apply (proj1 (proj2 (proj2 (proj2
           (payment_request_outcome threeSalesDB 50%Z reversedPeriodRequest))))).
  vm_compute. reflexivity.
Defined.

(** The header decides, whatever the query says. *)
Lemma webhook_token_witness :
  verifyWebhookToken (Some "segredo") (Some "segredo") (VString "outro") VUndefined
    = Ok CallNext.
Proof.
  apply (proj2 (proj1 (webhook_token_gate (Some "segredo") (Some "segredo")
                         (VString "outro") VUndefined))).
  exists "segredo". split; [reflexivity|left; reflexivity].
Defined.

(** An empty token and no fallback: nothing is sent. *)
Lemma missing_token_witness :
  sendTextMessage None "5511900000002" "oi" (Some EmptyString) = inr MissingToken.
Proof.
  apply (proj2 (proj1 (proj2
           (sendTextMessage_request None "5511900000002" "oi" (Some EmptyString))))).
  split; reflexivity.
Defined.

(** The notification of the Shopify example is posted with the token of
    Ana, not with the token of the environment. *)
Lemma manager_token_witness :
  sendNewSaleNotification (Some "token-env") "5511900000002" "Nova venda" (Some "token-ana")
    = inl (mkTextRequest "5511900000002" "Nova venda" "token-ana").
Proof.
  refine (proj1 (notifications_use_the_manager_token (Some "token-env") "Nova venda" _)
            emptyDB emptyDB 0%Z shopifyExample
            (mkNotification "5511900000002" "token-ana") _).
  - discriminate.
  - left. vm_compute. left. reflexivity.
Defined.

(** The valid list of the bulk example. *)
Lemma bulk_installs_witness :
  exists role items created,
    parseRole (field bulkValid "appliesTo") = Some role /\
    field bulkValid "tiers" = VArray items /\
    snd (saveCommissionTiersBulk noFaults emptyDB bulkValid)
      = mkResponse 200 (TiersSaved created) /\
    filter (ofRole role) (tiers (fst (saveCommissionTiersBulk noFaults emptyDB bulkValid)))
      = created /\
    Forall2 (storedFor role) items created.
Proof.
  edestruct (bulk_replace_installs_the_entries noFaults emptyDB bulkValid)
    as (role & items & created & Hr & Ht & Hb & Hf & Hs & _).
  - lazy. reflexivity.
  - exists role, items, created. rewrite <- Hb.
    repeat apply conj; [exact Hr|exact Ht|reflexivity|exact Hf|exact Hs].
Defined.

(** After the valid list a sale of 3000 earns the 18% of the new tier, and a
    manager the 5% of before. *)
Lemma bulk_resolve_witness :
  exists created,
    calculateCommission
      (tiers (fst (saveCommissionTiersBulk noFaults emptyDB bulkValid))) 3000 INFLUENCER
      = calculateCommission created 3000 INFLUENCER /\
    calculateCommission
      (tiers (fst (saveCommissionTiersBulk noFaults emptyDB bulkValid))) 3000 MANAGER
      = calculateCommission (tiers emptyDB) 3000 MANAGER.
Proof.
  eexists.
  edestruct (bulk_replace_then_resolve noFaults emptyDB bulkValid) as (role & Hr & Ho & _ & Hx).
  - lazy. reflexivity.
  - vm_compute in Hr. injection Hr as <-. split.
    + exact (proj1 (Ho 3000)).
    + apply (Hx MANAGER 3000). discriminate.
Defined.

(** The Shopify example without a token is stopped before the handler. *)
Lemma webhook_route_witness :
  fst (fst (webhookRoute processShopifyWebhook (Some "segredo") None VUndefined
              emptyDB 0 shopifyExample)) = emptyDB /\
  snd (webhookRoute processShopifyWebhook (Some "segredo") None VUndefined
         emptyDB 0 shopifyExample) = [].
Proof.
  destruct (proj1 (webhook_routes_require_the_token (Some "segredo") None VUndefined
                     emptyDB 0%Z shopifyExample processShopifyWebhook
                     (or_intror (or_introl eq_refl)))) as (Hd & Hn & _).
  - intros t _ [E|[[_ E]|(_ & _ & E)]]; [discriminate E|discriminate E|].
    vm_compute in E. discriminate E.
  - split; [exact Hd|exact Hn].
Defined.

End FurtherExamples.

